(** * Inventory and repair-tracking API: handlers over a relational store

    Shallow embedding of the request handlers of [Backend/main.py] and
    [FastAPI/main.py]: listing, creation, partial update, delete and search
    of parts ([repuestos]) and repair jobs ([maquinas]), the stock
    reconciliation [update_stock], and the helper [sanitize_data].

    Python values are an inductive type, a handler is a computation in a
    state-and-exception monad over one database connection, and the SQL
    statements the handlers send are functions on typed tables. *)

From Stdlib Require Import ZArith List String Ascii Bool Lia.
From Stdlib Require Import Floats.SpecFloat.
From Stdlib Require Import DecimalString.
From Stdlib Require Import Sorting.Permutation Sorting.Sorted.
Import ListNotations.

Local Open Scope string_scope.
Local Open Scope Z_scope.

(** ** Python values

    The values a decoded JSON document or a request payload is made of.
    A [dict] keeps its insertion order, so it is a list of items; its keys
    are distinct, as in every Python dict. A [float] is an IEEE 754
    binary64 number. *)

#[local] Set Warnings "-register-all".

Inductive pyval : Type :=
| PNone
| PBool (b : bool)
| PInt (n : Z)
| PFloat (f : spec_float)
| PStr (s : string)
| PList (l : list pyval)
| PDict (d : list (string * pyval)).

Definition prec : Z := 53.
Definition emax : Z := 1024.

Definition float_nan : spec_float := S754_nan.
Definition float_inf : spec_float := S754_infinity false.
Definition float_neg_inf : spec_float := S754_infinity true.

(** [dict.keys()], [dict.values()] and [dict.items()]. *)
Definition keys (d : list (string * pyval)) : list string := map fst d.
Definition values (d : list (string * pyval)) : list pyval := map snd d.

(** [d[k]] on the items of a dict. *)
Fixpoint dict_get (k : string) (d : list (string * pyval)) : option pyval :=
  match d with
  | [] => None
  | (k', v) :: rest => if String.eqb k k' then Some v else dict_get k rest
  end.

(** [k in d] on the items of a dict. *)
Definition dict_has (k : string) (d : list (string * pyval)) : bool :=
  existsb (String.eqb k) (keys d).

(** [needle in haystack] on two [str]. *)
Fixpoint str_contains (needle haystack : string) : bool :=
  String.prefix needle haystack ||
  match haystack with
  | EmptyString => false
  | String _ rest => str_contains needle rest
  end.

(** ** Exceptions and the result of a computation *)

Inductive exception : Type :=
| HTTPException (status_code : Z) (detail : string)
| Error (msg : string)   (* mysql.connector.Error and its subclasses; [msg]
                           is the constant part of the message *)
| TypeError
| KeyError
| OverflowError
| JSONDecodeError.

Inductive result (A : Type) : Type :=
| Ok (a : A)
| Raise (e : exception).

Arguments Ok {A} a.
Arguments Raise {A} e.

Definition rbind {A B} (r : result A) (k : A -> result B) : result B :=
  match r with
  | Ok a => k a
  | Raise e => Raise e
  end.

(** The status line a client sees: an [HTTPException] carries its own, any
    other exception that leaves a handler is answered by the framework with
    500. *)
Definition status_of {A} (r : result A) : Z :=
  match r with
  | Ok _ => 200
  | Raise (HTTPException c _) => c
  | Raise _ => 500
  end.

Definition succeeded {A} (r : result A) : bool :=
  match r with Ok _ => true | Raise _ => false end.

(** ** Python operators used by the handlers *)

Module Py.

(** [key in container], for a [str] key. *)
Definition contains (key : string) (container : pyval) : result bool :=
  match container with
  | PDict d => Ok (dict_has key d)
  | PList l =>
      Ok (existsb (fun v => match v with
                            | PStr s => String.eqb key s
                            | _ => false
                            end) l)
  | PStr s => Ok (str_contains key s)
  | _ => Raise TypeError
  end.

(** [container[key]], for a [str] key. *)
Definition getitem (container : pyval) (key : string) : result pyval :=
  match container with
  | PDict d => match dict_get key d with
               | Some v => Ok v
               | None => Raise KeyError
               end
  | _ => Raise TypeError
  end.

(** [float(n)] for an [int] operand of mixed arithmetic. *)
Definition float_of_int (n : Z) : result spec_float :=
  match binary_normalize prec emax n 0 false with
  | S754_infinity _ => Raise OverflowError
  | f => Ok f
  end.

(** [a - b] and [a + b] with [a] an [int]. *)
Definition int_sub (a : Z) (b : pyval) : result pyval :=
  match b with
  | PInt n => Ok (PInt (a - n))
  | PBool t => Ok (PInt (a - Z.b2z t))
  | PFloat f => rbind (float_of_int a) (fun x => Ok (PFloat (SFsub prec emax x f)))
  | _ => Raise TypeError
  end.

Definition int_add (a : Z) (b : pyval) : result pyval :=
  match b with
  | PInt n => Ok (PInt (a + n))
  | PBool t => Ok (PInt (a + Z.b2z t))
  | PFloat f => rbind (float_of_int a) (fun x => Ok (PFloat (SFadd prec emax x f)))
  | _ => Raise TypeError
  end.

(** [v < 0] for the result of one of the two operations above. *)
Definition lt_zero (v : pyval) : bool :=
  match v with
  | PInt n => n <? 0
  | PFloat f => SFltb f (S754_zero false)
  | _ => false
  end.

End Py.

(** ** [sanitize_data] *)

Fixpoint sanitize_data (data : pyval) : pyval :=
  match data with
  | PDict d => PDict (map (fun kv => (fst kv, sanitize_data (snd kv))) d)
  | PList l => PList (map sanitize_data l)
  | PFloat f =>
      if negb (SFeqb f f) || (SFeqb f float_inf || SFeqb f float_neg_inf)
      then PNone
      else data
  | _ => data
  end.

(** A float that JSON cannot carry: NaN, +Infinity or -Infinity. *)
Definition non_finite (f : spec_float) : bool :=
  match f with
  | S754_nan | S754_infinity _ => true
  | _ => false
  end.

(** Does a value hold a non-finite float anywhere inside? *)
Fixpoint has_non_finite (v : pyval) : bool :=
  match v with
  | PFloat f => non_finite f
  | PList l => existsb has_non_finite l
  | PDict d => existsb (fun kv => has_non_finite (snd kv)) d
  | _ => false
  end.

(** Induction on a value, with the hypothesis for every element of a list
    and every value of a dict. *)
Section pyval_induction.

Variable P : pyval -> Prop.
Hypothesis HNone : P PNone.
Hypothesis HBool : forall b, P (PBool b).
Hypothesis HInt : forall n, P (PInt n).
Hypothesis HFloat : forall f, P (PFloat f).
Hypothesis HStr : forall s, P (PStr s).
Hypothesis HList : forall l, Forall P l -> P (PList l).
Hypothesis HDict : forall d, Forall (fun kv => P (snd kv)) d -> P (PDict d).

Fixpoint pyval_nested_ind (v : pyval) : P v :=
  match v with
  | PNone => HNone
  | PBool b => HBool b
  | PInt n => HInt n
  | PFloat f => HFloat f
  | PStr s => HStr s
  | PList l =>
      HList l ((fix all (l : list pyval) : Forall P l :=
                  match l with
                  | [] => Forall_nil P
                  | x :: rest => Forall_cons x (pyval_nested_ind x) (all rest)
                  end) l)
  | PDict d =>
      HDict d ((fix all (d : list (string * pyval))
                  : Forall (fun kv => P (snd kv)) d :=
                  match d with
                  | [] => Forall_nil _
                  | kv :: rest =>
                      Forall_cons kv (pyval_nested_ind (snd kv)) (all rest)
                  end) d)
  end.

End pyval_induction.

(** ** The store

    Two tables. The columns are those of the [INSERT] statements of
    [create_repuesto] and [create_ficha], plus the generated keys [ID] and
    [item] the other statements select on. [cantidad_disponible] is an
    integer column, as in the [Repuesto] model of [Backend/main.py], so
    that [int(...)] of a cell read from it is the cell. Integer columns hold
    any integer and no cell is NULL. The two mappings of a repair job are
    kept as the text [json.dumps] produced. *)

Record Repuesto : Type := mkRepuesto {
  ID : Z;
  codigo : string;
  descripción : string;
  cantidad_disponible : Z;
  nº_estantería : string;
  nº_estante : string;
  nº_BIN : string;
  posición_BIN : string
}.

Record Maquina : Type := mkMaquina {
  item : Z;
  numero_ficha : Z;
  cliente : string;
  serie : string;
  modelo : string;
  nº_bat : string;
  nº_cargador : string;
  diagnóstico : string;
  tipo : string;
  observaciones : string;
  reparación : string;
  repuestos_colocados : string;
  repuestos_faltantes : string;
  nº_ciclos : string;
  estado : string
}.

Record database : Type := mkDatabase {
  repuestos : list Repuesto;
  maquinas : list Maquina
}.

(** What lies outside the repository: the JSON codec of the Python standard
    library, and the conventions of the connector and of the SQL server: how
    a text column is compared with a parameter; how a parameter of another
    type is converted to an integer or a text column, [None] being a
    rejected value; whether a statement with a NaN or an infinity among its
    parameters is accepted at all; and whether [rowcount] after an [UPDATE]
    counts the rows found or, as by default, only those whose content
    changed. Every definition and theorem below holds for any choice of
    them. *)
Class Engine : Type := {
  json_loads : string -> option pyval;
  json_dumps : pyval -> string;
  collate_eqb : string -> string -> bool;
  coerce_int : pyval -> option Z;
  coerce_str : pyval -> option string;
  bind_non_finite : spec_float -> bool;
  found_rows : bool
}.

Definition set_cantidad_disponible (n : Z) (r : Repuesto) : Repuesto :=
  mkRepuesto r.(ID) r.(codigo) r.(descripción) n r.(nº_estantería)
             r.(nº_estante) r.(nº_BIN) r.(posición_BIN).

Definition Repuesto_eqb (a b : Repuesto) : bool :=
  (a.(ID) =? b.(ID)) && String.eqb a.(codigo) b.(codigo)
  && String.eqb a.(descripción) b.(descripción)
  && (a.(cantidad_disponible) =? b.(cantidad_disponible))
  && String.eqb a.(nº_estantería) b.(nº_estantería)
  && String.eqb a.(nº_estante) b.(nº_estante)
  && String.eqb a.(nº_BIN) b.(nº_BIN)
  && String.eqb a.(posición_BIN) b.(posición_BIN).

Definition Maquina_eqb (a b : Maquina) : bool :=
  (a.(item) =? b.(item)) && (a.(numero_ficha) =? b.(numero_ficha))
  && String.eqb a.(cliente) b.(cliente) && String.eqb a.(serie) b.(serie)
  && String.eqb a.(modelo) b.(modelo) && String.eqb a.(nº_bat) b.(nº_bat)
  && String.eqb a.(nº_cargador) b.(nº_cargador)
  && String.eqb a.(diagnóstico) b.(diagnóstico)
  && String.eqb a.(tipo) b.(tipo)
  && String.eqb a.(observaciones) b.(observaciones)
  && String.eqb a.(reparación) b.(reparación)
  && String.eqb a.(repuestos_colocados) b.(repuestos_colocados)
  && String.eqb a.(repuestos_faltantes) b.(repuestos_faltantes)
  && String.eqb a.(nº_ciclos) b.(nº_ciclos)
  && String.eqb a.(estado) b.(estado).

(** *** Statements on the rows of one table *)

Section Rows.

Context {Row : Type}.
Variable hit : Row -> bool.                            (* the WHERE clause *)
Variable assign : string -> pyval -> Row -> result Row. (* column = value *)
Variable counted : Row -> Row -> bool.                 (* does it add to rowcount *)

(** [SELECT ... WHERE ...] followed by [fetchone()]. *)
Definition fetchone_where (rows : list Row) : option Row := find hit rows.

Fixpoint assign_all (sets : list (string * pyval)) (r : Row) : result Row :=
  match sets with
  | [] => Ok r
  | (column, v) :: rest => rbind (assign column v r) (assign_all rest)
  end.

(** [UPDATE ... SET ... WHERE ...]: the new rows and [rowcount]. *)
Fixpoint update_where (sets : list (string * pyval)) (rows : list Row)
  : result (list Row * Z) :=
  match rows with
  | [] => Ok ([], 0)
  | r :: rest =>
      if hit r then
        rbind (assign_all sets r) (fun r' =>
        rbind (update_where sets rest) (fun '(rest', n) =>
        Ok (r' :: rest', if counted r r' then n + 1 else n)))
      else
        rbind (update_where sets rest) (fun '(rest', n) => Ok (r :: rest', n))
  end.

(** [DELETE ... WHERE ...]: the rows left and [rowcount]. *)
Definition delete_where (rows : list Row) : list Row * Z :=
  (filter (fun r => negb (hit r)) rows, Z.of_nat (List.length (filter hit rows))).

End Rows.

Section Binding.

Context `{Engine}.

(** Can the connector bind the value to a [%s]? *)
Definition convertible (v : pyval) : bool :=
  match v with
  | PList _ | PDict _ => false
  | PFloat f => if non_finite f then bind_non_finite f else true
  | _ => true
  end.

(** What [cursor.execute(query, params)] does with an [UPDATE t SET f1 = %s,
    ..., fn = %s WHERE key = %s] before any row is touched: the connector
    converts every parameter and substitutes one per [%s], then the server
    parses the statement and resolves its columns. A field of the [SET]
    list is read as a column name and is known when it is spelled as a
    column of the table. The result pairs each field with its value and
    gives the value bound to the key. A handler that puts a key of its
    payload into the text of the statement sends this statement when the
    key is a column name; for a key that carries more than a name the
    statement is another one, which this function does not describe. *)
Definition bind_update (known : string -> bool) (fields : list string)
    (params : list pyval) : result (list (string * pyval) * pyval) :=
  if negb (forallb convertible params) then
    Raise (Error "Failed processing format-parameters")
  else if (List.length params <? List.length fields + 1)%nat then
    Raise (Error "Not enough parameters for the SQL statement")
  else if (List.length fields + 1 <? List.length params)%nat then
    Raise (Error "Not all parameters were used in the SQL statement")
  else match fields with
       | [] => Raise (Error "You have an error in your SQL syntax")
       | _ => if forallb known fields
              then Ok (combine fields params, last params PNone)
              else Raise (Error "Unknown column in field list")
       end.

End Binding.

(** A key column compared with the [int] the route was called with. *)
Definition key_is (key : pyval) (n : Z) : bool :=
  match key with
  | PInt k => n =? k
  | _ => false
  end.

Section Store.

Context `{Engine}.

Definition to_int_column (v : pyval) : result Z :=
  match v with
  | PInt n => Ok n
  | _ => match coerce_int v with
         | Some n => Ok n
         | None => Raise (Error "Incorrect integer value")
         end
  end.

Definition to_text_column (v : pyval) : result string :=
  match v with
  | PStr s => Ok s
  | _ => match coerce_str v with
         | Some s => Ok s
         | None => Raise (Error "Incorrect string value")
         end
  end.

Definition repuestos_columns : list string :=
  ["ID"; "codigo"; "descripción"; "cantidad_disponible"; "nº_estantería";
   "nº_estante"; "nº_BIN"; "posición_BIN"].

Definition maquinas_columns : list string :=
  ["item"; "numero_ficha"; "cliente"; "serie"; "modelo"; "nº_bat";
   "nº_cargador"; "diagnóstico"; "tipo"; "observaciones"; "reparación";
   "repuestos_colocados"; "repuestos_faltantes"; "nº_ciclos"; "estado"].

Definition is_column (columns : list string) (field : string) : bool :=
  existsb (String.eqb field) columns.

Definition assign_repuesto (column : string) (v : pyval) (r : Repuesto)
  : result Repuesto :=
  let int_to (k : Z -> Repuesto) := rbind (to_int_column v) (fun n => Ok (k n)) in
  let text_to (k : string -> Repuesto) := rbind (to_text_column v) (fun s => Ok (k s)) in
  let '(mkRepuesto i c d q e1 e2 b1 b2) := r in
  if String.eqb column "ID" then int_to (fun n => mkRepuesto n c d q e1 e2 b1 b2)
  else if String.eqb column "codigo" then text_to (fun s => mkRepuesto i s d q e1 e2 b1 b2)
  else if String.eqb column "descripción" then text_to (fun s => mkRepuesto i c s q e1 e2 b1 b2)
  else if String.eqb column "cantidad_disponible" then int_to (fun n => mkRepuesto i c d n e1 e2 b1 b2)
  else if String.eqb column "nº_estantería" then text_to (fun s => mkRepuesto i c d q s e2 b1 b2)
  else if String.eqb column "nº_estante" then text_to (fun s => mkRepuesto i c d q e1 s b1 b2)
  else if String.eqb column "nº_BIN" then text_to (fun s => mkRepuesto i c d q e1 e2 s b2)
  else if String.eqb column "posición_BIN" then text_to (fun s => mkRepuesto i c d q e1 e2 b1 s)
  else Raise (Error "Unknown column in field list").

Definition assign_maquina (column : string) (v : pyval) (m : Maquina)
  : result Maquina :=
  let int_to (k : Z -> Maquina) := rbind (to_int_column v) (fun n => Ok (k n)) in
  let text_to (k : string -> Maquina) := rbind (to_text_column v) (fun s => Ok (k s)) in
  let '(mkMaquina i nf cl se mo nb nc di ti ob re rc rf ci es) := m in
  if String.eqb column "item" then int_to (fun n => mkMaquina n nf cl se mo nb nc di ti ob re rc rf ci es)
  else if String.eqb column "numero_ficha" then int_to (fun n => mkMaquina i n cl se mo nb nc di ti ob re rc rf ci es)
  else if String.eqb column "cliente" then text_to (fun s => mkMaquina i nf s se mo nb nc di ti ob re rc rf ci es)
  else if String.eqb column "serie" then text_to (fun s => mkMaquina i nf cl s mo nb nc di ti ob re rc rf ci es)
  else if String.eqb column "modelo" then text_to (fun s => mkMaquina i nf cl se s nb nc di ti ob re rc rf ci es)
  else if String.eqb column "nº_bat" then text_to (fun s => mkMaquina i nf cl se mo s nc di ti ob re rc rf ci es)
  else if String.eqb column "nº_cargador" then text_to (fun s => mkMaquina i nf cl se mo nb s di ti ob re rc rf ci es)
  else if String.eqb column "diagnóstico" then text_to (fun s => mkMaquina i nf cl se mo nb nc s ti ob re rc rf ci es)
  else if String.eqb column "tipo" then text_to (fun s => mkMaquina i nf cl se mo nb nc di s ob re rc rf ci es)
  else if String.eqb column "observaciones" then text_to (fun s => mkMaquina i nf cl se mo nb nc di ti s re rc rf ci es)
  else if String.eqb column "reparación" then text_to (fun s => mkMaquina i nf cl se mo nb nc di ti ob s rc rf ci es)
  else if String.eqb column "repuestos_colocados" then text_to (fun s => mkMaquina i nf cl se mo nb nc di ti ob re s rf ci es)
  else if String.eqb column "repuestos_faltantes" then text_to (fun s => mkMaquina i nf cl se mo nb nc di ti ob re rc s ci es)
  else if String.eqb column "nº_ciclos" then text_to (fun s => mkMaquina i nf cl se mo nb nc di ti ob re rc rf s es)
  else if String.eqb column "estado" then text_to (fun s => mkMaquina i nf cl se mo nb nc di ti ob re rc rf ci s)
  else Raise (Error "Unknown column in field list").

End Store.

(** ** A connection and its cursor

    A handler works on one connection. Statements act on the working copy
    of the data; [commit] makes it the stored one; closing the connection
    drops what was not committed. *)

Record connection : Type := mkConnection {
  stored : database;
  working : database
}.

Definition M (A : Type) : Type := connection -> result A * connection.

Definition ret {A} (a : A) : M A := fun c => (Ok a, c).

Definition raise {A} (e : exception) : M A := fun c => (Raise e, c).

Definition bind {A B} (m : M A) (k : A -> M B) : M B :=
  fun c => match m c with
           | (Ok a, c') => k a c'
           | (Raise e, c') => (Raise e, c')
           end.

Definition lift {A} (r : result A) : M A := fun c => (r, c).

Notation "x <- m ;; k" := (bind m (fun x => k))
  (at level 61, m at next level, right associativity).

Definition commit : M unit :=
  fun c => (Ok tt, mkConnection c.(working) c.(working)).

(** The frame every handler shares:
    [try: body / except Error as e: raise HTTPException(500, ...) /
     finally: connection.close()]. *)
Definition except_Error {A} (r : result A) : result A :=
  match r with
  | Raise (Error msg) => Raise (HTTPException 500 ("Database error: " ++ msg))
  | _ => r
  end.

Definition handler {A} (body : M A) (db : database) : result A * database :=
  let '(r, c) := body (mkConnection db db) in
  (except_Error r, c.(stored)).

(** [ORDER BY numero_ficha ASC]; rows with the same number stay in the
    order of the table. *)
Fixpoint insert_by_numero_ficha (m : Maquina) (sorted : list Maquina) : list Maquina :=
  match sorted with
  | [] => [m]
  | m' :: rest =>
      if m.(numero_ficha) <=? m'.(numero_ficha) then m :: sorted
      else m' :: insert_by_numero_ficha m rest
  end.

Definition order_by_numero_ficha (rows : list Maquina) : list Maquina :=
  fold_right insert_by_numero_ficha [] rows.

Section Cursor.

Context `{Engine}.

Definition counted {Row} (Row_eqb : Row -> Row -> bool) (r r' : Row) : bool :=
  found_rows || negb (Row_eqb r r').

Definition codigo_is (key : pyval) (r : Repuesto) : bool :=
  match key with
  | PStr s => collate_eqb r.(codigo) s
  | _ => false
  end.

(** [SELECT repuestos_colocados FROM maquinas WHERE item = %s], [fetchone()]. *)
Definition select_repuestos_colocados (ficha_id : Z) : M (option string) :=
  fun c =>
    (Ok (option_map repuestos_colocados
           (fetchone_where (fun m => key_is (PInt ficha_id) m.(item))
                           c.(working).(maquinas))), c).

(** [SELECT cantidad_disponible FROM repuestos WHERE codigo = %s], [fetchone()]. *)
Definition select_cantidad_disponible (repuesto_codigo : string) : M (option Z) :=
  fun c =>
    (Ok (option_map cantidad_disponible
           (fetchone_where (codigo_is (PStr repuesto_codigo))
                           c.(working).(repuestos))), c).

(** [SELECT * FROM maquinas ORDER BY numero_ficha ASC], [fetchall()]. *)
Definition select_maquinas : M (list Maquina) :=
  fun c => (Ok (order_by_numero_ficha c.(working).(maquinas)), c).

Definition on_repuestos (r : result (list Repuesto * Z)) : M Z :=
  fun c => match r with
           | Ok (rows, rowcount) =>
               (Ok rowcount,
                mkConnection c.(stored) (mkDatabase rows c.(working).(maquinas)))
           | Raise e => (Raise e, c)
           end.

Definition on_maquinas (r : result (list Maquina * Z)) : M Z :=
  fun c => match r with
           | Ok (rows, rowcount) =>
               (Ok rowcount,
                mkConnection c.(stored) (mkDatabase c.(working).(repuestos) rows))
           | Raise e => (Raise e, c)
           end.

(** [UPDATE repuestos SET <fields> WHERE ID = %s]. *)
Definition update_repuestos_by_ID (fields : list string) (params : list pyval) : M Z :=
  fun c =>
    on_repuestos
      (rbind (bind_update (is_column repuestos_columns) fields params)
         (fun '(sets, key) =>
            update_where (fun r => key_is key r.(ID)) assign_repuesto (counted Repuesto_eqb)
                         sets c.(working).(repuestos))) c.

(** [UPDATE repuestos SET <fields> WHERE codigo = %s]. *)
Definition update_repuestos_by_codigo (fields : list string) (params : list pyval) : M Z :=
  fun c =>
    on_repuestos
      (rbind (bind_update (is_column repuestos_columns) fields params)
         (fun '(sets, key) =>
            update_where (codigo_is key) assign_repuesto (counted Repuesto_eqb)
                         sets c.(working).(repuestos))) c.

(** [UPDATE maquinas SET <fields> WHERE item = %s]. *)
Definition update_maquinas_by_item (fields : list string) (params : list pyval) : M Z :=
  fun c =>
    on_maquinas
      (rbind (bind_update (is_column maquinas_columns) fields params)
         (fun '(sets, key) =>
            update_where (fun m => key_is key m.(item)) assign_maquina (counted Maquina_eqb)
                         sets c.(working).(maquinas))) c.

(** [DELETE FROM repuestos WHERE id = %s]. *)
Definition delete_repuestos_by_id (id : Z) : M Z :=
  fun c => on_repuestos
             (Ok (delete_where (fun r => key_is (PInt id) r.(ID))
                               c.(working).(repuestos))) c.

(** [DELETE FROM maquinas WHERE item = %s]. *)
Definition delete_maquinas_by_item (id : Z) : M Z :=
  fun c => on_maquinas
             (Ok (delete_where (fun m => key_is (PInt id) m.(item))
                               c.(working).(maquinas))) c.

(** [json.loads(text)]. *)
Definition loads (text : string) : M pyval :=
  match json_loads text with
  | Some v => ret v
  | None => raise JSONDecodeError
  end.

End Cursor.

(** A repair job as [get_fichas] returns it: the row, with the two text
    columns replaced by what [json.loads] made of them. *)
Record Ficha : Type := mkFicha {
  ficha_row : Maquina;
  ficha_colocados : pyval;
  ficha_faltantes : pyval
}.

Definition in_list (x : string) (l : list string) : bool :=
  existsb (String.eqb x) l.

(** ** The handlers of [Backend/main.py] *)

Module Backend.
Section Handlers.

Context `{Engine}.

Definition allowed_fields : list string :=
  ["codigo"; "descripción"; "cantidad_disponible"; "nº_estantería";
   "nº_estante"; "nº_BIN"; "posición_BIN"].

Definition update_repuesto (id : Z) (repuesto : list (string * pyval))
  : database -> result string * database :=
  handler (
    let update_fields :=
      filter (fun field => in_list field allowed_fields) (keys repuesto) in
    match update_fields with
    | [] => raise (HTTPException 400 "No valid fields to update")
    | _ =>
        let values := (values repuesto ++ [PInt id])%list in
        rowcount <- update_repuestos_by_ID update_fields values ;;
        _ <- commit ;;
        if rowcount =? 0
        then raise (HTTPException 404 "Repuesto no encontrado")
        else ret "Repuesto actualizado exitosamente"
    end).

Definition delete_repuesto (id : Z) : database -> result string * database :=
  handler (
    rowcount <- delete_repuestos_by_id id ;;
    _ <- commit ;;
    if rowcount =? 0
    then raise (HTTPException 404 "Repuesto no encontrado")
    else ret "Repuesto eliminado exitosamente").

Fixpoint decode_fichas (fichas : list Maquina) : M (list Ficha) :=
  match fichas with
  | [] => ret []
  | ficha :: rest =>
      colocados <- loads ficha.(repuestos_colocados) ;;
      faltantes <- loads ficha.(repuestos_faltantes) ;;
      rest' <- decode_fichas rest ;;
      ret (mkFicha ficha colocados faltantes :: rest')
  end.

Definition get_fichas : database -> result (list Ficha) * database :=
  handler (
    fichas <- select_maquinas ;;
    decode_fichas fichas).

Definition update_ficha (id : Z) (ficha : list (string * pyval))
  : database -> result string * database :=
  handler (
    let update_fields := keys ficha in
    let values :=
      map (fun '(key, value) =>
             if in_list key ["repuestos_colocados"; "repuestos_faltantes"]
             then PStr (json_dumps value)
             else value) ficha in
    let values := (values ++ [PInt id])%list in
    rowcount <- update_maquinas_by_item update_fields values ;;
    _ <- commit ;;
    if rowcount =? 0
    then raise (HTTPException 404 "Ficha no encontrada")
    else ret "Ficha actualizada exitosamente").

Definition delete_ficha (id : Z) : database -> result string * database :=
  handler (
    rowcount <- delete_maquinas_by_item id ;;
    _ <- commit ;;
    if rowcount =? 0
    then raise (HTTPException 404 "Ficha no encontrada")
    else ret "Ficha eliminada exitosamente").

Definition update_stock (ficha_id : Z) (repuesto_codigo : string) (action : string)
  : database -> result pyval * database :=
  handler (
    ficha <- select_repuestos_colocados ficha_id ;;
    repuesto <- select_cantidad_disponible repuesto_codigo ;;
    match ficha, repuesto with
    | Some ficha, Some repuesto =>
        repuestos_colocados <- loads ficha ;;
        recorded <- lift (Py.contains repuesto_codigo repuestos_colocados) ;;
        if negb recorded
        then raise (HTTPException 400 "Repuesto not found in repuestos_colocados")
        else
          cantidad <- lift (Py.getitem repuestos_colocados repuesto_codigo) ;;
          let stock_actual := repuesto in
          new_stock <-
            (if String.eqb action "decrease" then
               new_stock <- lift (Py.int_sub stock_actual cantidad) ;;
               if Py.lt_zero new_stock
               then raise (HTTPException 400 "Not enough stock")
               else ret new_stock
             else if String.eqb action "increase" then
               lift (Py.int_add stock_actual cantidad)
             else raise (HTTPException 400 "Invalid action")) ;;
          _ <- update_repuestos_by_codigo ["cantidad_disponible"]
                 [new_stock; PStr repuesto_codigo] ;;
          _ <- commit ;;
          ret (PDict [("message", PStr "Stock updated successfully");
                      ("new_stock", new_stock)])
    | _, _ => raise (HTTPException 404 "Ficha or Repuesto not found")
    end).

End Handlers.
End Backend.

(** ** The handlers of [FastAPI/main.py]

    The earlier variant of the same routes: the two partial updates, which
    differ from the ones above, and the reconciliation, which does not. *)

Module FastAPI.
Section Handlers.

Context `{Engine}.

Definition update_repuesto (id : Z) (repuesto : list (string * pyval))
  : database -> result string * database :=
  handler (
    let update_fields := keys repuesto in
    let values := values repuesto in
    match update_fields with
    | [] => raise (HTTPException 400 "No fields to update")
    | _ =>
        let values := (values ++ [PInt id])%list in
        rowcount <- update_repuestos_by_ID update_fields values ;;
        _ <- commit ;;
        if rowcount =? 0
        then raise (HTTPException 404 "Repuesto no encontrado")
        else ret "Repuesto actualizado exitosamente"
    end).

Definition update_ficha (id : Z) (ficha : list (string * pyval))
  : database -> result string * database :=
  handler (
    let update_fields := keys ficha in
    let values :=
      map (fun '(key, value) =>
             if in_list key ["repuestos_colocados"; "repuestos_faltantes"]
             then PStr (json_dumps value)
             else value) ficha in
    match update_fields with
    | [] => raise (HTTPException 400 "No fields to update")
    | _ =>
        let values := (values ++ [PInt id])%list in
        rowcount <- update_maquinas_by_item update_fields values ;;
        _ <- commit ;;
        if rowcount =? 0
        then raise (HTTPException 404 "Ficha no encontrada")
        else ret "Ficha actualizada exitosamente"
    end).

Definition update_stock (ficha_id : Z) (repuesto_codigo : string) (action : string)
  : database -> result pyval * database :=
  handler (
    ficha <- select_repuestos_colocados ficha_id ;;
    repuesto <- select_cantidad_disponible repuesto_codigo ;;
    match ficha, repuesto with
    | Some ficha, Some repuesto =>
        repuestos_colocados <- loads ficha ;;
        recorded <- lift (Py.contains repuesto_codigo repuestos_colocados) ;;
        if negb recorded
        then raise (HTTPException 400 "Repuesto not found in repuestos_colocados")
        else
          cantidad <- lift (Py.getitem repuestos_colocados repuesto_codigo) ;;
          let stock_actual := repuesto in
          new_stock <-
            (if String.eqb action "decrease" then
               new_stock <- lift (Py.int_sub stock_actual cantidad) ;;
               if Py.lt_zero new_stock
               then raise (HTTPException 400 "Not enough stock")
               else ret new_stock
             else if String.eqb action "increase" then
               lift (Py.int_add stock_actual cantidad)
             else raise (HTTPException 400 "Invalid action")) ;;
          _ <- update_repuestos_by_codigo ["cantidad_disponible"]
                 [new_stock; PStr repuesto_codigo] ;;
          _ <- commit ;;
          ret (PDict [("message", PStr "Stock updated successfully");
                      ("new_stock", new_stock)])
    | _, _ => raise (HTTPException 404 "Ficha or Repuesto not found")
    end).

End Handlers.
End FastAPI.

(** The two implementations of the reconciliation. *)
Definition update_stock_handlers `{Engine}
  : list (Z -> string -> string -> database -> result pyval * database) :=
  [Backend.update_stock; FastAPI.update_stock].

(** ** A sample engine

    One concrete engine, at which the examples below are evaluated: a JSON
    codec in the format of [json.dumps] (objects, arrays, strings without
    escapes, integers, [null], [true], [false], [NaN], [Infinity],
    [-Infinity]; a finite float is written as its exact decimal expansion
    and, like an escape, is not read back), a binary collation, and a
    server that rejects every parameter of the wrong type. *)

Module Sample.

Definition quote : ascii := ascii_of_nat 34.

Definition digits (n : Z) : string := NilZero.string_of_int (Z.to_int n).

Fixpoint zeros (n : nat) : string :=
  match n with
  | O => ""
  | S n' => String "0" (zeros n')
  end.

Fixpoint rstrip_zeros (s : string) : string :=
  match s with
  | EmptyString => ""
  | String c rest =>
      match rstrip_zeros rest with
      | EmptyString => if Ascii.eqb c "0" then "" else String c ""
      | rest' => String c rest'
      end
  end.

Definition dumps_float (f : spec_float) : string :=
  match f with
  | S754_nan => "NaN"
  | S754_infinity false => "Infinity"
  | S754_infinity true => "-Infinity"
  | S754_zero s => (if s then "-" else "") ++ "0.0"
  | S754_finite s m e =>
      (if s then "-" else "") ++
      match e with
      | Zneg k =>
          let k := Pos.to_nat k in
          let d := digits (Zpos m * 5 ^ Z.of_nat k) in
          let d := zeros (S k - String.length d) ++ d in
          let cut := (String.length d - k)%nat in
          let frac := rstrip_zeros (substring cut k d) in
          substring 0 cut d ++ "." ++ (if String.eqb frac "" then "0" else frac)
      | _ => digits (Zpos m * 2 ^ e) ++ ".0"
      end
  end.

Fixpoint join (sep : string) (l : list string) : string :=
  match l with
  | [] => ""
  | [x] => x
  | x :: rest => x ++ sep ++ join sep rest
  end.

Fixpoint dumps (v : pyval) : string :=
  match v with
  | PNone => "null"
  | PBool true => "true"
  | PBool false => "false"
  | PInt n => digits n
  | PFloat f => dumps_float f
  | PStr s => String quote s ++ String quote ""
  | PList l => "[" ++ join ", " (map dumps l) ++ "]"
  | PDict d =>
      "{" ++ join ", " (map (fun kv => String quote (fst kv) ++ String quote ": "
                                       ++ dumps (snd kv)) d) ++ "}"
  end.

Definition is_space (c : ascii) : bool :=
  Ascii.eqb c " " || Ascii.eqb c "009" || Ascii.eqb c "010" || Ascii.eqb c "013".

Definition is_digit (c : ascii) : bool :=
  (48 <=? nat_of_ascii c)%nat && (nat_of_ascii c <=? 57)%nat.

Fixpoint skip_ws (s : string) : string :=
  match s with
  | String c rest => if is_space c then skip_ws rest else s
  | EmptyString => s
  end.

Fixpoint strip_prefix (p s : string) : option string :=
  match p, s with
  | EmptyString, _ => Some s
  | String a p', String b s' => if Ascii.eqb a b then strip_prefix p' s' else None
  | _, EmptyString => None
  end.

(** The rest of a string literal, after its opening quote. *)
Fixpoint read_string (s : string) : option (string * string) :=
  match s with
  | EmptyString => None
  | String c rest =>
      if Ascii.eqb c quote then Some ("", rest)
      else if Ascii.eqb c "\" then None
      else match read_string rest with
           | Some (x, rest') => Some (String c x, rest')
           | None => None
           end
  end.

Fixpoint read_digits (s : string) : string * string :=
  match s with
  | String c rest =>
      if is_digit c then let '(d, rest') := read_digits rest in (String c d, rest')
      else ("", s)
  | EmptyString => ("", s)
  end.

Definition read_int (s : string) : option (pyval * string) :=
  let '(sign, body) := match strip_prefix "-" s with
                       | Some body => (-1, body)
                       | None => (1, s)
                       end in
  match read_digits body with
  | (EmptyString, _) => None
  | (d, rest) =>
      match rest with
      | String "." _ | String "e" _ | String "E" _ => None
      | _ => match NilZero.uint_of_string d with
             | Some u => Some (PInt (sign * Z.of_uint u), rest)
             | None => None
             end
      end
  end.

Definition read_constant (s : string) : option (pyval * string) :=
  let try_word (w : string) (v : pyval) (otherwise : option (pyval * string)) :=
    match strip_prefix w s with
    | Some rest => Some (v, rest)
    | None => otherwise
    end in
  try_word "null" PNone (
  try_word "true" (PBool true) (
  try_word "false" (PBool false) (
  try_word "NaN" (PFloat float_nan) (
  try_word "Infinity" (PFloat float_inf) (
  try_word "-Infinity" (PFloat float_neg_inf) (
  read_int s)))))).

Fixpoint read_value (fuel : nat) (s : string) : option (pyval * string) :=
  match fuel with
  | O => None
  | S fuel' =>
      match skip_ws s with
      | String "{" rest =>
          match skip_ws rest with
          | String "}" rest' => Some (PDict [], rest')
          | rest' => match read_members fuel' rest' with
                     | Some (d, rest'') => Some (PDict d, rest'')
                     | None => None
                     end
          end
      | String "[" rest =>
          match skip_ws rest with
          | String "]" rest' => Some (PList [], rest')
          | rest' => match read_elements fuel' rest' with
                     | Some (l, rest'') => Some (PList l, rest'')
                     | None => None
                     end
          end
      | String c rest =>
          if Ascii.eqb c quote
          then match read_string rest with
               | Some (x, rest') => Some (PStr x, rest')
               | None => None
               end
          else read_constant (String c rest)
      | EmptyString => None
      end
  end
with read_elements (fuel : nat) (s : string) : option (list pyval * string) :=
  match fuel with
  | O => None
  | S fuel' =>
      match read_value fuel' s with
      | Some (v, rest) =>
          match skip_ws rest with
          | String "," rest' =>
              match read_elements fuel' rest' with
              | Some (l, rest'') => Some (v :: l, rest'')
              | None => None
              end
          | String "]" rest' => Some ([v], rest')
          | _ => None
          end
      | None => None
      end
  end
with read_members (fuel : nat) (s : string) : option (list (string * pyval) * string) :=
  match fuel with
  | O => None
  | S fuel' =>
      match skip_ws s with
      | String c rest =>
          if Ascii.eqb c quote then
            match read_string rest with
            | Some (k, rest') =>
                match skip_ws rest' with
                | String ":" rest'' =>
                    match read_value fuel' rest'' with
                    | Some (v, rest3) =>
                        match skip_ws rest3 with
                        | String "," rest4 =>
                            match read_members fuel' rest4 with
                            | Some (d, rest5) => Some ((k, v) :: d, rest5)
                            | None => None
                            end
                        | String "}" rest4 => Some ([(k, v)], rest4)
                        | _ => None
                        end
                    | None => None
                    end
                | _ => None
                end
            | None => None
            end
          else None
      | EmptyString => None
      end
  end.

Definition parse (s : string) : option pyval :=
  match read_value (S (String.length s)) s with
  | Some (v, rest) => match skip_ws rest with
                      | EmptyString => Some v
                      | _ => None
                      end
  | None => None
  end.

#[export] Instance engine : Engine := {|
  json_loads := parse;
  json_dumps := dumps;
  collate_eqb := String.eqb;
  coerce_int := fun _ => None;
  coerce_str := fun _ => None;
  bind_non_finite := fun _ => false;
  found_rows := false
|}.

End Sample.

(** ** Reading a store, for the statements below *)

Section Views.

Context `{Engine}.

(** The row [SELECT ... FROM maquinas WHERE item = ficha_id] finds. *)
Definition find_ficha (db : database) (ficha_id : Z) : option Maquina :=
  find (fun m => key_is (PInt ficha_id) m.(item)) db.(maquinas).

(** The row [SELECT ... FROM repuestos WHERE codigo = repuesto_codigo] finds. *)
Definition find_repuesto (db : database) (repuesto_codigo : string) : option Repuesto :=
  find (codigo_is (PStr repuesto_codigo)) db.(repuestos).

(** The row [... WHERE ID = id] finds, in either table. *)
Definition find_repuesto_by_ID (db : database) (id : Z) : option Repuesto :=
  find (fun r => key_is (PInt id) r.(ID)) db.(repuestos).

(** The store with [n] as the quantity of the part [repuesto_codigo]. *)
Definition with_stock (n : Z) (repuesto_codigo : string) (db : database) : database :=
  mkDatabase
    (map (fun r => if codigo_is (PStr repuesto_codigo) r
                   then set_cantidad_disponible n r else r) db.(repuestos))
    db.(maquinas).

(** The body of a successful answer of [update_stock]. *)
Definition stock_updated (new_stock : pyval) : pyval :=
  PDict [("message", PStr "Stock updated successfully"); ("new_stock", new_stock)].

(** Two rows of [repuestos] that differ at most in [cantidad_disponible]. *)
Definition same_but_stock (r r' : Repuesto) : Prop :=
  r' = set_cantidad_disponible r'.(cantidad_disponible) r.

(** Two stores that differ at most in the quantity of the part
    [repuesto_codigo]. *)
Definition untouched_but_stock (repuesto_codigo : string) (db db' : database) : Prop :=
  db'.(maquinas) = db.(maquinas) /\
  Forall2 (fun r r' => same_but_stock r r' /\
                       (codigo_is (PStr repuesto_codigo) r = false -> r' = r))
          db.(repuestos) db'.(repuestos).

End Views.

(** The two fields of a repair job that [update_ficha] serializes. *)
Definition mapping_fields : list string :=
  ["repuestos_colocados"; "repuestos_faltantes"].

(** Case analysis on a scrutinee that contains no other case analysis. *)
Ltac case_innermost :=
  match goal with
  | |- context [match ?x with _ => _ end] =>
      lazymatch x with
      | context [match _ with _ => _ end] => fail
      | _ => destruct x eqn:?
      end
  end.

(** Sample rows: the part P1 with ten units in stock, a second part, and a
    repair job with the parts placed on it. *)

Module Data.

Import Sample.

Definition P1 : Repuesto :=
  mkRepuesto 1 "P1" "correa" 10 "E1" "2" "B7" "izquierda".

Definition P2 : Repuesto :=
  mkRepuesto 2 "P2" "rodamiento" 4 "E1" "3" "B2" "derecha".

Definition job (colocados : list (string * pyval)) : Maquina :=
  mkMaquina 7 1503 "Taller Sur" "SN-88" "M400" "BAT-1" "CRG-1" "no enciende"
            "garantía" "" "cambio de correa" (dumps (PDict colocados))
            (dumps (PDict [])) "120" "en curso".

(** The shop with [stock] units of P1 and [colocados] placed on the job. *)
Definition shop_with (stock : Z) (colocados : list (string * pyval)) : database :=
  mkDatabase [set_cantidad_disponible stock P1; P2] [job colocados].

Definition shop : database := shop_with 10 [("P1", PInt 5)].

(** A negative quantity recorded on the job. *)
Definition shop_negative : database := shop_with 3 [("P1", PInt (-5))].

(** A NaN recorded on the job. *)
Definition shop_nan : database := shop_with 10 [("P1", PFloat float_nan)].

End Data.

(** ** The rest of [Backend/main.py]

    The request models, the two [INSERT] statements and the listing of
    parts and the two searches, with what they need from the store beyond
    the [Engine]: the order [ORDER BY] sorts a text column by, when [LIKE]
    takes two characters for the same, and whether a table takes a new row
    (its keys, lengths and other constraints, which the repository does not
    show). The key the store generates for a new row is an argument of the
    handler that creates it. *)

Module Models.

(** [class Repuesto(BaseModel)]. *)
Record Repuesto : Type := mkRepuesto {
  codigo : string;
  descripcion : string;
  cantidad_disponible : Z;
  numero_estanteria : string;
  numero_estante : string;
  numero_BIN : string;
  posicion_BIN : string
}.

(** [class Ficha(BaseModel)]. *)
Record Ficha : Type := mkFicha {
  numero_ficha : Z;
  cliente : string;
  serie : string;
  modelo : string;
  nº_bat : string;
  nº_cargador : string;
  diagnóstico : string;
  tipo : string;
  observaciones : string;
  reparación : string;
  repuestos_colocados : list (string * Z);
  repuestos_faltantes : list (string * Z);
  nº_ciclos : string;
  estado : string
}.

End Models.

Class Schema : Type := {
  collate_leb : string -> string -> bool;
  collate_char_eqb : string -> string -> bool;
  admits_repuesto : list Repuesto -> Repuesto -> bool;
  admits_maquina : list Maquina -> Maquina -> bool
}.

(** A [Dict[str, int]] as a Python value. *)
Definition int_dict (d : list (string * Z)) : pyval :=
  PDict (map (fun kq => (fst kq, PInt (snd kq))) d).

(** *** [ORDER BY] on the rows of one table *)

Section Order.

Context {Row : Type}.
Variable leb : Row -> Row -> bool.

Fixpoint insert_ordered (r : Row) (sorted : list Row) : list Row :=
  match sorted with
  | [] => [r]
  | r' :: rest =>
      if leb r r' then r :: sorted else r' :: insert_ordered r rest
  end.

Definition order_by (rows : list Row) : list Row :=
  fold_right insert_ordered [] rows.

End Order.

(** *** [LIKE]

    A text is a sequence of characters, each one byte or, in UTF-8, a lead
    byte with its continuation bytes. In a pattern [%] stands for any
    sequence of characters, [_] for any one character, and a backslash makes
    the character after it stand for itself; a backslash that ends the
    pattern stands for itself. *)

Definition is_continuation (c : ascii) : bool :=
  (128 <=? nat_of_ascii c)%nat && (nat_of_ascii c <? 192)%nat.

Fixpoint characters (s : string) : list string :=
  match s with
  | EmptyString => []
  | String c rest =>
      match characters rest with
      | String c' g :: chs =>
          if is_continuation c' then String c (String c' g) :: chs
          else String c "" :: String c' g :: chs
      | chs => String c "" :: chs
      end
  end.

Inductive like_token : Type :=
| Literal (ch : string)
| AnyOne
| AnySequence.

Fixpoint like_tokens (pattern : list string) : list like_token :=
  match pattern with
  | [] => []
  | ch :: rest =>
      if String.eqb ch "%" then AnySequence :: like_tokens rest
      else if String.eqb ch "_" then AnyOne :: like_tokens rest
      else if String.eqb ch "\" then
        match rest with
        | next :: rest' => Literal next :: like_tokens rest'
        | [] => [Literal ch]
        end
      else Literal ch :: like_tokens rest
  end.

Section Like.

Variable same : string -> string -> bool.

Fixpoint like_match (tokens : list like_token) (text : list string) : bool :=
  match tokens with
  | [] => match text with [] => true | _ => false end
  | Literal ch :: tokens' =>
      match text with
      | t :: text' => same t ch && like_match tokens' text'
      | [] => false
      end
  | AnyOne :: tokens' =>
      match text with
      | _ :: text' => like_match tokens' text'
      | [] => false
      end
  | AnySequence :: tokens' =>
      (fix skip (text : list string) : bool :=
         like_match tokens' text ||
         match text with
         | _ :: text' => skip text'
         | [] => false
         end) text
  end.

End Like.

(** An integer column as the text [LIKE] compares. *)
Definition decimal (n : Z) : string := NilZero.string_of_int (Z.to_int n).

(** [re.escape(term)]: a backslash before each of the characters the [re]
    module treats as special. *)
Definition special_chars : list nat :=
  [9; 10; 11; 12; 13; 32; 35; 36; 38; 40; 41; 42; 43; 45; 46; 63; 91; 92; 93;
   94; 123; 124; 125; 126]%nat.

Definition is_special (c : ascii) : bool :=
  existsb (Nat.eqb (nat_of_ascii c)) special_chars.

Fixpoint re_escape (term : string) : string :=
  match term with
  | EmptyString => EmptyString
  | String c rest =>
      if is_special c then String "\" (String c (re_escape rest))
      else String c (re_escape rest)
  end.

(** The columns the two searches look into, as text. *)
Definition repuesto_texts (r : Repuesto) : list string :=
  [r.(codigo); r.(descripción); decimal r.(cantidad_disponible);
   r.(nº_estantería); r.(nº_estante); r.(nº_BIN); r.(posición_BIN)].

Definition maquina_texts (m : Maquina) : list string :=
  [decimal m.(numero_ficha); m.(cliente); m.(serie); m.(modelo); m.(nº_bat);
   m.(nº_cargador); m.(diagnóstico); m.(tipo); m.(observaciones);
   m.(reparación); m.(nº_ciclos); m.(estado)].

Section MoreCursor.

Context `{Engine} `{Schema}.

(** [SELECT * FROM repuestos ORDER BY codigo ASC], [fetchall()]. *)
Definition select_repuestos : M (list Repuesto) :=
  fun c =>
    (Ok (order_by (fun a b => collate_leb a.(codigo) b.(codigo))
                  c.(working).(repuestos)), c).

(** [INSERT INTO repuestos (codigo, ..., posición_BIN) VALUES (%s, ..., %s)]
    and [cursor.lastrowid]. *)
Definition insert_repuesto (lastrowid : Z) (r : Models.Repuesto) : M Z :=
  fun c =>
    let row := mkRepuesto lastrowid r.(Models.codigo) r.(Models.descripcion)
                 r.(Models.cantidad_disponible) r.(Models.numero_estanteria)
                 r.(Models.numero_estante) r.(Models.numero_BIN)
                 r.(Models.posicion_BIN) in
    if admits_repuesto c.(working).(repuestos) row then
      (Ok lastrowid,
       mkConnection c.(stored)
         (mkDatabase (c.(working).(repuestos) ++ [row]) c.(working).(maquinas)))
    else (Raise (Error "Row refused by the table"), c).

(** [INSERT INTO maquinas (numero_ficha, ..., estado) VALUES (%s, ..., %s)]
    and [cursor.lastrowid]; the two mappings arrive as text. *)
Definition insert_maquina (lastrowid : Z) (f : Models.Ficha)
    (colocados faltantes : string) : M Z :=
  fun c =>
    let row := mkMaquina lastrowid f.(Models.numero_ficha) f.(Models.cliente)
                 f.(Models.serie) f.(Models.modelo) f.(Models.nº_bat)
                 f.(Models.nº_cargador) f.(Models.diagnóstico) f.(Models.tipo)
                 f.(Models.observaciones) f.(Models.reparación)
                 colocados faltantes f.(Models.nº_ciclos) f.(Models.estado) in
    if admits_maquina c.(working).(maquinas) row then
      (Ok lastrowid,
       mkConnection c.(stored)
         (mkDatabase c.(working).(repuestos) (c.(working).(maquinas) ++ [row])))
    else (Raise (Error "Row refused by the table"), c).

(** [text LIKE pattern]. *)
Definition like (text pattern : string) : bool :=
  like_match collate_char_eqb (like_tokens (characters pattern)) (characters text).

(** [WHERE c1 LIKE %s OR ... OR cn LIKE %s] on one row, a parameter per
    column. *)
Definition any_like (texts patterns : list string) : bool :=
  existsb (fun tp => like (fst tp) (snd tp)) (combine texts patterns).

Definition placeholders_check {A} (n : nat) (params : list string) (k : M A) : M A :=
  if (List.length params <? n)%nat then
    raise (Error "Not enough parameters for the SQL statement")
  else if (n <? List.length params)%nat then
    raise (Error "Not all parameters were used in the SQL statement")
  else k.

(** [SELECT * FROM repuestos WHERE codigo LIKE %s OR ... OR posición_BIN
    LIKE %s], [fetchall()]. *)
Definition select_repuestos_like (params : list string) : M (list Repuesto) :=
  placeholders_check 7 params
    (fun c => (Ok (filter (fun r => any_like (repuesto_texts r) params)
                          c.(working).(repuestos)), c)).

(** [SELECT * FROM maquinas WHERE numero_ficha LIKE %s OR ... OR estado LIKE
    %s], [fetchall()]. *)
Definition select_maquinas_like (params : list string) : M (list Maquina) :=
  placeholders_check 12 params
    (fun c => (Ok (filter (fun m => any_like (maquina_texts m) params)
                          c.(working).(maquinas)), c)).

End MoreCursor.

Module Backend_main.
Section Handlers.

Context `{Engine} `{Schema}.

Definition get_repuestos : database -> result (list Repuesto) * database :=
  handler (
    repuestos <- select_repuestos ;;
    ret repuestos).

Definition create_repuesto (lastrowid : Z) (repuesto : Models.Repuesto)
  : database -> result pyval * database :=
  handler (
    new_id <- insert_repuesto lastrowid repuesto ;;
    _ <- commit ;;
    ret (PDict [("message", PStr "Repuesto creado exitosamente");
                ("id", PInt new_id)])).

Definition create_ficha (lastrowid : Z) (ficha : Models.Ficha)
  : database -> result pyval * database :=
  handler (
    new_id <- insert_maquina lastrowid ficha
                (json_dumps (int_dict ficha.(Models.repuestos_colocados)))
                (json_dumps (int_dict ficha.(Models.repuestos_faltantes))) ;;
    _ <- commit ;;
    ret (PDict [("message", PStr "Ficha creada exitosamente");
                ("id", PInt new_id)])).

Definition search_repuestos (term : string)
  : database -> result (list Repuesto) * database :=
  handler (
    let search_term := "%" ++ re_escape term ++ "%" in
    let values := repeat search_term 7 in
    repuestos <- select_repuestos_like values ;;
    ret repuestos).

Definition search_fichas (term : string)
  : database -> result (list Ficha) * database :=
  handler (
    let search_term := "%" ++ re_escape term ++ "%" in
    let values := repeat search_term 12 in
    fichas <- select_maquinas_like values ;;
    Backend.decode_fichas fichas).

End Handlers.
End Backend_main.

(** ** The searches of [FastAPI/main.py], which pass the term as it is *)

Module FastAPI_main.
Section Handlers.

Context `{Engine} `{Schema}.

Definition search_repuestos (term : string)
  : database -> result (list Repuesto) * database :=
  handler (
    let search_term := "%" ++ term ++ "%" in
    let values := repeat search_term 7 in
    repuestos <- select_repuestos_like values ;;
    ret repuestos).

Definition search_fichas (term : string)
  : database -> result (list Ficha) * database :=
  handler (
    let search_term := "%" ++ term ++ "%" in
    let values := repeat search_term 12 in
    fichas <- select_maquinas_like values ;;
    Backend.decode_fichas fichas).

End Handlers.
End FastAPI_main.

Module Sample_schema.

(** A schema for the sample engine: binary collation, and tables that take
    a row when its key is new. *)
#[export] Instance schema : Schema := {|
  collate_leb := String.leb;
  collate_char_eqb := String.eqb;
  admits_repuesto := fun rows r => negb (existsb (fun r' => r'.(ID) =? r.(ID)) rows);
  admits_maquina := fun rows m => negb (existsb (fun m' => m'.(item) =? m.(item)) rows)
|}.

End Sample_schema.

(** ** Sample requests *)

Module Requests.

(** A part to create. *)
Definition P3 : Models.Repuesto :=
  Models.mkRepuesto "P3" "fusible 5A" 25 "E2" "1" "B4" "centro".

(** A repair job to create, with two units of P1 placed and one P2 missing. *)
Definition job9 : Models.Ficha :=
  Models.mkFicha 1499 "Taller Norte" "SN-91" "M200" "BAT-4" "CRG-4"
    "no carga" "presupuesto" "" "cambio de fusible"
    [("P1", 2)] [("P2", 1)] "40" "ingresada".

End Requests.

(** ** Views of the store and of the requests, for the properties below *)

(** A repair job with another text for its placed parts. *)
Definition set_repuestos_colocados (text : string) (m : Maquina) : Maquina :=
  mkMaquina m.(item) m.(numero_ficha) m.(cliente) m.(serie) m.(modelo)
            m.(nº_bat) m.(nº_cargador) m.(diagnóstico) m.(tipo)
            m.(observaciones) m.(reparación) text m.(repuestos_faltantes)
            m.(nº_ciclos) m.(estado).

(** The row a [Repuesto] of a request becomes under the key [id]. *)
Definition repuesto_row (id : Z) (r : Models.Repuesto) : Repuesto :=
  mkRepuesto id r.(Models.codigo) r.(Models.descripcion)
    r.(Models.cantidad_disponible) r.(Models.numero_estanteria)
    r.(Models.numero_estante) r.(Models.numero_BIN) r.(Models.posicion_BIN).

(** The row a [Ficha] of a request becomes under the key [id], its two
    mappings as the text [colocados] and [faltantes]. *)
Definition ficha_row_of (id : Z) (f : Models.Ficha) (colocados faltantes : string)
  : Maquina :=
  mkMaquina id f.(Models.numero_ficha) f.(Models.cliente) f.(Models.serie)
    f.(Models.modelo) f.(Models.nº_bat) f.(Models.nº_cargador)
    f.(Models.diagnóstico) f.(Models.tipo) f.(Models.observaciones)
    f.(Models.reparación) colocados faltantes f.(Models.nº_ciclos)
    f.(Models.estado).

(** A recorded value that is no number: [None], a string, a list or a dict. *)
Definition not_a_number (v : pyval) : bool :=
  match v with
  | PNone | PStr _ | PList _ | PDict _ => true
  | _ => false
  end.

(** *** Terms and texts, for the searches *)

Definition is_wildcard (c : ascii) : bool :=
  Ascii.eqb c "%" || Ascii.eqb c "_".

Fixpoint all_bytes (p : ascii -> bool) (s : string) : bool :=
  match s with
  | EmptyString => true
  | String c rest => p c && all_bytes p rest
  end.

(** No byte of the term is a wildcard of [LIKE]. *)
Definition wildcard_free (term : string) : bool :=
  all_bytes (fun c => negb (is_wildcard c)) term.

Definition backslash_free (term : string) : bool :=
  all_bytes (fun c => negb (Ascii.eqb c "\")) term.

(** The text starts in the middle of a character. *)
Definition first_is_continuation (s : string) : bool :=
  match s with
  | String c _ => is_continuation c
  | EmptyString => false
  end.

(** A backslash before the bytes [esc] picks: [re_escape] with [is_special],
    the term as it is with no byte picked. *)
Fixpoint escape_by (esc : ascii -> bool) (term : string) : string :=
  match term with
  | EmptyString => EmptyString
  | String c rest =>
      if esc c then String "\" (String c (escape_by esc rest))
      else String c (escape_by esc rest)
  end.

Section Contains.

Variable same : string -> string -> bool.

(** The text starts with the characters of the term. *)
Fixpoint starts_with (term text : list string) : bool :=
  match term, text with
  | [], _ => true
  | ch :: term', t :: text' => same t ch && starts_with term' text'
  | _ :: _, [] => false
  end.

(** The characters of the term are in the text, next to each other. *)
Fixpoint contains (term text : list string) : bool :=
  starts_with term text ||
  match text with
  | _ :: text' => contains term text'
  | [] => false
  end.

End Contains.

(** A byte that stands for itself in the pattern made of the term, when
    the bytes [esc] picks get a backslash. *)
Definition literal_byte (esc : ascii -> bool) (c : ascii) : bool :=
  negb (is_wildcard c) && (negb (Ascii.eqb c "\") || esc c).

Section MoreViews.

Context `{Engine} `{Schema}.

(** The store after [n] calls of [update_stock] with "decrease" in a row. *)
Fixpoint decreases (ficha_id : Z) (code : string) (n : nat) (db : database)
  : database :=
  match n with
  | O => db
  | S n' =>
      snd (Backend.update_stock ficha_id code "decrease"
             (decreases ficha_id code n' db))
  end.

(** The two mappings of the job are JSON text. *)
Definition decodes (m : Maquina) : Prop :=
  json_loads m.(repuestos_colocados) <> None /\
  json_loads m.(repuestos_faltantes) <> None.

(** Some column of the row holds the term. *)
Definition holds (term : string) (texts : list string) : bool :=
  existsb (fun text => contains collate_char_eqb (characters term) (characters text))
          texts.

End MoreViews.

(** * Properties *)

(** ** Stock reconciliation *)

Section Reconciliation.

Context `{Engine}.

Lemma dict_get_has (k : string) (d : list (string * pyval)) (v : pyval) :
  dict_get k d = Some v -> dict_has k d = true.
Proof.
  unfold dict_has, keys.
  induction d as [|[k' v'] d IH]; simpl; [discriminate|].
  destruct (String.eqb k k'); simpl; auto.
Qed.

Lemma assign_cantidad_disponible (v : pyval) (r : Repuesto) :
  assign_repuesto "cantidad_disponible" v r =
  rbind (to_int_column v) (fun n => Ok (set_cantidad_disponible n r)).
Proof. destruct r; reflexivity. Qed.

Lemma update_where_stock (hit : Repuesto -> bool)
    (counted : Repuesto -> Repuesto -> bool) (v : pyval) (n : Z)
    (rows : list Repuesto) :
  to_int_column v = Ok n ->
  exists rowcount,
    update_where hit assign_repuesto counted [("cantidad_disponible", v)] rows =
    Ok (map (fun r => if hit r then set_cantidad_disponible n r else r) rows,
        rowcount).
Proof.
  intros Hv.
  induction rows as [|r rows [k IH]]; simpl.
  - eauto.
  - rewrite IH. destruct (hit r); simpl.
    + rewrite assign_cantidad_disponible, Hv. simpl. eauto.
    + eauto.
Qed.

(** The two files implement the reconciliation by the same steps. *)
Lemma FastAPI_update_stock_same :
  FastAPI.update_stock = Backend.update_stock.
Proof. reflexivity. Qed.

Lemma update_stock_handlers_same
    (h : Z -> string -> string -> database -> result pyval * database) :
  In h update_stock_handlers -> h = Backend.update_stock.
Proof.
  intros [<-|[<-|[]]]; reflexivity.
Qed.

(** The write of [update_stock], once the new quantity is an [int]. *)
Lemma write_stock (n : Z) (code : string) (db0 db : database) :
  exists rowcount,
    update_repuestos_by_codigo ["cantidad_disponible"] [PInt n; PStr code]
      (mkConnection db0 db) =
    (Ok rowcount, mkConnection db0 (with_stock n code db)).
Proof.
  unfold update_repuestos_by_codigo, on_repuestos. simpl.
  destruct (update_where_stock (codigo_is (PStr code)) (counted Repuesto_eqb)
              (PInt n) n db.(repuestos) eq_refl) as [k ->].
  exists k. reflexivity.
Qed.

(** What [update_stock] does when both rows exist and an integer quantity is
    recorded for the part on the job. *)
Lemma update_stock_recorded_int (db : database) (ficha_id : Z)
    (code action : string) (m : Maquina) (r : Repuesto)
    (d : list (string * pyval)) (q : Z) :
  find_ficha db ficha_id = Some m ->
  find_repuesto db code = Some r ->
  json_loads m.(repuestos_colocados) = Some (PDict d) ->
  dict_get code d = Some (PInt q) ->
  Backend.update_stock ficha_id code action db =
  if String.eqb action "decrease" then
    if r.(cantidad_disponible) - q <? 0
    then (Raise (HTTPException 400 "Not enough stock"), db)
    else (Ok (stock_updated (PInt (r.(cantidad_disponible) - q))),
          with_stock (r.(cantidad_disponible) - q) code db)
  else if String.eqb action "increase" then
    (Ok (stock_updated (PInt (r.(cantidad_disponible) + q))),
     with_stock (r.(cantidad_disponible) + q) code db)
  else (Raise (HTTPException 400 "Invalid action"), db).
Proof.
  intros Hm Hr Hd Hq.
  unfold Backend.update_stock, handler, bind, select_repuestos_colocados,
    select_cantidad_disponible, fetchone_where. cbn [working stored].
  unfold find_ficha in Hm. unfold find_repuesto in Hr. rewrite Hm, Hr.
  cbn [option_map].
  unfold loads. rewrite Hd. unfold ret, lift, raise. simpl.
  rewrite (dict_get_has _ _ _ Hq), Hq. simpl.
  destruct (String.eqb action "decrease").
  - simpl. destruct (r.(cantidad_disponible) - q <? 0); [reflexivity|].
    destruct (write_stock (r.(cantidad_disponible) - q) code db db) as [k ->].
    reflexivity.
  - destruct (String.eqb action "increase"); [|reflexivity].
    simpl.
    destruct (write_stock (r.(cantidad_disponible) + q) code db db) as [k ->].
    reflexivity.
Qed.

Lemma codigo_is_set_cantidad (key : pyval) (n : Z) (r : Repuesto) :
  codigo_is key (set_cantidad_disponible n r) = codigo_is key r.
Proof. destruct key; reflexivity. Qed.

Lemma find_with_stock (n : Z) (code : string) (db : database) (r : Repuesto) :
  find_repuesto db code = Some r ->
  find_repuesto (with_stock n code db) code = Some (set_cantidad_disponible n r).
Proof.
  unfold find_repuesto, with_stock. cbn [repuestos].
  induction db.(repuestos) as [|r0 rows IH]; cbn [find map]; [discriminate|].
  destruct (codigo_is (PStr code) r0) eqn:Hit.
  - intros [= ->]. now rewrite codigo_is_set_cantidad, Hit.
  - rewrite Hit. exact IH.
Qed.

Lemma set_cantidad_twice (n n' : Z) (r : Repuesto) :
  set_cantidad_disponible n (set_cantidad_disponible n' r) =
  set_cantidad_disponible n r.
Proof. reflexivity. Qed.

Lemma set_cantidad_same (r : Repuesto) :
  set_cantidad_disponible r.(cantidad_disponible) r = r.
Proof. now destruct r. Qed.

(** C1. When the repair job and the part both exist, the part code is a key
    of the job's placed-parts mapping with an integer quantity, and the
    current quantity minus the recorded one is not negative, a "decrease"
    succeeds, answers the difference as [new_stock], and the part row read
    back from the store holds that difference. *)
Theorem update_stock_decrease_persists
    (h : Z -> string -> string -> database -> result pyval * database)
    (db : database) (ficha_id : Z) (code : string) (m : Maquina) (r : Repuesto)
    (d : list (string * pyval)) (q : Z) :
  In h update_stock_handlers ->
  find_ficha db ficha_id = Some m ->
  find_repuesto db code = Some r ->
  json_loads m.(repuestos_colocados) = Some (PDict d) ->
  dict_get code d = Some (PInt q) ->
  0 <= r.(cantidad_disponible) - q ->
  exists body db',
    h ficha_id code "decrease" db = (Ok body, db') /\
    Py.getitem body "new_stock" = Ok (PInt (r.(cantidad_disponible) - q)) /\
    find_repuesto db' code =
      Some (set_cantidad_disponible (r.(cantidad_disponible) - q) r).
Proof.
  intros Hh Hm Hr Hd Hq Hpos.
  rewrite (update_stock_handlers_same h Hh).
  rewrite (update_stock_recorded_int db ficha_id code "decrease" m r d q Hm Hr Hd Hq).
  cbn [String.eqb Ascii.eqb Bool.eqb].
  destruct (Z.ltb_spec (r.(cantidad_disponible) - q) 0) as [Hneg|_]; [lia|].
  eexists _, _. split; [reflexivity|]. split; [reflexivity|].
  now apply find_with_stock.
Qed.

(** C2. Under the same conditions on the rows and the recorded quantity, a
    "decrease" whose difference would be negative is rejected with status
    400 and detail "Not enough stock", and the store is the one the call
    started from. *)
Theorem update_stock_decrease_not_enough
    (h : Z -> string -> string -> database -> result pyval * database)
    (db : database) (ficha_id : Z) (code : string) (m : Maquina) (r : Repuesto)
    (d : list (string * pyval)) (q : Z) :
  In h update_stock_handlers ->
  find_ficha db ficha_id = Some m ->
  find_repuesto db code = Some r ->
  json_loads m.(repuestos_colocados) = Some (PDict d) ->
  dict_get code d = Some (PInt q) ->
  r.(cantidad_disponible) - q < 0 ->
  h ficha_id code "decrease" db = (Raise (HTTPException 400 "Not enough stock"), db).
Proof.
  intros Hh Hm Hr Hd Hq Hneg.
  rewrite (update_stock_handlers_same h Hh).
  rewrite (update_stock_recorded_int db ficha_id code "decrease" m r d q Hm Hr Hd Hq).
  cbn [String.eqb Ascii.eqb Bool.eqb].
  destruct (Z.ltb_spec (r.(cantidad_disponible) - q) 0) as [_|Hpos];
    [reflexivity|lia].
Qed.

(** C3. Under the same conditions, an "increase" always succeeds and stores
    the current quantity plus the recorded one; and after a "decrease" that
    succeeded, an "increase" for the same job and part on the store it left
    answers the original quantity and gives the part row back as it was. *)
Theorem update_stock_increase_inverts_decrease
    (h : Z -> string -> string -> database -> result pyval * database)
    (db : database) (ficha_id : Z) (code : string) (m : Maquina) (r : Repuesto)
    (d : list (string * pyval)) (q : Z) :
  In h update_stock_handlers ->
  find_ficha db ficha_id = Some m ->
  find_repuesto db code = Some r ->
  json_loads m.(repuestos_colocados) = Some (PDict d) ->
  dict_get code d = Some (PInt q) ->
  (exists body db',
     h ficha_id code "increase" db = (Ok body, db') /\
     Py.getitem body "new_stock" = Ok (PInt (r.(cantidad_disponible) + q)) /\
     find_repuesto db' code =
       Some (set_cantidad_disponible (r.(cantidad_disponible) + q) r)) /\
  (forall body1 db1,
     h ficha_id code "decrease" db = (Ok body1, db1) ->
     exists body2 db2,
       h ficha_id code "increase" db1 = (Ok body2, db2) /\
       Py.getitem body2 "new_stock" = Ok (PInt r.(cantidad_disponible)) /\
       find_repuesto db2 code = Some r /\
       db2.(maquinas) = db.(maquinas)).
Proof.
  intros Hh Hm Hr Hd Hq.
  rewrite (update_stock_handlers_same h Hh). split.
  - rewrite (update_stock_recorded_int db ficha_id code "increase" m r d q Hm Hr Hd Hq).
    cbn [String.eqb Ascii.eqb Bool.eqb].
    eexists _, _. split; [reflexivity|]. split; [reflexivity|].
    now apply find_with_stock.
  - intros body1 db1.
    rewrite (update_stock_recorded_int db ficha_id code "decrease" m r d q Hm Hr Hd Hq).
    cbn [String.eqb Ascii.eqb Bool.eqb].
    destruct (r.(cantidad_disponible) - q <? 0); [discriminate|].
    intros [= <- <-].
    pose proof (find_with_stock (r.(cantidad_disponible) - q) code db r Hr) as Hr1.
    rewrite (update_stock_recorded_int
               (with_stock (r.(cantidad_disponible) - q) code db)
               ficha_id code "increase" m _ d q Hm Hr1 Hd Hq).
    cbn [String.eqb Ascii.eqb Bool.eqb].
    eexists _, _. split; [reflexivity|].
    cbn [cantidad_disponible set_cantidad_disponible].
    replace (r.(cantidad_disponible) - q + q) with r.(cantidad_disponible) by lia.
    split; [reflexivity|]. split; [|reflexivity].
    rewrite (find_with_stock _ code _ _ Hr1), set_cantidad_twice.
    now rewrite set_cantidad_same.
Qed.

(** C4. When the repair job or the part is absent the call fails with status
    404; when both exist and the part code is not a key of the decoded
    placed-parts mapping it fails with status 400; either way the store is
    the one the call started from. *)
Theorem update_stock_missing_rows_or_code
    (h : Z -> string -> string -> database -> result pyval * database)
    (db : database) (ficha_id : Z) (code action : string) :
  In h update_stock_handlers ->
  (find_ficha db ficha_id = None \/ find_repuesto db code = None ->
   h ficha_id code action db =
   (Raise (HTTPException 404 "Ficha or Repuesto not found"), db)) /\
  (forall (m : Maquina) (r : Repuesto) (d : list (string * pyval)),
     find_ficha db ficha_id = Some m ->
     find_repuesto db code = Some r ->
     json_loads m.(repuestos_colocados) = Some (PDict d) ->
     dict_has code d = false ->
     h ficha_id code action db =
     (Raise (HTTPException 400 "Repuesto not found in repuestos_colocados"), db)).
Proof.
  intros Hh. rewrite (update_stock_handlers_same h Hh).
  unfold Backend.update_stock, handler, bind, select_repuestos_colocados,
    select_cantidad_disponible, fetchone_where, find_ficha, find_repuesto.
  cbn [working stored]. split.
  - intros [-> | ->]; cbn [option_map].
    + reflexivity.
    + now destruct (find _ db.(maquinas)).
  - intros m r d -> -> Hd Hno. cbn [option_map].
    unfold loads. rewrite Hd. unfold ret, lift. cbn [Py.contains].
    rewrite Hno. reflexivity.
Qed.

(** C5, as amended. When the stock of the part is not negative before the
    call and an integer quantity is recorded, a call that succeeds leaves a
    stock that is not negative provided the action is "decrease" or the
    recorded quantity is itself not negative. *)
Theorem update_stock_keeps_stock_non_negative
    (h : Z -> string -> string -> database -> result pyval * database)
    (db db' : database) (ficha_id : Z) (code action : string) (m : Maquina)
    (r r' : Repuesto) (d : list (string * pyval)) (q : Z) (body : pyval) :
  In h update_stock_handlers ->
  find_ficha db ficha_id = Some m ->
  find_repuesto db code = Some r ->
  json_loads m.(repuestos_colocados) = Some (PDict d) ->
  dict_get code d = Some (PInt q) ->
  0 <= r.(cantidad_disponible) ->
  action = "decrease" \/ 0 <= q ->
  h ficha_id code action db = (Ok body, db') ->
  find_repuesto db' code = Some r' ->
  0 <= r'.(cantidad_disponible).
Proof.
  intros Hh Hm Hr Hd Hq Hpos Hcase.
  rewrite (update_stock_handlers_same h Hh).
  rewrite (update_stock_recorded_int db ficha_id code action m r d q Hm Hr Hd Hq).
  destruct (String.eqb_spec action "decrease") as [->|Hother].
  - destruct (Z.ltb_spec (r.(cantidad_disponible) - q) 0) as [|Hnew];
      [discriminate|].
    intros [= _ <-]. rewrite (find_with_stock _ _ _ _ Hr).
    intros [= <-]. exact Hnew.
  - destruct Hcase as [->|Hq0]; [congruence|].
    destruct (String.eqb action "increase"); [|discriminate].
    intros [= _ <-]. rewrite (find_with_stock _ _ _ _ Hr).
    intros [= <-]. cbn [cantidad_disponible set_cantidad_disponible]. lia.
Qed.

Lemma update_where_frame (hit : Repuesto -> bool)
    (counted : Repuesto -> Repuesto -> bool) (v : pyval) (rows rows' : list Repuesto)
    (rowcount : Z) :
  update_where hit assign_repuesto counted [("cantidad_disponible", v)] rows =
    Ok (rows', rowcount) ->
  Forall2 (fun r r' => same_but_stock r r' /\ (hit r = false -> r' = r)) rows rows'.
Proof.
  revert rows' rowcount.
  induction rows as [|r rows IH]; intros rows' k; cbn [update_where].
  - intros [= <- <-]. constructor.
  - destruct (hit r) eqn:Hit.
    + cbn [assign_all]. rewrite assign_cantidad_disponible.
      destruct (to_int_column v) as [n|e]; cbn [rbind]; [|discriminate].
      destruct (update_where _ _ _ _ rows) as [[rest' k']|e]; cbn [rbind];
        [|discriminate].
      intros [= <- _]. constructor; [|now apply (IH rest' k')].
      split; [reflexivity|congruence].
    + destruct (update_where _ _ _ _ rows) as [[rest' k']|e]; cbn [rbind];
        [|discriminate].
      intros [= <- _]. constructor; [|now apply (IH rest' k')].
      split; [|reflexivity]. unfold same_but_stock. now rewrite set_cantidad_same.
Qed.

Lemma update_by_codigo_frame (v : pyval) (code : string) (c c' : connection)
    (rowcount : Z) :
  update_repuestos_by_codigo ["cantidad_disponible"] [v; PStr code] c =
    (Ok rowcount, c') ->
  c'.(stored) = c.(stored) /\ untouched_but_stock code c.(working) c'.(working).
Proof.
  unfold update_repuestos_by_codigo, on_repuestos, bind_update.
  cbn [forallb List.length Nat.ltb Nat.leb Nat.add negb andb].
  destruct (convertible v); cbn [negb andb convertible]; [|discriminate].
  cbn [is_column repuestos_columns forallb existsb String.eqb Ascii.eqb Bool.eqb
       orb andb combine last rbind].
  destruct (update_where _ _ _ _ _) as [[rows' k]|e] eqn:Hw; [|discriminate].
  intros [= _ <-]. cbn [stored working maquinas repuestos].
  split; [reflexivity|]. split; [reflexivity|].
  exact (update_where_frame _ _ _ _ _ _ Hw).
Qed.

(** Whatever is recorded on the job, a call that succeeds went through the
    one [UPDATE] of the handler. *)
Lemma update_stock_frame (db db' : database) (ficha_id : Z) (code action : string)
    (body : pyval) :
  Backend.update_stock ficha_id code action db = (Ok body, db') ->
  untouched_but_stock code db db'.
Proof.
  unfold Backend.update_stock, handler, bind, select_repuestos_colocados,
    select_cantidad_disponible, loads, lift, ret, raise, commit.
  cbn [working stored].
  repeat (case_innermost; cbn beta iota; cbn [except_Error]; try discriminate).
  all: intros [= _ <-].
  all: match goal with
       | Hw : update_repuestos_by_codigo _ _ _ = _ |- _ =>
           apply update_by_codigo_frame in Hw; cbn [working stored] in Hw;
           now destruct Hw
       end.
Qed.

(** C10. A call that succeeds leaves the table of repair jobs as it was and
    changes no column of any part other than [cantidad_disponible]; a part
    the [WHERE codigo = ...] clause does not select keeps its whole row. *)
Theorem update_stock_writes_only_the_stock
    (h : Z -> string -> string -> database -> result pyval * database)
    (db db' : database) (ficha_id : Z) (code action : string) (body : pyval) :
  In h update_stock_handlers ->
  h ficha_id code action db = (Ok body, db') ->
  db'.(maquinas) = db.(maquinas) /\
  Forall2 (fun r r' =>
             r'.(ID) = r.(ID) /\ r'.(codigo) = r.(codigo) /\
             r'.(descripción) = r.(descripción) /\
             r'.(nº_estantería) = r.(nº_estantería) /\
             r'.(nº_estante) = r.(nº_estante) /\
             r'.(nº_BIN) = r.(nº_BIN) /\
             r'.(posición_BIN) = r.(posición_BIN) /\
             (codigo_is (PStr code) r = false -> r' = r))
          db.(repuestos) db'.(repuestos).
Proof.
  intros Hh. rewrite (update_stock_handlers_same h Hh). intros Hrun.
  destruct (update_stock_frame _ _ _ _ _ _ Hrun) as [Hm Hr].
  split; [exact Hm|].
  eapply Forall2_impl; [|exact Hr].
  intros r r' [Hsame Hother]. unfold same_but_stock in Hsame.
  rewrite Hsame. cbn. repeat split; auto.
  intros Hno. rewrite <- Hsame. auto.
Qed.

End Reconciliation.

(** ** Partial update and delete *)

Section Updates.

Context `{Engine}.

Lemma database_eta (db : database) :
  mkDatabase db.(repuestos) db.(maquinas) = db.
Proof. now destruct db. Qed.

Section NoHit.

Context {Row : Type}.
Variable hit : Row -> bool.
Variable assign : string -> pyval -> Row -> result Row.
Variable counted : Row -> Row -> bool.

Lemma update_where_no_hit (sets : list (string * pyval)) (rows : list Row) :
  find hit rows = None ->
  update_where hit assign counted sets rows = Ok (rows, 0).
Proof.
  induction rows as [|r rows IH]; cbn [find update_where]; [reflexivity|].
  destruct (hit r); [discriminate|].
  intros Hnone. now rewrite (IH Hnone).
Qed.

Lemma delete_where_no_hit (rows : list Row) :
  find hit rows = None -> delete_where hit rows = (rows, 0).
Proof.
  unfold delete_where.
  induction rows as [|r rows IH]; cbn [find filter]; [reflexivity|].
  destruct (hit r) eqn:Hit; [discriminate|].
  intros Hnone. specialize (IH Hnone). cbn [negb].
  injection IH as IH1 IH2. rewrite IH1. f_equal. exact IH2.
Qed.

Lemma find_after_delete (rows : list Row) :
  find hit (fst (delete_where hit rows)) = None.
Proof.
  unfold delete_where. cbn [fst].
  induction rows as [|r rows IH]; cbn [filter find]; [reflexivity|].
  destruct (hit r) eqn:Hit; cbn [negb find]; [exact IH|].
  now rewrite Hit.
Qed.

End NoHit.

Lemma bind_update_raises (known : string -> bool) (fields : list string)
    (params : list pyval) (e : exception) :
  bind_update known fields params = Raise e -> exists msg, e = Error msg.
Proof.
  unfold bind_update.
  repeat match goal with
         | |- context [if ?b then _ else _] => destruct b
         | |- context [match ?l with [] => _ | _ => _ end] => destruct l
         end; intros [= <-] || discriminate; eauto.
Qed.

Lemma bind_update_key (known : string -> bool) (fields : list string)
    (values : list pyval) (k key : pyval) (sets : list (string * pyval)) :
  bind_update known fields (values ++ [k]) = Ok (sets, key) -> key = k.
Proof.
  unfold bind_update. rewrite last_last.
  repeat match goal with
         | |- context [if ?b then _ else _] => destruct b
         | |- context [match ?l with [] => _ | _ => _ end] => destruct l
         end; intros [= _ <-] || discriminate; reflexivity.
Qed.

Lemma bind_update_ok (known : string -> bool) (fields : list string)
    (values : list pyval) (k : pyval) :
  fields <> [] ->
  List.length values = List.length fields ->
  forallb convertible values = true ->
  convertible k = true ->
  forallb known fields = true ->
  bind_update known fields (values ++ [k]) = Ok (combine fields (values ++ [k]), k).
Proof.
  intros Hne Hlen Hconv Hk Hknown. unfold bind_update.
  rewrite forallb_app, Hconv. cbn [forallb]. rewrite Hk. cbn [andb negb].
  rewrite length_app, Hlen. cbn [List.length]. rewrite Nat.ltb_irrefl.
  rewrite Hknown, last_last. now destruct fields.
Qed.


Lemma update_by_ID_no_row (fields : list string) (values : list pyval) (id : Z)
    (db0 db : database) :
  find_repuesto_by_ID db id = None ->
  (exists msg,
     update_repuestos_by_ID fields (values ++ [PInt id]) (mkConnection db0 db) =
     (Raise (Error msg), mkConnection db0 db)) \/
  update_repuestos_by_ID fields (values ++ [PInt id]) (mkConnection db0 db) =
  (Ok 0, mkConnection db0 db).
Proof.
  intros Hnone. unfold update_repuestos_by_ID, on_repuestos. cbn [working stored].
  destruct (bind_update _ fields _) as [[sets key]|e] eqn:Hb; cbn [rbind].
  - right. rewrite (bind_update_key _ _ _ _ _ _ Hb).
    rewrite (update_where_no_hit _ _ _ _ _ Hnone). now rewrite database_eta.
  - left. destruct (bind_update_raises _ _ _ _ Hb) as [msg ->]. eauto.
Qed.

Lemma update_by_item_no_row (fields : list string) (values : list pyval) (id : Z)
    (db0 db : database) :
  find_ficha db id = None ->
  (exists msg,
     update_maquinas_by_item fields (values ++ [PInt id]) (mkConnection db0 db) =
     (Raise (Error msg), mkConnection db0 db)) \/
  update_maquinas_by_item fields (values ++ [PInt id]) (mkConnection db0 db) =
  (Ok 0, mkConnection db0 db).
Proof.
  intros Hnone. unfold update_maquinas_by_item, on_maquinas. cbn [working stored].
  destruct (bind_update _ fields _) as [[sets key]|e] eqn:Hb; cbn [rbind].
  - right. rewrite (bind_update_key _ _ _ _ _ _ Hb).
    rewrite (update_where_no_hit _ _ _ _ _ Hnone). now rewrite database_eta.
  - left. destruct (bind_update_raises _ _ _ _ Hb) as [msg ->]. eauto.
Qed.

Lemma filter_all {A} (f : A -> bool) (l : list A) :
  forallb f l = true -> filter f l = l.
Proof.
  induction l as [|x l IH]; cbn [forallb filter]; [reflexivity|].
  destruct (f x); [|discriminate]. cbn [andb]. intros Hl. now rewrite IH.
Qed.

Lemma allowed_fields_are_columns (field : string) :
  in_list field Backend.allowed_fields = true ->
  is_column repuestos_columns field = true.
Proof.
  unfold in_list, is_column, Backend.allowed_fields, repuestos_columns.
  cbn [existsb]. intros Hin. rewrite Hin. apply orb_true_r.
Qed.

Lemma delete_repuesto_no_row (id : Z) (db : database) :
  find_repuesto_by_ID db id = None ->
  Backend.delete_repuesto id db =
  (Raise (HTTPException 404 "Repuesto no encontrado"), db).
Proof.
  intros Hnone.
  unfold Backend.delete_repuesto, handler, bind, delete_repuestos_by_id,
    on_repuestos, commit. cbn [working stored].
  rewrite (delete_where_no_hit _ _ Hnone). cbn. now rewrite database_eta.
Qed.

Lemma delete_ficha_no_row (id : Z) (db : database) :
  find_ficha db id = None ->
  Backend.delete_ficha id db =
  (Raise (HTTPException 404 "Ficha no encontrada"), db).
Proof.
  intros Hnone.
  unfold Backend.delete_ficha, handler, bind, delete_maquinas_by_item,
    on_maquinas, commit. cbn [working stored].
  rewrite (delete_where_no_hit _ _ Hnone). cbn. now rewrite database_eta.
Qed.

Lemma delete_repuesto_removes (id : Z) (db db' : database) (msg : string) :
  Backend.delete_repuesto id db = (Ok msg, db') ->
  find_repuesto_by_ID db' id = None.
Proof.
  unfold Backend.delete_repuesto, handler, bind, delete_repuestos_by_id,
    on_repuestos, commit, find_repuesto_by_ID. cbn [working stored].
  pose proof (find_after_delete (fun r => key_is (PInt id) r.(ID)) db.(repuestos))
    as Hgone.
  destruct (delete_where _ db.(repuestos)) as [rows n]. cbn [fst] in Hgone.
  cbn [working stored]. destruct (n =? 0); cbn; [discriminate|].
  intros [= _ <-]. exact Hgone.
Qed.

Lemma delete_ficha_removes (id : Z) (db db' : database) (msg : string) :
  Backend.delete_ficha id db = (Ok msg, db') ->
  find_ficha db' id = None.
Proof.
  unfold Backend.delete_ficha, handler, bind, delete_maquinas_by_item,
    on_maquinas, commit, find_ficha. cbn [working stored].
  pose proof (find_after_delete (fun m => key_is (PInt id) m.(item)) db.(maquinas))
    as Hgone.
  destruct (delete_where _ db.(maquinas)) as [rows n]. cbn [fst] in Hgone.
  cbn [working stored]. destruct (n =? 0); cbn; [discriminate|].
  intros [= _ <-]. exact Hgone.
Qed.

Lemma update_repuesto_no_row (id : Z) (payload : list (string * pyval))
    (db : database) :
  find_repuesto_by_ID db id = None ->
  succeeded (fst (Backend.update_repuesto id payload db)) = false /\
  snd (Backend.update_repuesto id payload db) = db.
Proof.
  intros Hnone. unfold Backend.update_repuesto, handler.
  destruct (filter _ (keys payload)) as [|f fields]; [now cbn|].
  unfold bind.
  destruct (update_by_ID_no_row (f :: fields) (values payload) id db db Hnone)
    as [[msg ->]| ->]; now cbn.
Qed.

Lemma update_ficha_no_row (id : Z) (payload : list (string * pyval))
    (db : database) :
  find_ficha db id = None ->
  forallb (is_column maquinas_columns) (keys payload) = true ->
  succeeded (fst (Backend.update_ficha id payload db)) = false /\
  snd (Backend.update_ficha id payload db) = db.
Proof.
  intros Hnone _. unfold Backend.update_ficha, handler, bind.
  match goal with
  | |- context [update_maquinas_by_item ?f (?v ++ _)%list _] =>
      destruct (update_by_item_no_row f v id db db Hnone) as [[msg ->]| ->]
  end; now cbn.
Qed.


Lemma update_repuesto_no_row_404 (id : Z) (payload : list (string * pyval))
    (db : database) :
  find_repuesto_by_ID db id = None ->
  payload <> [] ->
  forallb (fun field => in_list field Backend.allowed_fields) (keys payload) = true ->
  forallb convertible (values payload) = true ->
  Backend.update_repuesto id payload db =
  (Raise (HTTPException 404 "Repuesto no encontrado"), db).
Proof.
  intros Hnone Hne Hallowed Hconv.
  unfold Backend.update_repuesto, handler. rewrite (filter_all _ _ Hallowed).
  destruct payload as [|[k v] payload]; [congruence|].
  cbn [keys map fst]. fold (keys payload). unfold bind.
  unfold update_repuestos_by_ID, on_repuestos. cbn [working stored].
  rewrite bind_update_ok; cbn [rbind].
  - rewrite (update_where_no_hit _ _ _ _ _ Hnone). cbn. now rewrite database_eta.
  - discriminate.
  - unfold values, keys. cbn [map List.length]. now rewrite !length_map.
  - exact Hconv.
  - reflexivity.
  - apply forallb_forall. intros field Hin. apply allowed_fields_are_columns.
    now apply (proj1 (forallb_forall _ _) Hallowed).
Qed.

Lemma update_ficha_no_row_404 (id : Z) (payload : list (string * pyval))
    (db : database) :
  find_ficha db id = None ->
  payload <> [] ->
  forallb (is_column maquinas_columns) (keys payload) = true ->
  forallb (fun kv => in_list (fst kv) mapping_fields || convertible (snd kv))
          payload = true ->
  Backend.update_ficha id payload db =
  (Raise (HTTPException 404 "Ficha no encontrada"), db).
Proof.
  intros Hnone Hne Hknown Hconv.
  unfold Backend.update_ficha, handler, bind.
  unfold update_maquinas_by_item, on_maquinas. cbn [working stored].
  rewrite bind_update_ok; cbn [rbind].
  - rewrite (update_where_no_hit _ _ _ _ _ Hnone). cbn. now rewrite database_eta.
  - destruct payload; [congruence|discriminate].
  - unfold keys. now rewrite !length_map.
  - rewrite forallb_forall in Hconv. apply forallb_forall.
    intros v Hin. apply in_map_iff in Hin. destruct Hin as [[k v'] [<- Hin]].
    specialize (Hconv _ Hin). cbn [fst snd] in Hconv. unfold mapping_fields in Hconv.
    now destruct (in_list k _).
  - reflexivity.
  - exact Hknown.
Qed.

(** C8, as amended. When no row has the identifier: a delete answers 404 and
    leaves the store as it was; a partial update of a part, whatever its
    payload, never succeeds and leaves the store as it was, and so does a
    partial update of a repair job whose payload names columns of the table
    only; the update answers 404 when its payload is not empty, names only
    columns the handler lets through (the allow-list for a part, the columns
    of the table for a repair job) and carries values the connector can
    bind. A delete that succeeded removed every row with the identifier, so
    the same delete again answers 404.

    [update_ficha] puts every key of the payload into the text of the
    statement as it is, and the [UPDATE] of this file reads a field as the
    name of a column: for a key that is no column name the statement sent is
    another one, and nothing is stated about it. [update_repuesto] lets
    through the names of its allow-list only. *)
Theorem no_row_is_not_found (id : Z) (db : database) :
  (find_repuesto_by_ID db id = None ->
   Backend.delete_repuesto id db =
     (Raise (HTTPException 404 "Repuesto no encontrado"), db) /\
   (forall payload,
      succeeded (fst (Backend.update_repuesto id payload db)) = false /\
      snd (Backend.update_repuesto id payload db) = db) /\
   (forall payload,
      payload <> [] ->
      forallb (fun field => in_list field Backend.allowed_fields) (keys payload) = true ->
      forallb convertible (values payload) = true ->
      Backend.update_repuesto id payload db =
        (Raise (HTTPException 404 "Repuesto no encontrado"), db))) /\
  (find_ficha db id = None ->
   Backend.delete_ficha id db =
     (Raise (HTTPException 404 "Ficha no encontrada"), db) /\
   (forall payload,
      forallb (is_column maquinas_columns) (keys payload) = true ->
      succeeded (fst (Backend.update_ficha id payload db)) = false /\
      snd (Backend.update_ficha id payload db) = db) /\
   (forall payload,
      payload <> [] ->
      forallb (is_column maquinas_columns) (keys payload) = true ->
      forallb (fun kv => in_list (fst kv) mapping_fields || convertible (snd kv))
              payload = true ->
      Backend.update_ficha id payload db =
        (Raise (HTTPException 404 "Ficha no encontrada"), db))) /\
  (forall msg db',
     Backend.delete_repuesto id db = (Ok msg, db') ->
     Backend.delete_repuesto id db' =
       (Raise (HTTPException 404 "Repuesto no encontrado"), db')) /\
  (forall msg db',
     Backend.delete_ficha id db = (Ok msg, db') ->
     Backend.delete_ficha id db' =
       (Raise (HTTPException 404 "Ficha no encontrada"), db')).
Proof.
  split; [|split; [|split]].
  - intros Hnone. split; [|split].
    + now apply delete_repuesto_no_row.
    + intros payload. now apply update_repuesto_no_row.
    + intros payload. now apply update_repuesto_no_row_404.
  - intros Hnone. split; [|split].
    + now apply delete_ficha_no_row.
    + intros payload. now apply update_ficha_no_row.
    + intros payload. now apply update_ficha_no_row_404.
  - intros msg db' Hdel. apply delete_repuesto_no_row.
    exact (delete_repuesto_removes _ _ _ _ Hdel).
  - intros msg db' Hdel. apply delete_ficha_no_row.
    exact (delete_ficha_removes _ _ _ _ Hdel).
Qed.

(** A payload for a part with no allow-listed field is rejected with 400
    before any statement is sent. *)
Lemma update_repuesto_no_valid_fields (id : Z) (payload : list (string * pyval))
    (db : database) :
  existsb (fun field => in_list field Backend.allowed_fields) (keys payload) = false ->
  Backend.update_repuesto id payload db =
  (Raise (HTTPException 400 "No valid fields to update"), db).
Proof.
  intros Hnone. unfold Backend.update_repuesto, handler.
  replace (filter _ (keys payload)) with (@nil string); [reflexivity|].
  induction (keys payload) as [|k l IH]; [reflexivity|].
  cbn [existsb filter] in *. apply orb_false_iff in Hnone. destruct Hnone as [-> Hl].
  now apply IH.
Qed.

(** C6. An empty payload for a repair job reaches the store in
    [Backend/main.py]: the statement has an empty [SET] list, the store
    refuses it and the handler answers 500, not 400; the store is left as
    it was. The same handler in [FastAPI/main.py] and the handler for parts
    reject the payload with 400 before any statement. *)
Theorem update_ficha_empty_payload (id : Z) (db : database) :
  (exists msg,
     Backend.update_ficha id [] db =
     (Raise (HTTPException 500 ("Database error: " ++ msg)), db)) /\
  FastAPI.update_ficha id [] db =
    (Raise (HTTPException 400 "No fields to update"), db) /\
  (forall payload,
     existsb (fun field => in_list field Backend.allowed_fields) (keys payload)
       = false ->
     Backend.update_repuesto id payload db =
     (Raise (HTTPException 400 "No valid fields to update"), db)).
Proof.
  split; [|split].
  - eexists. reflexivity.
  - reflexivity.
  - intros payload. apply update_repuesto_no_valid_fields.
Qed.

Lemma filter_shorter {A} (f : A -> bool) (l : list A) :
  existsb (fun x => negb (f x)) l = true ->
  (List.length (filter f l) < List.length l)%nat.
Proof.
  induction l as [|x l IH]; cbn [existsb filter List.length]; [discriminate|].
  pose proof (filter_length_le f l) as Hle.
  destruct (f x); cbn [negb orb List.length]; [|lia].
  intros Hl. specialize (IH Hl). lia.
Qed.

Lemma bind_update_too_many (known : string -> bool) (fields : list string)
    (values : list pyval) (k : pyval) :
  (List.length fields < List.length values)%nat ->
  exists msg, bind_update known fields (values ++ [k]) = Raise (Error msg).
Proof.
  intros Hlt. unfold bind_update. rewrite length_app. cbn [List.length].
  destruct (forallb convertible _); cbn [negb]; [|eauto].
  destruct (Nat.ltb_spec (List.length values + 1) (List.length fields + 1));
    [lia|].
  destruct (Nat.ltb_spec (List.length fields + 1) (List.length values + 1));
    [eauto|lia].
Qed.

(** C7. A payload for a part that mixes allow-listed and other fields is not
    applied: the statement names the allow-listed fields only while every
    value of the payload is bound, the connector refuses the call and the
    handler answers 500; the store is left as it was. *)
Theorem update_repuesto_mixed_payload (id : Z) (payload : list (string * pyval))
    (db : database) :
  existsb (fun field => in_list field Backend.allowed_fields) (keys payload) = true ->
  existsb (fun field => negb (in_list field Backend.allowed_fields)) (keys payload)
    = true ->
  exists msg,
    Backend.update_repuesto id payload db =
    (Raise (HTTPException 500 ("Database error: " ++ msg)), db).
Proof.
  intros Hsome Hunknown.
  unfold Backend.update_repuesto, handler.
  pose proof (filter_shorter _ _ Hunknown) as Hlt.
  destruct (filter _ (keys payload)) as [|f fields] eqn:Hf.
  - exfalso. apply existsb_exists in Hsome. destruct Hsome as [k [Hin Hk]].
    assert (Hk' : In k (filter (fun field => in_list field Backend.allowed_fields)
                          (keys payload))) by (apply filter_In; auto).
    rewrite Hf in Hk'. destruct Hk'.
  - unfold bind, update_repuestos_by_ID, on_repuestos. cbn [working stored].
    destruct (bind_update_too_many (is_column repuestos_columns) (f :: fields)
                (values payload) (PInt id)) as [msg ->].
    + unfold values, keys in *. now rewrite length_map in *.
    + exists msg. reflexivity.
Qed.

End Updates.

(** ** Non-finite floats *)

Lemma sanitize_float (f : spec_float) :
  has_non_finite (sanitize_data (PFloat f)) = false.
Proof.
  destruct f as [s|s| |s m e]; cbn [sanitize_data].
  - now destruct (_ || _).
  - now destruct s.
  - reflexivity.
  - now destruct (_ || _).
Qed.

(** What [sanitize_data] returns holds no NaN and no infinity. *)
Lemma sanitize_data_clean (v : pyval) :
  has_non_finite (sanitize_data v) = false.
Proof.
  induction v as [| | |f| |l IH|d IH] using pyval_nested_ind;
    try reflexivity.
  - apply sanitize_float.
  - cbn [sanitize_data has_non_finite].
    induction IH as [|x l Hx _ IHl]; cbn [map existsb]; [reflexivity|].
    now rewrite Hx, IHl.
  - cbn [sanitize_data has_non_finite].
    induction IH as [|kv d Hkv _ IHd]; cbn [map existsb snd]; [reflexivity|].
    now rewrite Hkv, IHd.
Qed.

Lemma In_insert_by_numero_ficha (m x : Maquina) (sorted : list Maquina) :
  In x (insert_by_numero_ficha m sorted) <-> x = m \/ In x sorted.
Proof.
  induction sorted as [|m' rest IH]; cbn [insert_by_numero_ficha In].
  - intuition.
  - destruct (_ <=? _); cbn [In]; rewrite ?IH; intuition.
Qed.

Lemma In_order_by_numero_ficha (x : Maquina) (rows : list Maquina) :
  In x (order_by_numero_ficha rows) <-> In x rows.
Proof.
  unfold order_by_numero_ficha.
  induction rows as [|m rows IH]; cbn [fold_right In]; [reflexivity|].
  rewrite In_insert_by_numero_ficha, IH. intuition.
Qed.

Lemma Forall2_In_left {A B} (R : A -> B -> Prop) (x : A) (l : list A) (l' : list B) :
  Forall2 R l l' -> In x l -> exists y, In y l' /\ R x y.
Proof.
  induction 1 as [|a b l l' Hab _ IH]; cbn [In]; [contradiction|].
  intros [<-|Hin].
  - exists b. auto.
  - destruct (IH Hin) as [y [Hy Hxy]]. exists y. auto.
Qed.

Section Listing.

Context `{Engine}.

Lemma decode_fichas_verbatim (rows : list Maquina) (fichas : list Ficha)
    (c c' : connection) :
  Backend.decode_fichas rows c = (Ok fichas, c') ->
  c' = c /\
  Forall2 (fun m f =>
             f.(ficha_row) = m /\
             json_loads m.(repuestos_colocados) = Some f.(ficha_colocados) /\
             json_loads m.(repuestos_faltantes) = Some f.(ficha_faltantes))
          rows fichas.
Proof.
  revert fichas.
  induction rows as [|m rows IH]; intros fichas; cbn [Backend.decode_fichas].
  - unfold ret. intros [= <- <-]. split; [reflexivity|constructor].
  - unfold bind, loads, ret, raise.
    destruct (json_loads m.(repuestos_colocados)) as [colocados|] eqn:Hc;
      [|discriminate].
    destruct (json_loads m.(repuestos_faltantes)) as [faltantes|] eqn:Hf;
      [|discriminate].
    destruct (Backend.decode_fichas rows c) as [[rest|e] c''] eqn:Hrest;
      [|discriminate].
    intros [= <- <-]. destruct (IH rest eq_refl) as [-> Hall].
    split; [reflexivity|]. constructor; auto.
Qed.

(** The mappings [get_fichas] returns are the values [json.loads] made of
    the stored text, as they are. *)
Lemma get_fichas_verbatim (db db' : database) (fichas : list Ficha) :
  Backend.get_fichas db = (Ok fichas, db') ->
  db' = db /\
  Forall (fun f =>
            json_loads f.(ficha_row).(repuestos_colocados) = Some f.(ficha_colocados) /\
            json_loads f.(ficha_row).(repuestos_faltantes) = Some f.(ficha_faltantes))
         fichas.
Proof.
  unfold Backend.get_fichas, handler, bind, select_maquinas. cbn [working stored].
  destruct (Backend.decode_fichas _ _) as [[fs|e] c] eqn:Hdec; cbn [except_Error].
  - intros [= <- <-]. destruct (decode_fichas_verbatim _ _ _ _ Hdec) as [-> Hall].
    split; [reflexivity|].
    clear Hdec. induction Hall as [|m f rows fs [<- [Hc Hf]] _ IH]; constructor; auto.
  - destruct e; discriminate.
Qed.

(** C9. A NaN or an infinity held by the stored placed-parts text of a repair
    job is in what [get_fichas] returns for that job: no handler passes its
    mappings through [sanitize_data], which would have replaced it by
    [None]. *)
Theorem get_fichas_keeps_non_finite (db db' : database) (fichas : list Ficha)
    (m : Maquina) (v : pyval) :
  In m db.(maquinas) ->
  json_loads m.(repuestos_colocados) = Some v ->
  has_non_finite v = true ->
  Backend.get_fichas db = (Ok fichas, db') ->
  exists f,
    In f fichas /\ f.(ficha_row) = m /\ f.(ficha_colocados) = v /\
    has_non_finite f.(ficha_colocados) = true /\
    has_non_finite (sanitize_data f.(ficha_colocados)) = false.
Proof.
  intros Hin Hv Hnf.
  unfold Backend.get_fichas, handler, bind, select_maquinas. cbn [working stored].
  destruct (Backend.decode_fichas _ _) as [[fs|e] c] eqn:Hdec; cbn [except_Error];
    [|destruct e; discriminate].
  intros [= <- _].
  destruct (decode_fichas_verbatim _ _ _ _ Hdec) as [_ Hall].
  apply In_order_by_numero_ficha in Hin.
  destruct (Forall2_In_left _ _ _ _ Hall Hin) as [f [Hf [Hrow [Hc _]]]].
  assert (Hfv : f.(ficha_colocados) = v) by congruence.
  exists f. repeat split; auto.
  - now rewrite Hfv.
  - apply sanitize_data_clean.
Qed.

End Listing.

(** * Properties of the rest of the handlers *)

(** ** [sanitize_data], further *)

Lemma SFeqb_refl_finite (f : spec_float) :
  non_finite f = false -> SFeqb f f = true.
Proof.
  destruct f as [s|s| |s m e]; try discriminate; intros _; [reflexivity|].
  unfold SFeqb, SFcompare.
  destruct s; rewrite Z.compare_refl, Pos.compare_cont_refl; reflexivity.
Qed.

Lemma SFeqb_finite_infinity (f : spec_float) (s : bool) :
  non_finite f = false -> SFeqb f (S754_infinity s) = false.
Proof.
  destruct f as [s'|s'| |s' m e]; try discriminate; intros _; now destruct s.
Qed.

Lemma sanitize_data_keeps_clean (v : pyval) :
  has_non_finite v = false -> sanitize_data v = v.
Proof.
  induction v as [| | |f| |l IH|d IH] using pyval_nested_ind;
    try reflexivity; cbn [sanitize_data has_non_finite].
  - intros Hf. rewrite (SFeqb_refl_finite f Hf).
    unfold float_inf, float_neg_inf. now rewrite !SFeqb_finite_infinity.
  - intros Hl. f_equal.
    induction IH as [|x l Hx _ IHl]; cbn [map existsb] in *; [reflexivity|].
    apply orb_false_iff in Hl. destruct Hl as [Hx' Hl'].
    now rewrite (Hx Hx'), (IHl Hl').
  - intros Hd. f_equal.
    induction IH as [|[k x] d Hx _ IHd]; cbn [map existsb fst snd] in *;
      [reflexivity|].
    apply orb_false_iff in Hd. destruct Hd as [Hx' Hd'].
    now rewrite (Hx Hx'), (IHd Hd').
Qed.

(** X1. The values [sanitize_data] returns unchanged are exactly those that
    hold no NaN and no infinity, at any depth of lists and dicts. *)
Theorem sanitize_data_fixed_points (v : pyval) :
  sanitize_data v = v <-> has_non_finite v = false.
Proof.
  split.
  - intros Hfix. rewrite <- Hfix. apply sanitize_data_clean.
  - apply sanitize_data_keeps_clean.
Qed.

(** X2. Whatever the nesting of dicts and lists, no NaN and no infinity is
    left in what [sanitize_data] returns, and a second pass changes nothing
    any more. *)
Theorem sanitize_data_normalises (v : pyval) :
  has_non_finite (sanitize_data v) = false /\
  sanitize_data (sanitize_data v) = sanitize_data v.
Proof.
  assert (Hclean := sanitize_data_clean v).
  split; [exact Hclean|]. now apply sanitize_data_keeps_clean.
Qed.

Lemma sanitize_items_get (k : string) (d : list (string * pyval)) :
  dict_get k (map (fun kv => (fst kv, sanitize_data (snd kv))) d) =
  option_map sanitize_data (dict_get k d).
Proof.
  induction d as [|[k' v] d IH]; cbn [map dict_get fst snd option_map];
    [reflexivity|].
  destruct (String.eqb k k'); [reflexivity|exact IH].
Qed.

(** X3. [sanitize_data] keeps the keys of a dict and their order; the value
    under a key is the sanitized old value, so an integer quantity stays as
    it is and a NaN or an infinity becomes [None]. *)
Theorem sanitize_data_keeps_keys (d : list (string * pyval)) :
  exists d',
    sanitize_data (PDict d) = PDict d' /\
    keys d' = keys d /\
    (forall k, dict_get k d' = option_map sanitize_data (dict_get k d)) /\
    (forall k q, dict_get k d = Some (PInt q) -> dict_get k d' = Some (PInt q)) /\
    (forall k f, dict_get k d = Some (PFloat f) -> non_finite f = true ->
                 dict_get k d' = Some PNone).
Proof.
  eexists. split; [reflexivity|]. split; [|split; [|split]].
  - unfold keys. rewrite map_map. reflexivity.
  - intros k. apply sanitize_items_get.
  - intros k q Hq. now rewrite sanitize_items_get, Hq.
  - intros k f Hf Hnf. rewrite sanitize_items_get, Hf.
    cbn [option_map]. f_equal.
    destruct f as [s|s| |s m e]; try discriminate; [now destruct s|reflexivity].
Qed.

(** ** Stock reconciliation, further *)

Section ReconciliationMore.

Context `{Engine}.

Lemma on_repuestos_raise (r : result (list Repuesto * Z)) (c c' : connection)
    (e : exception) :
  on_repuestos r c = (Raise e, c') -> c' = c.
Proof.
  unfold on_repuestos. destruct r as [[rows n]|e']; [discriminate|].
  now intros [= _ <-].
Qed.

Lemma update_by_codigo_raise (fields : list string) (params : list pyval)
    (c c' : connection) (e : exception) :
  update_repuestos_by_codigo fields params c = (Raise e, c') -> c' = c.
Proof. apply on_repuestos_raise. Qed.

(** X4. A call of [update_stock] that does not answer success leaves the
    store as it was, whatever the rows, the recorded value and the action. *)
Theorem update_stock_failure_keeps_store
    (h : Z -> string -> string -> database -> result pyval * database)
    (db db' : database) (ficha_id : Z) (code action : string) (e : exception) :
  In h update_stock_handlers ->
  h ficha_id code action db = (Raise e, db') ->
  db' = db.
Proof.
  intros Hh. rewrite (update_stock_handlers_same h Hh).
  unfold Backend.update_stock, handler, bind, select_repuestos_colocados,
    select_cantidad_disponible, loads, lift, ret, raise, commit.
  cbn [working stored].
  repeat (case_innermost; cbn beta iota; cbn [except_Error stored]; try discriminate).
  all: intros [= _ <-]; try reflexivity.
  all: match goal with
       | Hw : update_repuestos_by_codigo _ _ _ = _ |- _ =>
           apply update_by_codigo_raise in Hw; now subst
       end.
Qed.

(** X5. In [FastAPI/main.py], where the action of the request is any
    string: when the rows exist and the code is recorded on the job,
    whatever is recorded, an action that is neither "decrease" nor
    "increase" is rejected with 400 "Invalid action" and nothing is written.
    The request model of [Backend/main.py] admits the two actions only, so
    its handler is not called with another one. *)
Theorem update_stock_invalid_action
    (db : database) (ficha_id : Z) (code action : string) (m : Maquina)
    (r : Repuesto) (d : list (string * pyval)) (v : pyval) :
  find_ficha db ficha_id = Some m ->
  find_repuesto db code = Some r ->
  json_loads m.(repuestos_colocados) = Some (PDict d) ->
  dict_get code d = Some v ->
  action <> "decrease" -> action <> "increase" ->
  FastAPI.update_stock ficha_id code action db =
    (Raise (HTTPException 400 "Invalid action"), db).
Proof.
  intros Hm Hr Hd Hv Hdec Hinc.
  unfold FastAPI.update_stock, handler, bind, select_repuestos_colocados,
    select_cantidad_disponible, fetchone_where. cbn [working stored].
  unfold find_ficha in Hm. unfold find_repuesto in Hr. rewrite Hm, Hr.
  cbn [option_map]. unfold loads. rewrite Hd. unfold ret, lift, raise.
  cbn [Py.contains Py.getitem]. rewrite (dict_get_has _ _ _ Hv), Hv.
  cbn [negb].
  apply String.eqb_neq in Hdec. apply String.eqb_neq in Hinc.
  now rewrite Hdec, Hinc.
Qed.

(** X6. When what is recorded for the part is not a number, a "decrease" or an
    "increase" ends in a [TypeError] no [except] clause of the handler
    catches, so the answer is not one of its 4xx responses, and nothing is
    written. *)
Theorem update_stock_quantity_not_a_number
    (h : Z -> string -> string -> database -> result pyval * database)
    (db : database) (ficha_id : Z) (code action : string) (m : Maquina)
    (r : Repuesto) (d : list (string * pyval)) (v : pyval) :
  In h update_stock_handlers ->
  find_ficha db ficha_id = Some m ->
  find_repuesto db code = Some r ->
  json_loads m.(repuestos_colocados) = Some (PDict d) ->
  dict_get code d = Some v ->
  not_a_number v = true ->
  action = "decrease" \/ action = "increase" ->
  h ficha_id code action db = (Raise TypeError, db) /\
  status_of (fst (h ficha_id code action db)) = 500.
Proof.
  intros Hh Hm Hr Hd Hv Hnan Hact. rewrite (update_stock_handlers_same h Hh).
  assert (Hrun : Backend.update_stock ficha_id code action db = (Raise TypeError, db)).
  { unfold Backend.update_stock, handler, bind, select_repuestos_colocados,
      select_cantidad_disponible, fetchone_where. cbn [working stored].
    unfold find_ficha in Hm. unfold find_repuesto in Hr. rewrite Hm, Hr.
    cbn [option_map]. unfold loads. rewrite Hd. unfold ret, lift, raise.
    cbn [Py.contains Py.getitem]. rewrite (dict_get_has _ _ _ Hv), Hv.
    cbn [negb].
    destruct Hact as [-> | ->]; cbn [String.eqb Ascii.eqb Bool.eqb];
      destruct v; try discriminate; reflexivity. }
  now rewrite Hrun.
Qed.

Lemma decreases_stock (db : database) (ficha_id : Z) (code : string)
    (m : Maquina) (r : Repuesto) (d : list (string * pyval)) (q : Z) (n : nat) :
  find_ficha db ficha_id = Some m ->
  find_repuesto db code = Some r ->
  json_loads m.(repuestos_colocados) = Some (PDict d) ->
  dict_get code d = Some (PInt q) ->
  0 <= q ->
  Z.of_nat n * q <= r.(cantidad_disponible) ->
  find_ficha (decreases ficha_id code n db) ficha_id = Some m /\
  find_repuesto (decreases ficha_id code n db) code =
    Some (set_cantidad_disponible (r.(cantidad_disponible) - Z.of_nat n * q) r).
Proof.
  intros Hm Hr Hd Hq Hq0.
  induction n as [|n IH]; intros Hn.
  - cbn [decreases]. split; [exact Hm|]. rewrite Hr. f_equal.
    replace (r.(cantidad_disponible) - Z.of_nat 0 * q) with r.(cantidad_disponible)
      by lia.
    symmetry. apply set_cantidad_same.
  - destruct IH as [Hm' Hr']; [lia|]. cbn [decreases].
    rewrite (update_stock_recorded_int _ ficha_id code "decrease" m _ d q Hm' Hr' Hd Hq).
    cbn [String.eqb Ascii.eqb Bool.eqb cantidad_disponible set_cantidad_disponible].
    destruct (Z.ltb_spec (r.(cantidad_disponible) - Z.of_nat n * q - q) 0); [lia|].
    cbn [snd]. split; [exact Hm'|].
    rewrite (find_with_stock _ _ _ _ Hr'), set_cantidad_twice.
    do 2 f_equal. lia.
Qed.

(** X7. With a quantity [q >= 0] recorded and a stock [c], [n] decreases in a
    row all succeed as long as [n * q <= c] and leave [c - n * q]; the next
    one succeeds if [q] more units are there and is rejected with "Not enough
    stock" otherwise, the stock staying at [c - n * q]. *)
Theorem update_stock_repeated_decrease
    (db : database) (ficha_id : Z) (code : string)
    (m : Maquina) (r : Repuesto) (d : list (string * pyval)) (q : Z) (n : nat) :
  find_ficha db ficha_id = Some m ->
  find_repuesto db code = Some r ->
  json_loads m.(repuestos_colocados) = Some (PDict d) ->
  dict_get code d = Some (PInt q) ->
  0 <= q ->
  Z.of_nat n * q <= r.(cantidad_disponible) ->
  let left := r.(cantidad_disponible) - Z.of_nat n * q in
  find_repuesto (decreases ficha_id code n db) code =
    Some (set_cantidad_disponible left r) /\
  fst (Backend.update_stock ficha_id code "decrease" (decreases ficha_id code n db)) =
    (if left - q <? 0
     then Raise (HTTPException 400 "Not enough stock")
     else Ok (stock_updated (PInt (left - q)))) /\
  (left - q < 0 ->
   decreases ficha_id code (S n) db = decreases ficha_id code n db).
Proof.
  intros Hm Hr Hd Hq Hq0 Hn left.
  destruct (decreases_stock db ficha_id code m r d q n Hm Hr Hd Hq Hq0 Hn)
    as [Hm' Hr'].
  split; [exact Hr'|]. cbn [decreases].
  rewrite (update_stock_recorded_int _ ficha_id code "decrease" m _ d q Hm' Hr' Hd Hq).
  cbn [String.eqb Ascii.eqb Bool.eqb cantidad_disponible set_cantidad_disponible].
  fold left. split.
  - now destruct (left - q <? 0).
  - intros Hneg. destruct (Z.ltb_spec (left - q) 0); [reflexivity|lia].
Qed.

End ReconciliationMore.

(** ** Delete and partial update, further *)

Lemma Repuesto_eqb_eq (a b : Repuesto) : Repuesto_eqb a b = true -> a = b.
Proof.
  destruct a, b. unfold Repuesto_eqb. cbn.
  rewrite !andb_true_iff, !String.eqb_eq, !Z.eqb_eq. intuition congruence.
Qed.

Lemma Maquina_eqb_eq (a b : Maquina) : Maquina_eqb a b = true -> a = b.
Proof.
  destruct a, b. unfold Maquina_eqb. cbn.
  rewrite !andb_true_iff, !String.eqb_eq, !Z.eqb_eq. intuition congruence.
Qed.

Section RowsMore.

Context {Row : Type}.
Variable hit : Row -> bool.
Variable assign : string -> pyval -> Row -> result Row.
Variable counted : Row -> Row -> bool.

Lemma update_where_rowcount (sets : list (string * pyval)) (rows rows' : list Row)
    (n : Z) :
  update_where hit assign counted sets rows = Ok (rows', n) -> 0 <= n.
Proof.
  revert rows' n.
  induction rows as [|r rows IH]; intros rows' n; cbn [update_where].
  - intros [= _ <-]. lia.
  - destruct (hit r).
    + destruct (assign_all assign sets r) as [r'|e]; cbn [rbind]; [|discriminate].
      destruct (update_where _ _ _ sets rows) as [[rest k]|e]; cbn [rbind];
        [|discriminate].
      specialize (IH rest k eq_refl).
      destruct (counted r r'); intros [= _ <-]; lia.
    + destruct (update_where _ _ _ sets rows) as [[rest k]|e]; cbn [rbind];
        [|discriminate].
      intros [= _ <-]. exact (IH rest k eq_refl).
Qed.

(** A rowcount of zero: no row was counted. *)
Lemma update_where_none_counted (sets : list (string * pyval))
    (rows rows' : list Row) :
  (forall r r', counted r r' = false -> r' = r) ->
  update_where hit assign counted sets rows = Ok (rows', 0) -> rows' = rows.
Proof.
  intros Hsound. revert rows'.
  induction rows as [|r rows IH]; intros rows'; cbn [update_where].
  - now intros [= <-].
  - destruct (hit r).
    + destruct (assign_all assign sets r) as [r'|e]; cbn [rbind]; [|discriminate].
      destruct (update_where _ _ _ sets rows) as [[rest k]|e] eqn:Hrest;
        cbn [rbind]; [|discriminate].
      pose proof (update_where_rowcount _ _ _ _ Hrest) as Hk.
      destruct (counted r r') eqn:Hc; intros [= <- Hz]; [lia|].
      subst k. now rewrite (Hsound _ _ Hc), (IH rest eq_refl).
    + destruct (update_where _ _ _ sets rows) as [[rest k]|e] eqn:Hrest;
        cbn [rbind]; [|discriminate].
      intros [= <- ->]. now rewrite (IH rest eq_refl).
Qed.

Lemma delete_where_none (rows : list Row) :
  snd (delete_where hit rows) = 0 -> fst (delete_where hit rows) = rows.
Proof.
  unfold delete_where. cbn [fst snd].
  induction rows as [|r rows IH]; cbn [filter]; [reflexivity|].
  destruct (hit r); cbn [negb List.length]; [lia|].
  intros Hz. now rewrite (IH Hz).
Qed.

Lemma delete_where_some (rows : list Row) (r : Row) :
  find hit rows = Some r -> snd (delete_where hit rows) <> 0.
Proof.
  unfold delete_where. cbn [snd].
  induction rows as [|r0 rows IH]; cbn [find filter]; [discriminate|].
  destruct (hit r0); cbn [List.length]; [lia|]. exact IH.
Qed.

End RowsMore.

Section UpdatesMore.

Context `{Engine}.

Lemma counted_sound {Row} (Row_eqb : Row -> Row -> bool) :
  (forall a b, Row_eqb a b = true -> a = b) ->
  forall r r', counted Row_eqb r r' = false -> r' = r.
Proof.
  intros Heq r r'. unfold counted. intros Hc.
  apply orb_false_iff in Hc. destruct Hc as [_ Hc].
  apply negb_false_iff in Hc. symmetry. now apply Heq.
Qed.

Lemma update_by_ID_outcome (fields : list string) (params : list pyval)
    (c c' : connection) (r : result Z) :
  update_repuestos_by_ID fields params c = (r, c') ->
  c'.(stored) = c.(stored) /\
  match r with
  | Ok n => n = 0 -> c'.(working) = c.(working)
  | Raise e => c' = c
  end.
Proof.
  unfold update_repuestos_by_ID, on_repuestos.
  destruct (rbind _ _) as [[rows n]|e] eqn:Hw.
  - intros [= <- <-]. cbn [stored working]. split; [reflexivity|].
    intros ->. destruct (bind_update _ fields params) as [[sets key]|e];
      cbn [rbind] in Hw; [|discriminate].
    rewrite (update_where_none_counted _ _ _ _ _ _
               (counted_sound Repuesto_eqb Repuesto_eqb_eq) Hw).
    apply database_eta.
  - intros [= <- <-]. split; reflexivity.
Qed.

Lemma update_by_item_outcome (fields : list string) (params : list pyval)
    (c c' : connection) (r : result Z) :
  update_maquinas_by_item fields params c = (r, c') ->
  c'.(stored) = c.(stored) /\
  match r with
  | Ok n => n = 0 -> c'.(working) = c.(working)
  | Raise e => c' = c
  end.
Proof.
  unfold update_maquinas_by_item, on_maquinas.
  destruct (rbind _ _) as [[rows n]|e] eqn:Hw.
  - intros [= <- <-]. cbn [stored working]. split; [reflexivity|].
    intros ->. destruct (bind_update _ fields params) as [[sets key]|e];
      cbn [rbind] in Hw; [|discriminate].
    rewrite (update_where_none_counted _ _ _ _ _ _
               (counted_sound Maquina_eqb Maquina_eqb_eq) Hw).
    apply database_eta.
  - intros [= <- <-]. split; reflexivity.
Qed.

(** X8. A partial update that does not answer success leaves the store as it
    was: the guard, a statement the store refuses and a rowcount of zero
    all come with no row changed. This is so for every payload of
    [update_repuesto] in [Backend/main.py], which lets through the names of
    its allow-list only, and for the payloads that name columns of the
    table only of the three handlers that put every key of the payload into
    the text of the statement as it is. *)
Theorem update_failure_keeps_store (id : Z) (payload : list (string * pyval))
    (db db' : database) (e : exception) :
  (Backend.update_repuesto id payload db = (Raise e, db') -> db' = db) /\
  (forallb (is_column repuestos_columns) (keys payload) = true ->
   FastAPI.update_repuesto id payload db = (Raise e, db') -> db' = db) /\
  (forallb (is_column maquinas_columns) (keys payload) = true ->
   Backend.update_ficha id payload db = (Raise e, db') -> db' = db) /\
  (forallb (is_column maquinas_columns) (keys payload) = true ->
   FastAPI.update_ficha id payload db = (Raise e, db') -> db' = db).
Proof.
  assert (Hrep : forall fields params,
            (let '(r, c) :=
               bind (update_repuestos_by_ID fields params)
                 (fun rowcount => bind commit (fun _ =>
                    if rowcount =? 0
                    then raise (HTTPException 404 "Repuesto no encontrado")
                    else ret "Repuesto actualizado exitosamente"))
                 (mkConnection db db) in
             (except_Error r, c.(stored))) = (Raise e, db') -> db' = db).
  { intros fields params. unfold bind, commit, raise, ret.
    destruct (update_repuestos_by_ID fields params _) as [[n|e'] c'] eqn:Hu;
      destruct (update_by_ID_outcome _ _ _ _ _ Hu) as [Hs Hr];
      cbn [stored working] in *.
    - destruct (Z.eqb_spec n 0) as [Hz|_]; cbn [except_Error stored];
        [|discriminate].
      intros [= _ <-]. exact (Hr Hz).
    - subst c'. cbn [stored]. now intros [= _ <-]. }
  assert (Hmaq : forall fields params,
            (let '(r, c) :=
               bind (update_maquinas_by_item fields params)
                 (fun rowcount => bind commit (fun _ =>
                    if rowcount =? 0
                    then raise (HTTPException 404 "Ficha no encontrada")
                    else ret "Ficha actualizada exitosamente"))
                 (mkConnection db db) in
             (except_Error r, c.(stored))) = (Raise e, db') -> db' = db).
  { intros fields params. unfold bind, commit, raise, ret.
    destruct (update_maquinas_by_item fields params _) as [[n|e'] c'] eqn:Hu;
      destruct (update_by_item_outcome _ _ _ _ _ Hu) as [Hs Hr];
      cbn [stored working] in *.
    - destruct (Z.eqb_spec n 0) as [Hz|_]; cbn [except_Error stored];
        [|discriminate].
      intros [= _ <-]. exact (Hr Hz).
    - subst c'. cbn [stored]. now intros [= _ <-]. }
  split; [|split; [|split]].
  - unfold Backend.update_repuesto, handler.
    destruct (filter _ (keys payload)) as [|f fields].
    + now intros [= _ <-].
    + apply Hrep.
  - intros _. unfold FastAPI.update_repuesto, handler.
    destruct (keys payload) as [|f fields].
    + now intros [= _ <-].
    + apply Hrep.
  - intros _. unfold Backend.update_ficha, handler. apply Hmaq.
  - intros _. unfold FastAPI.update_ficha, handler.
    destruct (keys payload) as [|f fields].
    + now intros [= _ <-].
    + apply Hmaq.
Qed.

(** X9. When a part has the identifier, [delete_repuesto] answers success
    and removes the rows with that identifier and no other: the rest keeps
    its order, the repair jobs are left alone, and no part has the
    identifier afterwards. *)
Theorem delete_repuesto_removes_the_row (id : Z) (db : database) (r : Repuesto) :
  find_repuesto_by_ID db id = Some r ->
  Backend.delete_repuesto id db =
  (Ok "Repuesto eliminado exitosamente",
   mkDatabase (filter (fun r' => negb (r'.(ID) =? id)) db.(repuestos))
              db.(maquinas)) /\
  find_repuesto_by_ID (snd (Backend.delete_repuesto id db)) id = None.
Proof.
  intros Hfind.
  assert (Hrun : Backend.delete_repuesto id db =
                 (Ok "Repuesto eliminado exitosamente",
                  mkDatabase (filter (fun r' => negb (r'.(ID) =? id)) db.(repuestos))
                             db.(maquinas))).
  { unfold Backend.delete_repuesto, handler, bind, delete_repuestos_by_id,
      on_repuestos, commit. cbn [working stored].
    pose proof (delete_where_some _ _ _ Hfind) as Hn.
    unfold delete_where in *. cbn [snd] in Hn.
    cbn [working stored].
    match goal with
    | |- context [?n =? 0] => destruct (Z.eqb_spec n 0) as [Hz|_]
    end; [contradiction|].
    reflexivity. }
  split; [exact Hrun|]. rewrite Hrun. cbn [snd].
  exact (find_after_delete (fun r0 => key_is (PInt id) r0.(ID)) db.(repuestos)).
Qed.

(** X10. Deleting a repair job removes the rows with that identifier and
    nothing else: the parts table, and so the stock of the parts that were
    placed on the job, is left as it was. *)
Theorem delete_ficha_removes_the_row (id : Z) (db : database) (m : Maquina) :
  find_ficha db id = Some m ->
  Backend.delete_ficha id db =
  (Ok "Ficha eliminada exitosamente",
   mkDatabase db.(repuestos)
              (filter (fun m' => negb (m'.(item) =? id)) db.(maquinas))) /\
  find_ficha (snd (Backend.delete_ficha id db)) id = None.
Proof.
  intros Hfind.
  assert (Hrun : Backend.delete_ficha id db =
                 (Ok "Ficha eliminada exitosamente",
                  mkDatabase db.(repuestos)
                    (filter (fun m' => negb (m'.(item) =? id)) db.(maquinas)))).
  { unfold Backend.delete_ficha, handler, bind, delete_maquinas_by_item,
      on_maquinas, commit. cbn [working stored].
    pose proof (delete_where_some _ _ _ Hfind) as Hn.
    unfold delete_where in *. cbn [snd] in Hn.
    cbn [working stored].
    match goal with
    | |- context [?n =? 0] => destruct (Z.eqb_spec n 0) as [Hz|_]
    end; [contradiction|].
    reflexivity. }
  split; [exact Hrun|]. rewrite Hrun. cbn [snd].
  exact (find_after_delete (fun m0 => key_is (PInt id) m0.(item)) db.(maquinas)).
Qed.

End UpdatesMore.

Section RowsMap.

Context {Row : Type}.
Variable hit : Row -> bool.
Variable assign : string -> pyval -> Row -> result Row.
Variable counted : Row -> Row -> bool.

(** An [UPDATE] whose assignments succeed on every row it selects. *)
Lemma update_where_map (sets : list (string * pyval)) (f : Row -> Row)
    (rows : list Row) :
  (forall r, hit r = true -> assign_all assign sets r = Ok (f r)) ->
  update_where hit assign counted sets rows =
  Ok (map (fun r => if hit r then f r else r) rows,
      Z.of_nat (List.length (filter (fun r => hit r && counted r (f r)) rows))).
Proof.
  intros Hf.
  induction rows as [|r rows IH]; cbn [update_where map filter List.length];
    [reflexivity|].
  rewrite IH. destruct (hit r) eqn:Hit; cbn [rbind andb].
  - rewrite (Hf r Hit). cbn [rbind].
    destruct (counted r (f r)); cbn [List.length]; [|reflexivity].
    do 2 f_equal. lia.
  - reflexivity.
Qed.

Lemma update_where_keeps {A} (key : Row -> A) (sets : list (string * pyval))
    (rows rows' : list Row) (n : Z) :
  (forall r r', assign_all assign sets r = Ok r' -> key r' = key r) ->
  update_where hit assign counted sets rows = Ok (rows', n) ->
  map key rows' = map key rows.
Proof.
  intros Hkey. revert rows' n.
  induction rows as [|r rows IH]; intros rows' n; cbn [update_where].
  - now intros [= <- _].
  - destruct (hit r).
    + destruct (assign_all assign sets r) as [r'|e] eqn:Ha; cbn [rbind];
        [|discriminate].
      destruct (update_where _ _ _ sets rows) as [[rest k]|e]; cbn [rbind];
        [|discriminate].
      intros [= <- _]. cbn [map]. now rewrite (Hkey _ _ Ha), (IH rest k eq_refl).
    + destruct (update_where _ _ _ sets rows) as [[rest k]|e]; cbn [rbind];
        [|discriminate].
      intros [= <- _]. cbn [map]. now rewrite (IH rest k eq_refl).
Qed.

Lemma assign_all_keeps {A} (key : Row -> A) (sets : list (string * pyval)) :
  (forall col v r r', In (col, v) sets -> assign col v r = Ok r' -> key r' = key r) ->
  forall r r', assign_all assign sets r = Ok r' -> key r' = key r.
Proof.
  induction sets as [|[col v] sets IH]; intros Hone r r'; cbn [assign_all].
  - now intros [= <-].
  - destruct (assign col v r) as [r1|e] eqn:H1; cbn [rbind]; [|discriminate].
    intros Hrest. rewrite (IH (fun c w a b Hin => Hone c w a b (or_intror Hin))
                             _ _ Hrest).
    exact (Hone col v r r1 (or_introl eq_refl) H1).
Qed.

Lemma find_map_hit (f : Row -> Row) (rows : list Row) (r : Row) :
  (forall r, hit (f r) = hit r) ->
  find hit rows = Some r ->
  find hit (map (fun r => if hit r then f r else r) rows) = Some (f r).
Proof.
  intros Hhit.
  induction rows as [|r0 rows IH]; cbn [find map]; [discriminate|].
  destruct (hit r0) eqn:Hit.
  - intros [= ->]. now rewrite Hhit, Hit.
  - rewrite Hit. exact IH.
Qed.

Lemma find_none_all (p : Row -> bool) (rows : list Row) :
  (forall x, In x rows -> p x = false) -> find p rows = None.
Proof.
  induction rows as [|r rows IH]; cbn [find]; [reflexivity|].
  intros Hall. rewrite (Hall r (or_introl eq_refl)).
  apply IH. intros x Hx. apply Hall. now right.
Qed.

Lemma filter_hit_nonempty (p : Row -> bool) (rows : list Row) (r : Row) :
  In r rows -> p r = true -> (0 < List.length (filter p rows))%nat.
Proof.
  intros Hin Hp.
  assert (Hf : In r (filter p rows)) by (apply filter_In; auto).
  destruct (filter p rows); [destruct Hf|cbn; lia].
Qed.

End RowsMap.

Section UpdatesMore2.

Context `{Engine}.

Lemma Repuesto_eqb_refl (r : Repuesto) : Repuesto_eqb r r = true.
Proof.
  unfold Repuesto_eqb. now rewrite !String.eqb_refl, !Z.eqb_refl.
Qed.

Lemma assign_allowed_keeps_ID (col : string) (v : pyval) (r r' : Repuesto) :
  in_list col Backend.allowed_fields = true ->
  assign_repuesto col v r = Ok r' -> r'.(ID) = r.(ID).
Proof.
  unfold in_list, Backend.allowed_fields. cbn [existsb]. intros Hin.
  repeat (apply orb_true_iff in Hin; destruct Hin as [Hin|Hin]);
    try discriminate; apply String.eqb_eq in Hin; subst col;
    destruct r; unfold assign_repuesto; cbv zeta;
    cbn [String.eqb Ascii.eqb Bool.eqb];
    destruct (to_int_column v), (to_text_column v);
    cbn [rbind]; try discriminate; intros [= <-]; reflexivity.
Qed.

(** X11. [update_repuesto] of [Backend/main.py] never touches the key of a
    part: whatever the payload and the outcome, the keys of the parts are
    the same, in the same order, and the repair jobs are as they were. *)
Theorem update_repuesto_keeps_the_keys (id : Z) (payload : list (string * pyval))
    (db : database) :
  map ID (snd (Backend.update_repuesto id payload db)).(repuestos) =
    map ID db.(repuestos) /\
  (snd (Backend.update_repuesto id payload db)).(maquinas) = db.(maquinas).
Proof.
  unfold Backend.update_repuesto, handler.
  destruct (filter _ (keys payload)) as [|f fields] eqn:Hf; [now cbn|].
  unfold bind, update_repuestos_by_ID, on_repuestos, commit. cbn [working stored].
  destruct (bind_update _ _ _) as [[sets key]|e] eqn:Hb; cbn [rbind]; [|now cbn].
  destruct (update_where _ _ _ sets _) as [[rows n]|e] eqn:Hw; [|now cbn].
  assert (Hrows : map ID rows = map ID db.(repuestos)).
  { apply (update_where_keeps _ _ _ ID _ _ _ _) with (2 := Hw).
    apply assign_all_keeps. intros col v r r' Hin.
    apply assign_allowed_keeps_ID.
    assert (Hcol : In col (f :: fields)).
    { revert Hb. unfold bind_update.
      repeat match goal with
             | |- context [if ?b then _ else _] => destruct b
             end; try discriminate.
      intros [= <- _].
      exact (in_combine_l (f :: fields) (values payload ++ [PInt id])%list
               col v Hin). }
    rewrite <- Hf in Hcol. apply filter_In in Hcol. exact (proj2 Hcol). }
  cbn [working stored]. destruct (n =? 0); cbn; auto.
Qed.

(** X12. [update_repuesto] of [FastAPI/main.py] has no allow-list, so a payload
    can name the key itself: with a key [k] no part has yet, the part [id]
    becomes the part [k], and no part has the key [id] any more. *)
Theorem update_repuesto_can_rewrite_the_key (id k : Z) (db : database)
    (r : Repuesto) :
  find_repuesto_by_ID db id = Some r ->
  find_repuesto_by_ID db k = None ->
  k <> id ->
  FastAPI.update_repuesto id [("ID", PInt k)] db =
    (Ok "Repuesto actualizado exitosamente",
     mkDatabase
       (map (fun r' => if r'.(ID) =? id
                       then mkRepuesto k r'.(codigo) r'.(descripción)
                              r'.(cantidad_disponible) r'.(nº_estantería)
                              r'.(nº_estante) r'.(nº_BIN) r'.(posición_BIN)
                       else r') db.(repuestos))
       db.(maquinas)) /\
  find_repuesto_by_ID (snd (FastAPI.update_repuesto id [("ID", PInt k)] db)) id = None.
Proof.
  intros Hfind _ Hk.
  assert (Hrun : FastAPI.update_repuesto id [("ID", PInt k)] db =
    (Ok "Repuesto actualizado exitosamente",
     mkDatabase
       (map (fun r' => if r'.(ID) =? id
                       then mkRepuesto k r'.(codigo) r'.(descripción)
                              r'.(cantidad_disponible) r'.(nº_estantería)
                              r'.(nº_estante) r'.(nº_BIN) r'.(posición_BIN)
                       else r') db.(repuestos))
       db.(maquinas))).
  { unfold FastAPI.update_repuesto, handler, bind, update_repuestos_by_ID,
      on_repuestos, commit.
    cbn [keys values map fst snd app working stored].
    unfold bind_update. cbn.
    rewrite (update_where_map _ _ _ _
               (fun r' => mkRepuesto k r'.(codigo) r'.(descripción)
                            r'.(cantidad_disponible) r'.(nº_estantería)
                            r'.(nº_estante) r'.(nº_BIN) r'.(posición_BIN)));
      [|intros [] _; reflexivity].
    match goal with
    | |- context [Z.of_nat ?n =? 0] => destruct (Z.eqb_spec (Z.of_nat n) 0) as [Hz|_]
    end; [|reflexivity].
    exfalso. unfold find_repuesto_by_ID in Hfind.
    destruct (find_some _ _ Hfind) as [Hin Hit]. cbn [key_is] in Hit.
    assert (Hpos := filter_hit_nonempty
              (fun r0 => (r0.(ID) =? id) &&
                         counted Repuesto_eqb r0
                           (mkRepuesto k r0.(codigo) r0.(descripción)
                              r0.(cantidad_disponible) r0.(nº_estantería)
                              r0.(nº_estante) r0.(nº_BIN) r0.(posición_BIN)))
              _ r Hin).
    cbv beta in Hpos. rewrite Hit in Hpos. cbn [andb] in Hpos.
    assert (Hc : counted Repuesto_eqb r
                   (mkRepuesto k r.(codigo) r.(descripción)
                      r.(cantidad_disponible) r.(nº_estantería)
                      r.(nº_estante) r.(nº_BIN) r.(posición_BIN)) = true).
    { unfold counted. apply orb_true_iff. right. apply negb_true_iff.
      destruct (Repuesto_eqb _ _) eqn:He; [|reflexivity].
      apply Repuesto_eqb_eq in He. apply Z.eqb_eq in Hit.
      apply (f_equal ID) in He. cbn in He. congruence. }
    specialize (Hpos Hc). cbn [key_is] in Hz. lia. }
  split; [exact Hrun|]. rewrite Hrun. cbn [snd]. unfold find_repuesto_by_ID.
  cbn [repuestos key_is]. apply find_none_all.
  intros x Hx. apply in_map_iff in Hx. destruct Hx as [r0 [<- _]].
  destruct (Z.eqb_spec r0.(ID) id) as [_|Hne]; cbn [ID].
  - now apply Z.eqb_neq.
  - now apply Z.eqb_neq.
Qed.

End UpdatesMore2.

Section UpdatesMore3.

Context `{Engine}.

Lemma update_stock_by_ID (id n : Z) (db : database) :
  update_repuestos_by_ID ["cantidad_disponible"] [PInt n; PInt id]
    (mkConnection db db) =
  (Ok (Z.of_nat (List.length
         (filter (fun r => (r.(ID) =? id) &&
                           counted Repuesto_eqb r (set_cantidad_disponible n r))
                 db.(repuestos)))),
   mkConnection db
     (mkDatabase (map (fun r => if r.(ID) =? id
                                then set_cantidad_disponible n r else r)
                      db.(repuestos))
                 db.(maquinas))).
Proof.
  unfold update_repuestos_by_ID, on_repuestos, bind_update. cbn.
  rewrite (update_where_map _ _ _ _ (set_cantidad_disponible n));
    [reflexivity|].
  intros r _. cbn [assign_all]. now rewrite assign_cantidad_disponible.
Qed.

(** X13. Through [update_repuesto] the stock of a part can be set to any
    integer, a negative one included: no check stands between the payload
    and the [UPDATE]. *)
Theorem update_repuesto_sets_any_stock (id n : Z) (db : database) (r : Repuesto) :
  find_repuesto_by_ID db id = Some r ->
  n <> r.(cantidad_disponible) ->
  exists db',
    Backend.update_repuesto id [("cantidad_disponible", PInt n)] db =
      (Ok "Repuesto actualizado exitosamente", db') /\
    find_repuesto_by_ID db' id = Some (set_cantidad_disponible n r) /\
    db'.(maquinas) = db.(maquinas).
Proof.
  intros Hfind Hn.
  unfold Backend.update_repuesto, handler, bind, commit.
  cbn [keys values map fst snd filter in_list existsb Backend.allowed_fields
       String.eqb Ascii.eqb Bool.eqb orb app].
  rewrite update_stock_by_ID. cbn [working stored].
  match goal with
  | |- context [Z.of_nat ?k =? 0] => destruct (Z.eqb_spec (Z.of_nat k) 0) as [Hz|_]
  end.
  - exfalso. unfold find_repuesto_by_ID in Hfind.
    destruct (find_some _ _ Hfind) as [Hin Hit]. cbn [key_is] in Hit.
    assert (Hpos := filter_hit_nonempty
              (fun r0 => (r0.(ID) =? id) &&
                         counted Repuesto_eqb r0 (set_cantidad_disponible n r0))
              _ r Hin).
    cbv beta in Hpos. rewrite Hit in Hpos. cbn [andb] in Hpos.
    assert (Hc : counted Repuesto_eqb r (set_cantidad_disponible n r) = true).
    { unfold counted. apply orb_true_iff. right. apply negb_true_iff.
      destruct (Repuesto_eqb _ _) eqn:He; [|reflexivity].
      apply Repuesto_eqb_eq in He. apply (f_equal cantidad_disponible) in He.
      cbn in He. congruence. }
    specialize (Hpos Hc). lia.
  - eexists. split; [reflexivity|]. split; [|reflexivity].
    unfold find_repuesto_by_ID in *. cbn [repuestos key_is] in *.
    apply (find_map_hit (fun r0 => r0.(ID) =? id) (set_cantidad_disponible n));
      [reflexivity|exact Hfind].
Qed.

(** X14. An update that writes what the rows already hold: whether it answers
    success or 404 depends on what [rowcount] counts. When it counts the
    rows whose content changed, the update of an existing part with its own
    quantity answers "no encontrado". *)
Theorem update_repuesto_same_value (id n : Z) (db : database) (r : Repuesto) :
  find_repuesto_by_ID db id = Some r ->
  (forall r', In r' db.(repuestos) -> r'.(ID) = id -> r'.(cantidad_disponible) = n) ->
  Backend.update_repuesto id [("cantidad_disponible", PInt n)] db =
  (if found_rows
   then Ok "Repuesto actualizado exitosamente"
   else Raise (HTTPException 404 "Repuesto no encontrado"),
   db).
Proof.
  intros Hfind Hsame.
  unfold Backend.update_repuesto, handler, bind, commit.
  cbn [keys values map fst snd filter in_list existsb Backend.allowed_fields
       String.eqb Ascii.eqb Bool.eqb orb app].
  rewrite update_stock_by_ID. cbn [working stored].
  assert (Hrows : map (fun r0 => if r0.(ID) =? id
                                 then set_cantidad_disponible n r0 else r0)
                      db.(repuestos) = db.(repuestos)).
  { rewrite <- (map_id db.(repuestos)) at 2. apply map_ext_in.
    intros r0 Hin. destruct (Z.eqb_spec r0.(ID) id) as [Hid|_]; [|reflexivity].
    rewrite <- (Hsame r0 Hin Hid). apply set_cantidad_same. }
  rewrite Hrows, database_eta.
  assert (Hcount : forall r0, In r0 db.(repuestos) ->
            ((r0.(ID) =? id) &&
             counted Repuesto_eqb r0 (set_cantidad_disponible n r0)) =
            ((r0.(ID) =? id) && found_rows)).
  { intros r0 Hin. destruct (Z.eqb_spec r0.(ID) id) as [Hid|_]; [|reflexivity].
    cbn [andb]. rewrite <- (Hsame r0 Hin Hid), set_cantidad_same.
    unfold counted. now rewrite Repuesto_eqb_refl, orb_false_r. }
  rewrite (filter_ext_in _ _ _ Hcount).
  destruct found_rows.
  - match goal with
    | |- context [Z.of_nat ?k =? 0] =>
        destruct (Z.eqb_spec (Z.of_nat k) 0) as [Hz|_]
    end; [|reflexivity].
    exfalso. unfold find_repuesto_by_ID in Hfind.
    destruct (find_some _ _ Hfind) as [Hin Hit]. cbn [key_is] in Hit.
    assert (Hpos := filter_hit_nonempty (fun r0 => (r0.(ID) =? id) && true)
                      _ r Hin).
    cbv beta in Hpos. rewrite Hit in Hpos. specialize (Hpos eq_refl). lia.
  - replace (filter _ db.(repuestos)) with (@nil Repuesto); [reflexivity|].
    symmetry. clear. induction db.(repuestos) as [|r0 rows IH]; [reflexivity|].
    cbn [filter]. now rewrite andb_false_r.
Qed.

Lemma write_colocados (id : Z) (text : string) (db : database) :
  update_maquinas_by_item ["repuestos_colocados"] [PStr text; PInt id]
    (mkConnection db db) =
  (Ok (Z.of_nat (List.length
         (filter (fun m => (m.(item) =? id) &&
                           counted Maquina_eqb m (set_repuestos_colocados text m))
                 db.(maquinas)))),
   mkConnection db
     (mkDatabase db.(repuestos)
        (map (fun m => if m.(item) =? id
                       then set_repuestos_colocados text m else m)
             db.(maquinas)))).
Proof.
  unfold update_maquinas_by_item, on_maquinas, bind_update. cbn.
  rewrite (update_where_map _ _ _ _ (set_repuestos_colocados text));
    [reflexivity|].
  intros [] _. reflexivity.
Qed.

(** X15. The quantity [update_stock] applies is the one [update_ficha] wrote
    last: after the placed parts of a job are replaced by a mapping that
    records [q] for a part, a "decrease" for that job and part takes [q]
    units off the stock. The codec is assumed to read back what it wrote. *)
Theorem update_ficha_then_update_stock (id : Z) (code : string) (db : database)
    (m : Maquina) (r : Repuesto) (d : list (string * pyval)) (q : Z) :
  find_ficha db id = Some m ->
  find_repuesto db code = Some r ->
  json_loads (json_dumps (PDict d)) = Some (PDict d) ->
  dict_get code d = Some (PInt q) ->
  0 <= r.(cantidad_disponible) - q ->
  let db1 := snd (Backend.update_ficha id [("repuestos_colocados", PDict d)] db) in
  find_ficha db1 id = Some (set_repuestos_colocados (json_dumps (PDict d)) m) /\
  exists body db2,
    Backend.update_stock id code "decrease" db1 = (Ok body, db2) /\
    Py.getitem body "new_stock" = Ok (PInt (r.(cantidad_disponible) - q)) /\
    find_repuesto db2 code =
      Some (set_cantidad_disponible (r.(cantidad_disponible) - q) r).
Proof.
  intros Hm Hr Hrt Hq Hpos db1.
  assert (Hdb1 : db1 = mkDatabase db.(repuestos)
                   (map (fun m0 => if m0.(item) =? id
                                   then set_repuestos_colocados
                                          (json_dumps (PDict d)) m0
                                   else m0) db.(maquinas))).
  { unfold db1, Backend.update_ficha, handler, bind, commit.
    cbn [keys values map fst snd in_list existsb String.eqb Ascii.eqb Bool.eqb
         orb app].
    rewrite write_colocados. cbn [working stored].
    now destruct (_ =? 0). }
  assert (Hm1 : find_ficha db1 id =
                Some (set_repuestos_colocados (json_dumps (PDict d)) m)).
  { rewrite Hdb1. unfold find_ficha in *. cbn [maquinas key_is] in *.
    apply (find_map_hit (fun m0 => m0.(item) =? id)
             (set_repuestos_colocados (json_dumps (PDict d))));
      [reflexivity|exact Hm]. }
  assert (Hr1 : find_repuesto db1 code = Some r) by (now rewrite Hdb1).
  split; [exact Hm1|].
  rewrite (update_stock_recorded_int db1 id code "decrease" _ r d q Hm1 Hr1 Hrt Hq).
  cbn [String.eqb Ascii.eqb Bool.eqb].
  destruct (Z.ltb_spec (r.(cantidad_disponible) - q) 0); [lia|].
  eexists _, _. split; [reflexivity|]. split; [reflexivity|].
  now apply find_with_stock.
Qed.

End UpdatesMore3.

Section OrderFacts.

Context {Row : Type}.
Variable leb : Row -> Row -> bool.

Lemma insert_ordered_perm (r : Row) (sorted : list Row) :
  Permutation (insert_ordered leb r sorted) (r :: sorted).
Proof.
  induction sorted as [|r' rest IH]; cbn [insert_ordered]; [reflexivity|].
  destruct (leb r r'); [reflexivity|].
  rewrite IH. apply perm_swap.
Qed.

Lemma order_by_perm (rows : list Row) : Permutation (order_by leb rows) rows.
Proof.
  unfold order_by. induction rows as [|r rows IH]; cbn [fold_right]; [reflexivity|].
  rewrite insert_ordered_perm. now constructor.
Qed.

Hypothesis leb_total : forall a b, leb a b = true \/ leb b a = true.

Lemma insert_ordered_sorted (r : Row) (sorted : list Row) :
  Sorted (fun a b => leb a b = true) sorted ->
  Sorted (fun a b => leb a b = true) (insert_ordered leb r sorted).
Proof.
  induction 1 as [|r' rest Hs IH Hhd]; cbn [insert_ordered].
  - repeat constructor.
  - destruct (leb r r') eqn:Hle.
    + constructor; [now constructor|]. now constructor.
    + constructor; [exact IH|].
      assert (Hge : leb r' r = true) by (destruct (leb_total r r'); congruence).
      destruct Hhd as [|r'' rest' Hle']; cbn [insert_ordered].
      * now constructor.
      * destruct (leb r r''); now constructor.
Qed.

Lemma order_by_sorted (rows : list Row) :
  Sorted (fun a b => leb a b = true) (order_by leb rows).
Proof.
  unfold order_by. induction rows as [|r rows IH]; cbn [fold_right].
  - constructor.
  - now apply insert_ordered_sorted.
Qed.

End OrderFacts.

Lemma order_by_numero_ficha_order_by (rows : list Maquina) :
  order_by_numero_ficha rows =
  order_by (fun a b => a.(numero_ficha) <=? b.(numero_ficha)) rows.
Proof.
  unfold order_by_numero_ficha, order_by.
  induction rows as [|m rows IH]; cbn [fold_right]; [reflexivity|].
  rewrite IH. generalize (fold_right (insert_ordered
    (fun a b => a.(numero_ficha) <=? b.(numero_ficha))) [] rows).
  intros l. induction l as [|m' l IHl]; cbn; [reflexivity|].
  now rewrite IHl.
Qed.

Section ListingMore.

Context `{Engine}.

Lemma decode_fichas_all (rows : list Maquina) (c : connection) :
  Forall decodes rows ->
  exists fichas,
    Backend.decode_fichas rows c = (Ok fichas, c) /\
    map ficha_row fichas = rows.
Proof.
  induction 1 as [|m rows [Hc Hf] _ [fichas [Hrun Hrows]]];
    cbn [Backend.decode_fichas].
  - exists []. split; reflexivity.
  - unfold bind, loads, ret, raise.
    destruct (json_loads m.(repuestos_colocados)) as [colocados|]; [|congruence].
    destruct (json_loads m.(repuestos_faltantes)) as [faltantes|]; [|congruence].
    rewrite Hrun. eexists. split; [reflexivity|]. cbn [map ficha_row].
    now rewrite Hrows.
Qed.

Lemma decode_fichas_one_bad (rows : list Maquina) (m : Maquina) (c : connection) :
  In m rows ->
  json_loads m.(repuestos_colocados) = None \/
  json_loads m.(repuestos_faltantes) = None ->
  Backend.decode_fichas rows c = (Raise JSONDecodeError, c).
Proof.
  intros Hin Hbad.
  induction rows as [|m' rows IH]; [contradiction|].
  cbn [Backend.decode_fichas]. unfold bind, loads, ret, raise.
  destruct (json_loads m'.(repuestos_colocados)) as [colocados|] eqn:Hc;
    [|reflexivity].
  destruct (json_loads m'.(repuestos_faltantes)) as [faltantes|] eqn:Hf;
    [|reflexivity].
  destruct Hin as [->|Hin]; [destruct Hbad; congruence|].
  now rewrite (IH Hin).
Qed.

Lemma get_fichas_run (db : database) :
  (forall m, In m db.(maquinas) -> decodes m) ->
  exists fichas,
    Backend.get_fichas db = (Ok fichas, db) /\
    map ficha_row fichas = order_by_numero_ficha db.(maquinas).
Proof.
  intros Hall.
  unfold Backend.get_fichas, handler, bind, select_maquinas. cbn [working stored].
  destruct (decode_fichas_all (order_by_numero_ficha db.(maquinas))
              (mkConnection db db)) as [fichas [Hrun Hrows]].
  { apply Forall_forall. intros m Hin. apply Hall.
    now apply In_order_by_numero_ficha. }
  rewrite Hrun. exists fichas. split; [reflexivity|exact Hrows].
Qed.

(** X16. [get_fichas] lists every repair job once, by ascending
    [numero_ficha], and reads only: when the two mappings of every stored job
    decode, the rows behind the answer are a permutation of the table, each
    job is followed by one with the same number or a higher one, and the
    store is as it was. *)
Theorem get_fichas_lists_every_job (db : database) :
  (forall m, In m db.(maquinas) -> decodes m) ->
  exists fichas,
    Backend.get_fichas db = (Ok fichas, db) /\
    Permutation (map ficha_row fichas) db.(maquinas) /\
    Sorted (fun a b => a.(numero_ficha) <= b.(numero_ficha))
           (map ficha_row fichas).
Proof.
  intros Hall. destruct (get_fichas_run db Hall) as [fichas [Hrun Hrows]].
  exists fichas. split; [exact Hrun|]. rewrite Hrows.
  rewrite order_by_numero_ficha_order_by. split.
  - apply order_by_perm.
  - assert (Hs := order_by_sorted
                    (fun a b : Maquina => a.(numero_ficha) <=? b.(numero_ficha))
                    (fun a b => ltac:(cbv beta; rewrite !Z.leb_le; lia))
                    db.(maquinas)).
    revert Hs. generalize (order_by (fun a b : Maquina =>
      a.(numero_ficha) <=? b.(numero_ficha)) db.(maquinas)).
    intros l. induction 1 as [|a l _ IH Hhd]; constructor; [exact IH|].
    destruct Hhd as [|b l' Hab]; constructor. now apply Z.leb_le.
Qed.

(** X17. One stored job whose placed or missing parts are no JSON text takes
    the whole listing with it: [get_fichas] answers no job at all, and the
    [JSONDecodeError] leaves the handler as it is, since [except Error]
    catches the errors of the connector only. *)
Theorem get_fichas_fails_on_one_bad_row (db : database) (m : Maquina) :
  In m db.(maquinas) ->
  json_loads m.(repuestos_colocados) = None \/
  json_loads m.(repuestos_faltantes) = None ->
  Backend.get_fichas db = (Raise JSONDecodeError, db).
Proof.
  intros Hin Hbad.
  unfold Backend.get_fichas, handler, bind, select_maquinas. cbn [working stored].
  rewrite (decode_fichas_one_bad _ m); [reflexivity| |exact Hbad].
  now apply In_order_by_numero_ficha.
Qed.

End ListingMore.

Section Parts.

Context `{Engine} `{Schema}.

(** X18. [get_repuestos] answers every part once and reads only: the answer
    is a permutation of the table; it is in ascending order of [codigo] for
    any collation that can compare every two codes. *)
Theorem get_repuestos_lists_every_part (db : database) :
  exists rows,
    Backend_main.get_repuestos db = (Ok rows, db) /\
    Permutation rows db.(repuestos) /\
    ((forall a b, collate_leb a b = true \/ collate_leb b a = true) ->
     Sorted (fun a b => collate_leb a.(codigo) b.(codigo) = true) rows).
Proof.
  eexists. split; [reflexivity|]. split.
  - apply order_by_perm.
  - intros Htotal.
    apply (order_by_sorted (fun a b : Repuesto => collate_leb a.(codigo) b.(codigo))).
    intros a b. apply Htotal.
Qed.

Lemma create_repuesto_run (k : Z) (p : Models.Repuesto) (db : database) :
  Backend_main.create_repuesto k p db =
  if admits_repuesto db.(repuestos) (repuesto_row k p) then
    (Ok (PDict [("message", PStr "Repuesto creado exitosamente"); ("id", PInt k)]),
     mkDatabase (db.(repuestos) ++ [repuesto_row k p]) db.(maquinas))
  else (Raise (HTTPException 500 "Database error: Row refused by the table"), db).
Proof.
  unfold Backend_main.create_repuesto, handler, bind, insert_repuesto, commit.
  cbn [working stored]. fold (repuesto_row k p).
  now destruct (admits_repuesto _ _).
Qed.

(** X19. Create, then list: after [create_repuesto] succeeded, the listing is
    the listing of before with the new part in it, under the key the answer
    carries; the jobs are as they were. A create that fails leaves the store
    as it was. *)
Theorem create_repuesto_then_list (k : Z) (p : Models.Repuesto)
    (db db' : database) (body : pyval) :
  Backend_main.create_repuesto k p db = (Ok body, db') ->
  Py.getitem body "id" = Ok (PInt k) /\
  db'.(maquinas) = db.(maquinas) /\
  exists rows rows',
    Backend_main.get_repuestos db = (Ok rows, db) /\
    Backend_main.get_repuestos db' = (Ok rows', db') /\
    Permutation rows' (repuesto_row k p :: rows).
Proof.
  rewrite create_repuesto_run.
  destruct (admits_repuesto _ _); [|discriminate].
  intros [= <- <-]. split; [reflexivity|]. split; [reflexivity|].
  eexists _, _. split; [reflexivity|]. split; [reflexivity|].
  cbn [working repuestos].
  rewrite !order_by_perm. rewrite Permutation_app_comm. reflexivity.
Qed.

(** X20. Create, then delete: when no part had the key before, deleting the
    part just created gives back the store of before the create. *)
Theorem create_then_delete_repuesto (k : Z) (p : Models.Repuesto)
    (db db' : database) (body : pyval) :
  find_repuesto_by_ID db k = None ->
  Backend_main.create_repuesto k p db = (Ok body, db') ->
  Backend.delete_repuesto k db' = (Ok "Repuesto eliminado exitosamente", db).
Proof.
  intros Hfresh. rewrite create_repuesto_run.
  destruct (admits_repuesto _ _); [|discriminate].
  intros [= _ <-].
  assert (Hnone : forall r, In r db.(repuestos) -> (r.(ID) =? k) = false).
  { intros r Hin. unfold find_repuesto_by_ID in Hfresh.
    exact (find_none _ _ Hfresh r Hin). }
  unfold Backend.delete_repuesto, handler, bind, delete_repuestos_by_id,
    on_repuestos, delete_where, commit.
  cbn [working stored repuestos maquinas key_is fst snd].
  rewrite !filter_app. cbn [filter ID repuesto_row].
  rewrite Z.eqb_refl. cbn [negb].
  replace (filter (fun r => r.(ID) =? k) db.(repuestos)) with (@nil Repuesto).
  2:{ symmetry. clear Hfresh.
      induction db.(repuestos) as [|r rows IH]; [reflexivity|]. cbn [filter].
      rewrite (Hnone r (or_introl eq_refl)). apply IH.
      intros r' Hr'. apply Hnone. now right. }
  replace (filter (fun r => negb (r.(ID) =? k)) db.(repuestos)) with db.(repuestos).
  2:{ symmetry. clear Hfresh.
      induction db.(repuestos) as [|r rows IH]; [reflexivity|]. cbn [filter].
      rewrite (Hnone r (or_introl eq_refl)). cbn [negb]. f_equal. apply IH.
      intros r' Hr'. apply Hnone. now right. }
  cbn. rewrite app_nil_r. now destruct db.
Qed.

End Parts.

Section Jobs.

Context `{Engine} `{Schema}.

Lemma create_ficha_run (k : Z) (f : Models.Ficha) (db : database) :
  let row := ficha_row_of k f
               (json_dumps (int_dict f.(Models.repuestos_colocados)))
               (json_dumps (int_dict f.(Models.repuestos_faltantes))) in
  Backend_main.create_ficha k f db =
  if admits_maquina db.(maquinas) row then
    (Ok (PDict [("message", PStr "Ficha creada exitosamente"); ("id", PInt k)]),
     mkDatabase db.(repuestos) (db.(maquinas) ++ [row]))
  else (Raise (HTTPException 500 "Database error: Row refused by the table"), db).
Proof.
  intros row.
  unfold Backend_main.create_ficha, handler, bind, insert_maquina, commit.
  cbn [working stored].
  fold (ficha_row_of k f (json_dumps (int_dict f.(Models.repuestos_colocados)))
          (json_dumps (int_dict f.(Models.repuestos_faltantes)))).
  fold row. now destruct (admits_maquina _ _).
Qed.

Lemma find_app_fresh {A} (p : A -> bool) (l : list A) (x : A) :
  find p l = None -> p x = true -> find p (l ++ [x]) = Some x.
Proof.
  induction l as [|a l IH]; cbn [find app]; intros Hnone Hx.
  - now rewrite Hx.
  - destruct (p a); [discriminate|]. now apply IH.
Qed.

(** X21. Create, then list: the job [create_ficha] stored comes back from
    [get_fichas] under the key the answer carries, with the two mappings of
    the request, when the codec reads back the text it wrote for them and
    the jobs stored before decode. *)
Theorem create_ficha_then_list (k : Z) (f : Models.Ficha) (db db' : database)
    (body : pyval) :
  Backend_main.create_ficha k f db = (Ok body, db') ->
  json_loads (json_dumps (int_dict f.(Models.repuestos_colocados))) =
    Some (int_dict f.(Models.repuestos_colocados)) ->
  json_loads (json_dumps (int_dict f.(Models.repuestos_faltantes))) =
    Some (int_dict f.(Models.repuestos_faltantes)) ->
  (forall m, In m db.(maquinas) -> decodes m) ->
  Py.getitem body "id" = Ok (PInt k) /\
  exists fichas listed,
    Backend.get_fichas db' = (Ok fichas, db') /\
    In listed fichas /\
    listed.(ficha_row).(item) = k /\
    listed.(ficha_row).(numero_ficha) = f.(Models.numero_ficha) /\
    listed.(ficha_colocados) = int_dict f.(Models.repuestos_colocados) /\
    listed.(ficha_faltantes) = int_dict f.(Models.repuestos_faltantes).
Proof.
  rewrite create_ficha_run. cbv zeta.
  destruct (admits_maquina _ _); [|discriminate].
  intros [= <- <-] Hcodec Hcodec' Hold. split; [reflexivity|].
  set (row := ficha_row_of k f _ _).
  set (db' := mkDatabase _ _).
  destruct (get_fichas_run db') as [fichas [Hrun Hrows]].
  { unfold db'. cbn [maquinas]. intros m Hin. apply in_app_iff in Hin.
    destruct Hin as [Hin|[<-|[]]]; [now apply Hold|].
    unfold decodes, row. cbn [repuestos_colocados repuestos_faltantes ficha_row_of].
    rewrite Hcodec, Hcodec'. split; discriminate. }
  assert (Hin : In row (map ficha_row fichas)).
  { rewrite Hrows. apply In_order_by_numero_ficha. unfold db'. cbn [maquinas].
    apply in_app_iff. right. now left. }
  apply in_map_iff in Hin. destruct Hin as [listed [Hrow Hlisted]].
  destruct (get_fichas_verbatim _ _ _ Hrun) as [_ Hall].
  rewrite Forall_forall in Hall. destruct (Hall listed Hlisted) as [Hc Hf].
  rewrite Hrow in Hc, Hf. unfold row in Hc, Hf.
  cbn [repuestos_colocados repuestos_faltantes ficha_row_of] in Hc, Hf.
  rewrite Hcodec in Hc. rewrite Hcodec' in Hf.
  exists fichas, listed. split; [exact Hrun|]. split; [exact Hlisted|].
  rewrite Hrow. repeat split; congruence.
Qed.

(** X22. Create, then reconcile: for a job created under a key no job had,
    [update_stock] applies the quantity the request recorded for the part.
    A "decrease" the stock can bear stores the difference. *)
Theorem create_ficha_then_update_stock (k : Z) (f : Models.Ficha)
    (db db' : database) (body : pyval) (code : string) (q : Z) (r : Repuesto) :
  Backend_main.create_ficha k f db = (Ok body, db') ->
  find_ficha db k = None ->
  json_loads (json_dumps (int_dict f.(Models.repuestos_colocados))) =
    Some (int_dict f.(Models.repuestos_colocados)) ->
  Py.getitem (int_dict f.(Models.repuestos_colocados)) code = Ok (PInt q) ->
  find_repuesto db code = Some r ->
  0 <= r.(cantidad_disponible) - q ->
  exists body' db'',
    Backend.update_stock k code "decrease" db' = (Ok body', db'') /\
    Py.getitem body' "new_stock" = Ok (PInt (r.(cantidad_disponible) - q)) /\
    find_repuesto db'' code =
      Some (set_cantidad_disponible (r.(cantidad_disponible) - q) r).
Proof.
  rewrite create_ficha_run. cbv zeta.
  destruct (admits_maquina _ _); [|discriminate].
  intros [= _ <-] Hfresh Hcodec Hq Hr Hpos.
  set (row := ficha_row_of k f _ _).
  set (db' := mkDatabase _ _).
  assert (Hm : find_ficha db' k = Some row).
  { unfold find_ficha, db'. cbn [maquinas]. apply find_app_fresh; [exact Hfresh|].
    cbn [key_is item row ficha_row_of]. apply Z.eqb_refl. }
  assert (Hr' : find_repuesto db' code = Some r) by exact Hr.
  unfold int_dict in Hq, Hcodec. cbn [Py.getitem] in Hq.
  destruct (dict_get code _) as [v|] eqn:Hget; [|discriminate].
  injection Hq as ->.
  rewrite (update_stock_recorded_int db' k code "decrease" row r _ q Hm Hr'
             Hcodec Hget).
  cbn [String.eqb Ascii.eqb Bool.eqb].
  destruct (Z.ltb_spec (r.(cantidad_disponible) - q) 0); [lia|].
  eexists _, _. split; [reflexivity|]. split; [reflexivity|].
  now apply find_with_stock.
Qed.

End Jobs.

Section LikeFacts.

Variable same : string -> string -> bool.

Lemma like_match_any_sequence (tokens : list like_token) (text : list string) :
  like_match same (AnySequence :: tokens) text =
  like_match same tokens text ||
  match text with
  | _ :: text' => like_match same (AnySequence :: tokens) text'
  | [] => false
  end.
Proof. destruct text; reflexivity. Qed.

Lemma like_match_rest (text : list string) :
  like_match same [AnySequence] text = true.
Proof.
  induction text as [|t text IH]; [reflexivity|].
  rewrite like_match_any_sequence, IH. apply orb_true_r.
Qed.

Lemma like_match_starts_with (term text : list string) :
  like_match same (map Literal term ++ [AnySequence]) text =
  starts_with same term text.
Proof.
  revert text. induction term as [|ch term IH]; intros text.
  - cbn [map app]. rewrite like_match_rest. now destruct text.
  - destruct text as [|t text]; [reflexivity|].
    cbn [map app like_match starts_with]. now rewrite IH.
Qed.

Lemma like_match_contains (term text : list string) :
  like_match same (AnySequence :: map Literal term ++ [AnySequence]) text =
  contains same term text.
Proof.
  induction text as [|t text IH]; rewrite like_match_any_sequence;
    cbn [contains]; rewrite like_match_starts_with; [reflexivity|].
  now rewrite IH.
Qed.

Lemma like_match_all_sequences (n : nat) (text : list string) :
  like_match same (repeat AnySequence (S n)) text = true.
Proof.
  revert text. induction n as [|n IH]; intros text.
  - apply like_match_rest.
  - change (repeat AnySequence (S (S n)))
      with (AnySequence :: repeat AnySequence (S n)).
    now rewrite like_match_any_sequence, IH.
Qed.

End LikeFacts.

Lemma characters_head (c : ascii) (s : string) :
  exists g chs, characters (String c s) = String c g :: chs.
Proof.
  cbn [characters]. destruct (characters s) as [|[|c' g] chs]; eauto.
  destruct (is_continuation c'); eauto.
Qed.

Lemma characters_cons (c : ascii) (s : string) :
  characters (String c s) =
  if first_is_continuation s then
    match characters s with
    | g :: chs => String c g :: chs
    | [] => [String c ""]
    end
  else String c "" :: characters s.
Proof.
  destruct s as [|c' s]; [reflexivity|].
  destruct (characters_head c' s) as [g [chs Hhead]].
  cbn [first_is_continuation]. change (characters (String c (String c' s)))
    with (match characters (String c' s) with
          | String c'' g :: chs =>
              if is_continuation c'' then String c (String c'' g) :: chs
              else String c "" :: String c'' g :: chs
          | chs => String c "" :: chs
          end).
  rewrite Hhead. reflexivity.
Qed.

Lemma like_tokens_literal (g : string) (chs : list string) :
  String.eqb g "%" = false -> String.eqb g "_" = false ->
  String.eqb g "\" = false ->
  like_tokens (g :: chs) = Literal g :: like_tokens chs.
Proof. intros H1 H2 H3. cbn [like_tokens]. now rewrite H1, H2, H3. Qed.

Lemma eqb_two_bytes (c c' x : ascii) (g : string) :
  String.eqb (String c (String c' g)) (String x "") = false.
Proof. cbn. now destruct (Ascii.eqb c x). Qed.

Lemma eqb_continuation (c x : ascii) (g : string) :
  is_continuation c = true -> is_continuation x = false ->
  String.eqb (String c g) (String x "") = false.
Proof.
  intros Hc Hx. cbn. destruct (Ascii.eqb_spec c x) as [->|_]; [congruence|reflexivity].
Qed.

Section Escaping.

Variable esc : ascii -> bool.
Hypothesis esc_not_continuation :
  forall c, esc c = true -> is_continuation c = false.

Lemma first_of_escaped (s tail : string) :
  first_is_continuation tail = false ->
  first_is_continuation (escape_by esc s ++ tail) = first_is_continuation s.
Proof.
  intros Htail. destruct s as [|c s]; [exact Htail|].
  cbn [escape_by]. destruct (esc c) eqn:Hc; [|reflexivity].
  cbn. symmetry. now apply esc_not_continuation.
Qed.

Lemma like_tokens_escaped (s : string) :
  all_bytes (literal_byte esc) s = true ->
  like_tokens (characters (escape_by esc s ++ "%")) =
  (map Literal (characters s) ++ [AnySequence])%list.
Proof.
  induction s as [|c rest IH]; [reflexivity|].
  cbn [all_bytes]. intros Hwf. apply andb_true_iff in Hwf.
  destruct Hwf as [Hc Hrest]. specialize (IH Hrest).
  unfold literal_byte in Hc. apply andb_true_iff in Hc. destruct Hc as [Hc Hbs].
  apply negb_true_iff in Hc. unfold is_wildcard in Hc.
  apply orb_false_iff in Hc. destruct Hc as [Hpct Hund].
  assert (Hfirst := first_of_escaped rest "%" eq_refl).
  (* the group [c] opens, in the escaped text and in the term *)
  assert (Hgroup :
    forall front,
      (forall g chs, like_tokens (front ++ String c g :: chs) =
                     Literal (String c g) :: like_tokens chs) ->
      like_tokens (front ++ characters (String c (escape_by esc rest ++ "%"))) =
      (map Literal (characters (String c rest)) ++ [AnySequence])%list).
  { intros front Hfront. rewrite !characters_cons, Hfirst.
    destruct (first_is_continuation rest) eqn:Hb.
    - destruct rest as [|c' rest']; [discriminate|].
      cbn [first_is_continuation] in Hb.
      assert (Hesc : esc c' = false).
      { destruct (esc c') eqn:He; [|reflexivity].
        rewrite (esc_not_continuation _ He) in Hb. discriminate. }
      cbn [escape_by] in IH |- *. rewrite Hesc in IH |- *.
      change (String c' (escape_by esc rest') ++ "%")
        with (String c' (escape_by esc rest' ++ "%")) in IH |- *.
      destruct (characters_head c' (escape_by esc rest' ++ "%")) as [g [chs Hg]].
      destruct (characters_head c' rest') as [g' [chs' Hg']].
      rewrite Hg in IH |- *. rewrite Hg' in IH |- *.
      rewrite like_tokens_literal in IH by (now apply eqb_continuation).
      cbn [map app] in IH. injection IH as -> Htail.
      rewrite Hfront. cbn [map app]. now rewrite Htail.
    - rewrite Hfront. cbn [map app]. now rewrite IH. }
  cbn [escape_by]. destruct (esc c) eqn:Hesc.
  - change (String "\" (String c (escape_by esc rest)) ++ "%")
      with (String "\" (String c (escape_by esc rest ++ "%"))).
    rewrite (characters_cons "\").
    cbn [first_is_continuation]. rewrite (esc_not_continuation _ Hesc).
    apply (Hgroup ["\"]). intros g chs. reflexivity.
  - change (String c (escape_by esc rest) ++ "%")
      with (String c (escape_by esc rest ++ "%")).
    apply (Hgroup []). intros g chs. cbn [app].
    rewrite ?Hesc, orb_false_r in Hbs. apply negb_true_iff in Hbs.
    apply like_tokens_literal; destruct g as [|c' g];
      try apply eqb_two_bytes; cbn; now rewrite ?Hpct, ?Hund, ?Hbs.
Qed.

Lemma like_escaped (same : string -> string -> bool) (term text : string) :
  all_bytes (literal_byte esc) term = true ->
  first_is_continuation term = false ->
  like_match same (like_tokens (characters ("%" ++ escape_by esc term ++ "%")))
             (characters text) =
  contains same (characters term) (characters text).
Proof.
  intros Hwf Hfirst.
  change ("%" ++ escape_by esc term ++ "%")
    with (String "%" (escape_by esc term ++ "%")).
  rewrite characters_cons, (first_of_escaped term "%" eq_refl), Hfirst.
  change (like_tokens ("%"%string :: ?l)) with (AnySequence :: like_tokens l).
  rewrite like_tokens_escaped by exact Hwf.
  apply like_match_contains.
Qed.

End Escaping.

Lemma all_bytes_impl (p q : ascii -> bool) (s : string) :
  (forall c, p c = true -> q c = true) ->
  all_bytes p s = true -> all_bytes q s = true.
Proof.
  intros Hpq. induction s as [|c s IH]; [reflexivity|]. cbn [all_bytes].
  intros Hs. apply andb_true_iff in Hs. destruct Hs as [Hc Hs].
  now rewrite (Hpq c Hc), IH.
Qed.

Lemma all_bytes_and (p q : ascii -> bool) (s : string) :
  all_bytes p s = true -> all_bytes q s = true ->
  all_bytes (fun c => p c && q c) s = true.
Proof.
  induction s as [|c s IH]; [reflexivity|]. cbn [all_bytes].
  intros Hp Hq. apply andb_true_iff in Hp, Hq.
  destruct Hp as [-> Hp], Hq as [-> Hq]. now rewrite IH.
Qed.

Lemma special_not_continuation (c : ascii) :
  is_special c = true -> is_continuation c = false.
Proof.
  destruct c as [[] [] [] [] [] [] [] []]; vm_compute; congruence.
Qed.

Lemma re_escape_escape_by (term : string) :
  re_escape term = escape_by is_special term.
Proof.
  induction term as [|c rest IH]; [reflexivity|]. cbn [re_escape escape_by].
  now rewrite IH.
Qed.

Lemma escape_by_nothing (term : string) :
  escape_by (fun _ => false) term = term.
Proof.
  induction term as [|c rest IH]; [reflexivity|]. cbn [escape_by].
  now rewrite IH.
Qed.

Section Searches.

Context `{Engine} `{Schema}.

Lemma any_like_repeat (texts : list string) (pattern : string) :
  any_like texts (repeat pattern (List.length texts)) =
  existsb (fun text => like text pattern) texts.
Proof.
  unfold any_like. induction texts as [|t texts IH]; [reflexivity|].
  cbn [List.length repeat combine existsb fst snd]. now rewrite IH.
Qed.

Lemma like_re_escape (term text : string) :
  wildcard_free term = true ->
  first_is_continuation term = false ->
  like text ("%" ++ re_escape term ++ "%") =
  contains collate_char_eqb (characters term) (characters text).
Proof.
  intros Hwf Hfirst. unfold like. rewrite re_escape_escape_by.
  apply like_escaped; [apply special_not_continuation| |exact Hfirst].
  revert Hwf. apply all_bytes_impl. intros c Hc. unfold literal_byte.
  rewrite Hc. cbn [andb]. destruct (Ascii.eqb_spec c "\") as [->|_]; reflexivity.
Qed.

Lemma like_as_it_is (term text : string) :
  wildcard_free term = true ->
  backslash_free term = true ->
  first_is_continuation term = false ->
  like text ("%" ++ term ++ "%") =
  contains collate_char_eqb (characters term) (characters text).
Proof.
  intros Hwf Hbs Hfirst. unfold like.
  rewrite <- (escape_by_nothing term) at 1.
  apply like_escaped; [discriminate| |exact Hfirst].
  generalize (all_bytes_and _ _ _ Hwf Hbs). apply all_bytes_impl.
  intros c Hc. unfold literal_byte. apply andb_true_iff in Hc.
  destruct Hc as [-> ->]. reflexivity.
Qed.

Lemma existsb_same {A} (f g : A -> bool) (l : list A) :
  (forall x, f x = g x) -> existsb f l = existsb g l.
Proof.
  intros Hfg. induction l as [|x l IH]; [reflexivity|]. cbn [existsb].
  now rewrite Hfg, IH.
Qed.

Lemma holds_like (term : string) :
  wildcard_free term = true ->
  first_is_continuation term = false ->
  forall {Row} (texts : Row -> list string) (r : Row),
    existsb (fun text => like text ("%" ++ re_escape term ++ "%")) (texts r) =
    holds term (texts r).
Proof.
  intros Hwf Hfirst Row texts r. apply existsb_same. intros text.
  now apply like_re_escape.
Qed.

Lemma holds_like_as_it_is (term : string) :
  wildcard_free term = true ->
  backslash_free term = true ->
  first_is_continuation term = false ->
  forall {Row} (texts : Row -> list string) (r : Row),
    existsb (fun text => like text ("%" ++ term ++ "%")) (texts r) =
    holds term (texts r).
Proof.
  intros Hwf Hbs Hfirst Row texts r. apply existsb_same. intros text.
  now apply like_as_it_is.
Qed.

Lemma search_repuestos_run (pattern : string) (db : database) :
  handler (repuestos <- select_repuestos_like (repeat pattern 7) ;; ret repuestos) db =
  (Ok (filter (fun r => existsb (fun text => like text pattern) (repuesto_texts r))
              db.(repuestos)), db).
Proof.
  unfold handler, bind, select_repuestos_like, placeholders_check, ret.
  cbn [working stored repeat List.length Nat.ltb Nat.leb].
  rewrite (filter_ext _ _ (fun r => any_like_repeat (repuesto_texts r) pattern)).
  reflexivity.
Qed.

Lemma search_fichas_run (pattern : string) (db : database) :
  handler (fichas <- select_maquinas_like (repeat pattern 12) ;;
           Backend.decode_fichas fichas) db =
  handler (Backend.decode_fichas
             (filter (fun m => existsb (fun text => like text pattern)
                                       (maquina_texts m))
                     db.(maquinas))) db.
Proof.
  unfold handler, bind, select_maquinas_like, placeholders_check, ret.
  cbn [working stored repeat List.length Nat.ltb Nat.leb].
  rewrite (filter_ext _ _ (fun m => any_like_repeat (maquina_texts m) pattern)).
  reflexivity.
Qed.

(** X23. What the searches of [Backend/main.py] find. For a term without [%]
    and [_] the parts answered are the parts of which some searched column,
    as text, holds the characters of the term next to each other, in the
    order of the table; the characters [re.escape] puts a backslash before
    (a dot, a dash, a space, the backslash itself) are looked for as they
    are. The jobs answered are chosen the same way and decoded as
    [get_fichas] does. *)
Theorem search_finds_the_term (term : string) (db : database) :
  wildcard_free term = true ->
  first_is_continuation term = false ->
  Backend_main.search_repuestos term db =
    (Ok (filter (fun r => holds term (repuesto_texts r)) db.(repuestos)), db) /\
  Backend_main.search_fichas term db =
    handler (Backend.decode_fichas
               (filter (fun m => holds term (maquina_texts m)) db.(maquinas))) db.
Proof.
  intros Hwf Hfirst. split.
  - unfold Backend_main.search_repuestos. cbv zeta. rewrite search_repuestos_run.
    now rewrite (filter_ext _ _ (holds_like _ Hwf Hfirst repuesto_texts)).
  - unfold Backend_main.search_fichas. cbv zeta. rewrite search_fichas_run.
    now rewrite (filter_ext _ _ (holds_like _ Hwf Hfirst maquina_texts)).
Qed.

(** X24. The searches of [FastAPI/main.py] pass the term without
    [re.escape]. For a term without [%], [_] and backslash they answer what
    the searches of [Backend/main.py] answer, although the two patterns
    differ as soon as the term has a dot, a dash or a space. *)
Theorem searches_agree (term : string) (db : database) :
  wildcard_free term = true ->
  backslash_free term = true ->
  first_is_continuation term = false ->
  FastAPI_main.search_repuestos term db = Backend_main.search_repuestos term db /\
  FastAPI_main.search_fichas term db = Backend_main.search_fichas term db.
Proof.
  intros Hwf Hbs Hfirst.
  unfold FastAPI_main.search_repuestos, Backend_main.search_repuestos,
    FastAPI_main.search_fichas, Backend_main.search_fichas. cbv zeta.
  rewrite !search_repuestos_run, !search_fichas_run.
  rewrite (filter_ext _ _ (holds_like _ Hwf Hfirst repuesto_texts)).
  rewrite (filter_ext _ _ (holds_like _ Hwf Hfirst maquina_texts)).
  rewrite (filter_ext _ _ (holds_like_as_it_is _ Hwf Hbs Hfirst repuesto_texts)).
  rewrite (filter_ext _ _ (holds_like_as_it_is _ Hwf Hbs Hfirst maquina_texts)).
  split; reflexivity.
Qed.

End Searches.

Lemma characters_percents (s : string) :
  all_bytes (fun c => Ascii.eqb c "%") s = true ->
  like_tokens (characters (s ++ "%")) = repeat AnySequence (S (String.length s)) /\
  first_is_continuation (s ++ "%") = false /\
  re_escape s = s.
Proof.
  induction s as [|c rest IH]; [repeat split|].
  cbn [all_bytes]. intros Hs. apply andb_true_iff in Hs. destruct Hs as [Hc Hrest].
  apply Ascii.eqb_eq in Hc. subst c. destruct (IH Hrest) as [Htok [Hfirst Hesc]].
  change (String "%" rest ++ "%") with (String "%" (rest ++ "%")).
  rewrite characters_cons, Hfirst. repeat split.
  - change (like_tokens ("%"%string :: ?l)) with (AnySequence :: like_tokens l).
    now rewrite Htok.
  - cbn [re_escape]. change (is_special "%") with false. cbv iota.
    now rewrite Hesc.
Qed.

Section SearchesMore.

Context `{Engine} `{Schema}.

(** X25. A search for parts never rejects a term: in both files the answer
    is a list of rows of the table, possibly empty, for every term and every
    store, and the store is as it was. *)
Theorem search_repuestos_never_rejects (term : string) (db : database) :
  (exists rows, Backend_main.search_repuestos term db = (Ok rows, db) /\
                incl rows db.(repuestos)) /\
  (exists rows, FastAPI_main.search_repuestos term db = (Ok rows, db) /\
                incl rows db.(repuestos)).
Proof.
  unfold Backend_main.search_repuestos, FastAPI_main.search_repuestos. cbv zeta.
  rewrite !search_repuestos_run.
  split; eexists; (split; [reflexivity|apply incl_filter]).
Qed.

(** X26. [re.escape] leaves [%] alone, so it is a wildcard for the search as
    well: a term made of [%] only, the empty term included, answers every
    part of the table, whether or not one of its columns holds a percent
    sign. *)
Theorem search_percent_lists_all (term : string) (db : database) :
  all_bytes (fun c => Ascii.eqb c "%") term = true ->
  Backend_main.search_repuestos term db = (Ok db.(repuestos), db).
Proof.
  intros Hterm. destruct (characters_percents term Hterm) as [Htok [Hfirst Hesc]].
  unfold Backend_main.search_repuestos. cbv zeta. rewrite search_repuestos_run, Hesc.
  assert (Hall : forall r,
            existsb (fun text => like text ("%" ++ term ++ "%")) (repuesto_texts r) =
            true).
  { intros r. unfold repuesto_texts. cbn [existsb]. unfold like at 1.
    change ("%" ++ term ++ "%") with (String "%" (term ++ "%")).
    rewrite characters_cons, Hfirst.
    change (like_tokens ("%"%string :: ?l)) with (AnySequence :: like_tokens l).
    rewrite Htok.
    change (AnySequence :: repeat AnySequence (S (String.length term)))
      with (repeat AnySequence (S (S (String.length term)))).
    now rewrite like_match_all_sequences. }
  rewrite (filter_ext _ (fun _ => true) Hall), filter_all; [reflexivity|].
  now apply forallb_forall.
Qed.

End SearchesMore.

(** * The sample shop

    The statements above, applied to the sample rows on the sample engine. *)

#[local] Existing Instance Sample.engine.

Lemma backend_is_a_handler : In Backend.update_stock update_stock_handlers.
Proof. left. reflexivity. Defined.

(** C1 on the sample shop: ten units, five placed, a decrease leaves five. *)
Lemma update_stock_decrease_persists_witness :
  In Backend.update_stock update_stock_handlers /\
  find_ficha Data.shop 7 = Some (Data.job [("P1", PInt 5)]) /\
  find_repuesto Data.shop "P1" = Some Data.P1 /\
  json_loads (Data.job [("P1", PInt 5)]).(repuestos_colocados) =
    Some (PDict [("P1", PInt 5)]) /\
  dict_get "P1" [("P1", PInt 5)] = Some (PInt 5) /\
  0 <= Data.P1.(cantidad_disponible) - 5 /\
  exists body db',
    Backend.update_stock 7 "P1" "decrease" Data.shop = (Ok body, db') /\
    Py.getitem body "new_stock" = Ok (PInt 5) /\
    find_repuesto db' "P1" = Some (set_cantidad_disponible 5 Data.P1).
Proof.
  assert (Hm : find_ficha Data.shop 7 = Some (Data.job [("P1", PInt 5)]))
    by reflexivity.
  assert (Hr : find_repuesto Data.shop "P1" = Some Data.P1) by reflexivity.
  assert (Hd : json_loads (Data.job [("P1", PInt 5)]).(repuestos_colocados) =
               Some (PDict [("P1", PInt 5)])) by (vm_compute; reflexivity).
  assert (Hq : dict_get "P1" [("P1", PInt 5)] = Some (PInt 5)) by reflexivity.
  assert (Hpos : 0 <= Data.P1.(cantidad_disponible) - 5) by (vm_compute; discriminate).
  repeat (split; [assumption || exact backend_is_a_handler|]).
  exact (update_stock_decrease_persists Backend.update_stock Data.shop 7 "P1"
           _ Data.P1 _ 5 backend_is_a_handler Hm Hr Hd Hq Hpos).
Defined.

(** C2 on the sample shop with no unit left: the decrease is rejected. *)
Lemma update_stock_decrease_not_enough_witness :
  In Backend.update_stock update_stock_handlers /\
  find_ficha (Data.shop_with 0 [("P1", PInt 5)]) 7 =
    Some (Data.job [("P1", PInt 5)]) /\
  find_repuesto (Data.shop_with 0 [("P1", PInt 5)]) "P1" =
    Some (set_cantidad_disponible 0 Data.P1) /\
  json_loads (Data.job [("P1", PInt 5)]).(repuestos_colocados) =
    Some (PDict [("P1", PInt 5)]) /\
  dict_get "P1" [("P1", PInt 5)] = Some (PInt 5) /\
  0 - 5 < 0 /\
  Backend.update_stock 7 "P1" "decrease" (Data.shop_with 0 [("P1", PInt 5)]) =
    (Raise (HTTPException 400 "Not enough stock"), Data.shop_with 0 [("P1", PInt 5)]).
Proof.
  assert (Hm : find_ficha (Data.shop_with 0 [("P1", PInt 5)]) 7 =
               Some (Data.job [("P1", PInt 5)])) by reflexivity.
  assert (Hr : find_repuesto (Data.shop_with 0 [("P1", PInt 5)]) "P1" =
               Some (set_cantidad_disponible 0 Data.P1)) by reflexivity.
  assert (Hd : json_loads (Data.job [("P1", PInt 5)]).(repuestos_colocados) =
               Some (PDict [("P1", PInt 5)])) by (vm_compute; reflexivity).
  assert (Hq : dict_get "P1" [("P1", PInt 5)] = Some (PInt 5)) by reflexivity.
  assert (Hneg : 0 - 5 < 0) by reflexivity.
  repeat (split; [assumption || exact backend_is_a_handler|]).
  exact (update_stock_decrease_not_enough Backend.update_stock _ 7 "P1"
           _ _ _ 5 backend_is_a_handler Hm Hr Hd Hq Hneg).
Defined.

(** C3 on the sample shop: an increase gives fifteen; a decrease followed by
    an increase gives the ten units back. *)
Lemma update_stock_increase_inverts_decrease_witness :
  In Backend.update_stock update_stock_handlers /\
  find_ficha Data.shop 7 = Some (Data.job [("P1", PInt 5)]) /\
  find_repuesto Data.shop "P1" = Some Data.P1 /\
  json_loads (Data.job [("P1", PInt 5)]).(repuestos_colocados) =
    Some (PDict [("P1", PInt 5)]) /\
  dict_get "P1" [("P1", PInt 5)] = Some (PInt 5) /\
  (exists body db',
     Backend.update_stock 7 "P1" "increase" Data.shop = (Ok body, db') /\
     Py.getitem body "new_stock" = Ok (PInt 15) /\
     find_repuesto db' "P1" = Some (set_cantidad_disponible 15 Data.P1)) /\
  Backend.update_stock 7 "P1" "decrease" Data.shop =
    (Ok (stock_updated (PInt 5)), Data.shop_with 5 [("P1", PInt 5)]) /\
  (exists body2 db2,
     Backend.update_stock 7 "P1" "increase" (Data.shop_with 5 [("P1", PInt 5)]) =
       (Ok body2, db2) /\
     Py.getitem body2 "new_stock" = Ok (PInt 10) /\
     find_repuesto db2 "P1" = Some Data.P1 /\
     db2.(maquinas) = Data.shop.(maquinas)).
Proof.
  assert (Hm : find_ficha Data.shop 7 = Some (Data.job [("P1", PInt 5)]))
    by reflexivity.
  assert (Hr : find_repuesto Data.shop "P1" = Some Data.P1) by reflexivity.
  assert (Hd : json_loads (Data.job [("P1", PInt 5)]).(repuestos_colocados) =
               Some (PDict [("P1", PInt 5)])) by (vm_compute; reflexivity).
  assert (Hq : dict_get "P1" [("P1", PInt 5)] = Some (PInt 5)) by reflexivity.
  assert (Hdec : Backend.update_stock 7 "P1" "decrease" Data.shop =
                 (Ok (stock_updated (PInt 5)), Data.shop_with 5 [("P1", PInt 5)]))
    by (vm_compute; reflexivity).
  repeat (split; [assumption || exact backend_is_a_handler|]).
  destruct (update_stock_increase_inverts_decrease Backend.update_stock Data.shop
              7 "P1" _ Data.P1 _ 5 backend_is_a_handler Hm Hr Hd Hq)
    as [Hinc Hinv].
  split; [exact Hinc|]. split; [exact Hdec|]. exact (Hinv _ _ Hdec).
Defined.

(** C4 on the sample shop: no repair job 8, and P2 is not placed on job 7. *)
Lemma update_stock_missing_rows_or_code_witness :
  In Backend.update_stock update_stock_handlers /\
  find_ficha Data.shop 8 = None /\
  Backend.update_stock 8 "P1" "decrease" Data.shop =
    (Raise (HTTPException 404 "Ficha or Repuesto not found"), Data.shop) /\
  find_ficha Data.shop 7 = Some (Data.job [("P1", PInt 5)]) /\
  find_repuesto Data.shop "P2" = Some Data.P2 /\
  json_loads (Data.job [("P1", PInt 5)]).(repuestos_colocados) =
    Some (PDict [("P1", PInt 5)]) /\
  dict_has "P2" [("P1", PInt 5)] = false /\
  Backend.update_stock 7 "P2" "decrease" Data.shop =
    (Raise (HTTPException 400 "Repuesto not found in repuestos_colocados"),
     Data.shop).
Proof.
  assert (Hno : find_ficha Data.shop 8 = None) by reflexivity.
  assert (Hm : find_ficha Data.shop 7 = Some (Data.job [("P1", PInt 5)]))
    by reflexivity.
  assert (Hr : find_repuesto Data.shop "P2" = Some Data.P2) by reflexivity.
  assert (Hd : json_loads (Data.job [("P1", PInt 5)]).(repuestos_colocados) =
               Some (PDict [("P1", PInt 5)])) by (vm_compute; reflexivity).
  assert (Hk : dict_has "P2" [("P1", PInt 5)] = false) by reflexivity.
  split; [exact backend_is_a_handler|]. split; [exact Hno|].
  split.
  - exact (proj1 (update_stock_missing_rows_or_code Backend.update_stock Data.shop
                    8 "P1" "decrease" backend_is_a_handler) (or_introl Hno)).
  - repeat (split; [assumption|]).
    exact (proj2 (update_stock_missing_rows_or_code Backend.update_stock Data.shop
                    7 "P2" "decrease" backend_is_a_handler) _ _ _ Hm Hr Hd Hk).
Defined.

(** C5 refuted on the sample shop with three units and minus five recorded:
    the increase succeeds and stores minus two. *)
Lemma update_stock_increase_goes_negative :
  find_ficha Data.shop_negative 7 = Some (Data.job [("P1", PInt (-5))]) /\
  find_repuesto Data.shop_negative "P1" = Some (set_cantidad_disponible 3 Data.P1) /\
  json_loads (Data.job [("P1", PInt (-5))]).(repuestos_colocados) =
    Some (PDict [("P1", PInt (-5))]) /\
  0 <= (set_cantidad_disponible 3 Data.P1).(cantidad_disponible) /\
  Backend.update_stock 7 "P1" "increase" Data.shop_negative =
    (Ok (stock_updated (PInt (-2))), Data.shop_with (-2) [("P1", PInt (-5))]) /\
  find_repuesto (Data.shop_with (-2) [("P1", PInt (-5))]) "P1" =
    Some (set_cantidad_disponible (-2) Data.P1) /\
  (set_cantidad_disponible (-2) Data.P1).(cantidad_disponible) < 0.
Proof.
  repeat split; try (vm_compute; reflexivity). vm_compute. discriminate.
Qed.

(** C5 as amended, on the sample shop: the decrease leaves five units. *)
Lemma update_stock_keeps_stock_non_negative_witness :
  In Backend.update_stock update_stock_handlers /\
  find_ficha Data.shop 7 = Some (Data.job [("P1", PInt 5)]) /\
  find_repuesto Data.shop "P1" = Some Data.P1 /\
  json_loads (Data.job [("P1", PInt 5)]).(repuestos_colocados) =
    Some (PDict [("P1", PInt 5)]) /\
  dict_get "P1" [("P1", PInt 5)] = Some (PInt 5) /\
  0 <= Data.P1.(cantidad_disponible) /\
  ("decrease" = "decrease" \/ 0 <= 5) /\
  Backend.update_stock 7 "P1" "decrease" Data.shop =
    (Ok (stock_updated (PInt 5)), Data.shop_with 5 [("P1", PInt 5)]) /\
  find_repuesto (Data.shop_with 5 [("P1", PInt 5)]) "P1" =
    Some (set_cantidad_disponible 5 Data.P1) /\
  0 <= (set_cantidad_disponible 5 Data.P1).(cantidad_disponible).
Proof.
  assert (Hm : find_ficha Data.shop 7 = Some (Data.job [("P1", PInt 5)]))
    by reflexivity.
  assert (Hr : find_repuesto Data.shop "P1" = Some Data.P1) by reflexivity.
  assert (Hd : json_loads (Data.job [("P1", PInt 5)]).(repuestos_colocados) =
               Some (PDict [("P1", PInt 5)])) by (vm_compute; reflexivity).
  assert (Hq : dict_get "P1" [("P1", PInt 5)] = Some (PInt 5)) by reflexivity.
  assert (Hpos : 0 <= Data.P1.(cantidad_disponible)) by (vm_compute; discriminate).
  assert (Hcase : "decrease" = "decrease" \/ 0 <= 5) by (left; reflexivity).
  assert (Hdec : Backend.update_stock 7 "P1" "decrease" Data.shop =
                 (Ok (stock_updated (PInt 5)), Data.shop_with 5 [("P1", PInt 5)]))
    by (vm_compute; reflexivity).
  assert (Hr' : find_repuesto (Data.shop_with 5 [("P1", PInt 5)]) "P1" =
                Some (set_cantidad_disponible 5 Data.P1)) by reflexivity.
  repeat (split; [assumption || exact backend_is_a_handler|]).
  exact (update_stock_keeps_stock_non_negative Backend.update_stock Data.shop _ 7
           "P1" "decrease" _ Data.P1 _ _ 5 _ backend_is_a_handler Hm Hr Hd Hq Hpos
           Hcase Hdec Hr').
Defined.

(** C7 on the sample shop: [codigo] is allow-listed, [foo] is not. *)
Lemma update_repuesto_mixed_payload_witness :
  existsb (fun field => in_list field Backend.allowed_fields)
          (keys [("codigo", PStr "X"); ("foo", PInt 1)]) = true /\
  existsb (fun field => negb (in_list field Backend.allowed_fields))
          (keys [("codigo", PStr "X"); ("foo", PInt 1)]) = true /\
  find_repuesto_by_ID Data.shop 1 = Some Data.P1 /\
  exists msg,
    Backend.update_repuesto 1 [("codigo", PStr "X"); ("foo", PInt 1)] Data.shop =
    (Raise (HTTPException 500 ("Database error: " ++ msg)), Data.shop).
Proof.
  assert (Hsome : existsb (fun field => in_list field Backend.allowed_fields)
                    (keys [("codigo", PStr "X"); ("foo", PInt 1)]) = true)
    by reflexivity.
  assert (Hother : existsb (fun field => negb (in_list field Backend.allowed_fields))
                     (keys [("codigo", PStr "X"); ("foo", PInt 1)]) = true)
    by reflexivity.
  split; [exact Hsome|]. split; [exact Hother|]. split; [reflexivity|].
  exact (update_repuesto_mixed_payload 1 _ Data.shop Hsome Hother).
Defined.

(** C8 refuted on the sample shop: no part has the identifier 99, and the
    update with an empty payload answers 400, not 404. *)
Lemma update_of_missing_row_answers_400 :
  find_repuesto_by_ID Data.shop 99 = None /\
  Backend.update_repuesto 99 [] Data.shop =
    (Raise (HTTPException 400 "No valid fields to update"), Data.shop) /\
  status_of (fst (Backend.update_repuesto 99 [] Data.shop)) <> 404.
Proof.
  repeat split. vm_compute. discriminate.
Qed.

(** C8 as amended, on the sample shop: nothing has the identifier 99; the
    part 2 is deleted once. *)
Lemma no_row_is_not_found_witness :
  find_repuesto_by_ID Data.shop 99 = None /\
  find_ficha Data.shop 99 = None /\
  Backend.delete_repuesto 99 Data.shop =
    (Raise (HTTPException 404 "Repuesto no encontrado"), Data.shop) /\
  Backend.update_repuesto 99 [("codigo", PStr "X")] Data.shop =
    (Raise (HTTPException 404 "Repuesto no encontrado"), Data.shop) /\
  Backend.delete_ficha 99 Data.shop =
    (Raise (HTTPException 404 "Ficha no encontrada"), Data.shop) /\
  Backend.update_ficha 99 [("cliente", PStr "Taller Norte")] Data.shop =
    (Raise (HTTPException 404 "Ficha no encontrada"), Data.shop) /\
  Backend.delete_repuesto 2 Data.shop =
    (Ok "Repuesto eliminado exitosamente",
     mkDatabase [Data.P1] Data.shop.(maquinas)) /\
  Backend.delete_repuesto 2 (mkDatabase [Data.P1] Data.shop.(maquinas)) =
    (Raise (HTTPException 404 "Repuesto no encontrado"),
     mkDatabase [Data.P1] Data.shop.(maquinas)).
Proof.
  assert (Hp : find_repuesto_by_ID Data.shop 99 = None) by reflexivity.
  assert (Hf : find_ficha Data.shop 99 = None) by reflexivity.
  assert (Hdel : Backend.delete_repuesto 2 Data.shop =
                 (Ok "Repuesto eliminado exitosamente",
                  mkDatabase [Data.P1] Data.shop.(maquinas)))
    by (vm_compute; reflexivity).
  destruct (no_row_is_not_found 99 Data.shop) as [Hpart [Hjob _]].
  destruct (Hpart Hp) as [Hd1 [_ Hu1]]. destruct (Hjob Hf) as [Hd2 [_ Hu2]].
  destruct (no_row_is_not_found 2 Data.shop) as [_ [_ [Hagain _]]].
  split; [exact Hp|]. split; [exact Hf|]. split; [exact Hd1|].
  split; [apply Hu1; [discriminate|reflexivity|reflexivity]|].
  split; [exact Hd2|].
  split; [apply Hu2; [discriminate|reflexivity|reflexivity]|].
  split; [exact Hdel|]. exact (Hagain _ _ Hdel).
Defined.

(** C9 on the sample shop: a NaN sent for the placed parts of job 7 is
    written to the store by [update_ficha] and comes back from [get_fichas]. *)
Lemma get_fichas_keeps_non_finite_witness :
  Backend.update_ficha 7 [("repuestos_colocados", PDict [("P1", PFloat float_nan)])]
    Data.shop = (Ok "Ficha actualizada exitosamente", Data.shop_nan) /\
  In (Data.job [("P1", PFloat float_nan)]) Data.shop_nan.(maquinas) /\
  json_loads (Data.job [("P1", PFloat float_nan)]).(repuestos_colocados) =
    Some (PDict [("P1", PFloat float_nan)]) /\
  has_non_finite (PDict [("P1", PFloat float_nan)]) = true /\
  Backend.get_fichas Data.shop_nan =
    (Ok [mkFicha (Data.job [("P1", PFloat float_nan)])
                 (PDict [("P1", PFloat float_nan)]) (PDict [])],
     Data.shop_nan) /\
  exists f,
    In f [mkFicha (Data.job [("P1", PFloat float_nan)])
                  (PDict [("P1", PFloat float_nan)]) (PDict [])] /\
    f.(ficha_row) = Data.job [("P1", PFloat float_nan)] /\
    f.(ficha_colocados) = PDict [("P1", PFloat float_nan)] /\
    has_non_finite f.(ficha_colocados) = true /\
    has_non_finite (sanitize_data f.(ficha_colocados)) = false.
Proof.
  assert (Hw : Backend.update_ficha 7
                 [("repuestos_colocados", PDict [("P1", PFloat float_nan)])]
                 Data.shop = (Ok "Ficha actualizada exitosamente", Data.shop_nan))
    by (vm_compute; reflexivity).
  assert (Hin : In (Data.job [("P1", PFloat float_nan)]) Data.shop_nan.(maquinas))
    by (left; reflexivity).
  assert (Hv : json_loads (Data.job [("P1", PFloat float_nan)]).(repuestos_colocados) =
               Some (PDict [("P1", PFloat float_nan)])) by (vm_compute; reflexivity).
  assert (Hnf : has_non_finite (PDict [("P1", PFloat float_nan)]) = true)
    by reflexivity.
  assert (Hget : Backend.get_fichas Data.shop_nan =
                 (Ok [mkFicha (Data.job [("P1", PFloat float_nan)])
                              (PDict [("P1", PFloat float_nan)]) (PDict [])],
                  Data.shop_nan)) by (vm_compute; reflexivity).
  repeat (split; [assumption|]).
  exact (get_fichas_keeps_non_finite Data.shop_nan _ _ _ _ Hin Hv Hnf Hget).
Defined.

(** C10 on the sample shop: the decrease changes the quantity of P1 only. *)
Lemma update_stock_writes_only_the_stock_witness :
  In Backend.update_stock update_stock_handlers /\
  Backend.update_stock 7 "P1" "decrease" Data.shop =
    (Ok (stock_updated (PInt 5)), Data.shop_with 5 [("P1", PInt 5)]) /\
  (Data.shop_with 5 [("P1", PInt 5)]).(maquinas) = Data.shop.(maquinas) /\
  Forall2 (fun r r' =>
             r'.(ID) = r.(ID) /\ r'.(codigo) = r.(codigo) /\
             r'.(descripción) = r.(descripción) /\
             r'.(nº_estantería) = r.(nº_estantería) /\
             r'.(nº_estante) = r.(nº_estante) /\
             r'.(nº_BIN) = r.(nº_BIN) /\
             r'.(posición_BIN) = r.(posición_BIN) /\
             (codigo_is (PStr "P1") r = false -> r' = r))
          Data.shop.(repuestos) (Data.shop_with 5 [("P1", PInt 5)]).(repuestos).
Proof.
  assert (Hdec : Backend.update_stock 7 "P1" "decrease" Data.shop =
                 (Ok (stock_updated (PInt 5)), Data.shop_with 5 [("P1", PInt 5)]))
    by (vm_compute; reflexivity).
  split; [exact backend_is_a_handler|]. split; [exact Hdec|].
  exact (update_stock_writes_only_the_stock Backend.update_stock Data.shop _ 7 "P1"
           "decrease" _ backend_is_a_handler Hdec).
Defined.

(** ** The rest of the handlers on the sample shop *)

#[local] Existing Instance Sample_schema.schema.

(** An action that is no action, on the sample shop: rejected, nothing
    written. *)
Lemma update_stock_failure_keeps_store_witness :
  In Backend.update_stock update_stock_handlers /\
  Backend.update_stock 7 "P1" "sell" Data.shop =
    (Raise (HTTPException 400 "Invalid action"),
     snd (Backend.update_stock 7 "P1" "sell" Data.shop)) /\
  snd (Backend.update_stock 7 "P1" "sell" Data.shop) = Data.shop.
Proof.
  assert (Hrun : Backend.update_stock 7 "P1" "sell" Data.shop =
                 (Raise (HTTPException 400 "Invalid action"),
                  snd (Backend.update_stock 7 "P1" "sell" Data.shop)))
    by (vm_compute; reflexivity).
  split; [exact backend_is_a_handler|]. split; [exact Hrun|].
  exact (update_stock_failure_keeps_store Backend.update_stock Data.shop _ 7
           "P1" "sell" _ backend_is_a_handler Hrun).
Defined.

Lemma update_stock_invalid_action_witness :
  find_ficha Data.shop 7 = Some (Data.job [("P1", PInt 5)]) /\
  find_repuesto Data.shop "P1" = Some Data.P1 /\
  json_loads (Data.job [("P1", PInt 5)]).(repuestos_colocados) =
    Some (PDict [("P1", PInt 5)]) /\
  dict_get "P1" [("P1", PInt 5)] = Some (PInt 5) /\
  "sell" <> "decrease" /\ "sell" <> "increase" /\
  FastAPI.update_stock 7 "P1" "sell" Data.shop =
    (Raise (HTTPException 400 "Invalid action"), Data.shop).
Proof.
  assert (Hm : find_ficha Data.shop 7 = Some (Data.job [("P1", PInt 5)]))
    by reflexivity.
  assert (Hr : find_repuesto Data.shop "P1" = Some Data.P1) by reflexivity.
  assert (Hd : json_loads (Data.job [("P1", PInt 5)]).(repuestos_colocados) =
               Some (PDict [("P1", PInt 5)])) by (vm_compute; reflexivity).
  assert (Hq : dict_get "P1" [("P1", PInt 5)] = Some (PInt 5)) by reflexivity.
  assert (Hdec : "sell" <> "decrease") by discriminate.
  assert (Hinc : "sell" <> "increase") by discriminate.
  repeat (split; [assumption|]).
  exact (update_stock_invalid_action Data.shop 7 "P1" "sell"
           _ Data.P1 _ _ Hm Hr Hd Hq Hdec Hinc).
Defined.

(** A quantity recorded as a text: the decrease ends in a [TypeError]. *)
Lemma update_stock_quantity_not_a_number_witness :
  In Backend.update_stock update_stock_handlers /\
  find_ficha (Data.shop_with 10 [("P1", PStr "cinco")]) 7 =
    Some (Data.job [("P1", PStr "cinco")]) /\
  find_repuesto (Data.shop_with 10 [("P1", PStr "cinco")]) "P1" =
    Some (set_cantidad_disponible 10 Data.P1) /\
  json_loads (Data.job [("P1", PStr "cinco")]).(repuestos_colocados) =
    Some (PDict [("P1", PStr "cinco")]) /\
  dict_get "P1" [("P1", PStr "cinco")] = Some (PStr "cinco") /\
  not_a_number (PStr "cinco") = true /\
  ("decrease" = "decrease" \/ "decrease" = "increase") /\
  Backend.update_stock 7 "P1" "decrease" (Data.shop_with 10 [("P1", PStr "cinco")]) =
    (Raise TypeError, Data.shop_with 10 [("P1", PStr "cinco")]) /\
  status_of (fst (Backend.update_stock 7 "P1" "decrease"
                    (Data.shop_with 10 [("P1", PStr "cinco")]))) = 500.
Proof.
  assert (Hm : find_ficha (Data.shop_with 10 [("P1", PStr "cinco")]) 7 =
               Some (Data.job [("P1", PStr "cinco")])) by reflexivity.
  assert (Hr : find_repuesto (Data.shop_with 10 [("P1", PStr "cinco")]) "P1" =
               Some (set_cantidad_disponible 10 Data.P1)) by reflexivity.
  assert (Hd : json_loads (Data.job [("P1", PStr "cinco")]).(repuestos_colocados) =
               Some (PDict [("P1", PStr "cinco")])) by (vm_compute; reflexivity).
  assert (Hq : dict_get "P1" [("P1", PStr "cinco")] = Some (PStr "cinco"))
    by reflexivity.
  assert (Hnan : not_a_number (PStr "cinco") = true) by reflexivity.
  assert (Hact : "decrease" = "decrease" \/ "decrease" = "increase")
    by (left; reflexivity).
  repeat (split; [assumption || exact backend_is_a_handler|]).
  exact (update_stock_quantity_not_a_number Backend.update_stock _ 7 "P1"
           "decrease" _ _ _ _ backend_is_a_handler Hm Hr Hd Hq Hnan Hact).
Defined.

(** Ten units, five placed: two decreases leave none, the third is
    rejected. *)
Lemma update_stock_repeated_decrease_witness :
  find_ficha Data.shop 7 = Some (Data.job [("P1", PInt 5)]) /\
  find_repuesto Data.shop "P1" = Some Data.P1 /\
  json_loads (Data.job [("P1", PInt 5)]).(repuestos_colocados) =
    Some (PDict [("P1", PInt 5)]) /\
  dict_get "P1" [("P1", PInt 5)] = Some (PInt 5) /\
  0 <= 5 /\
  Z.of_nat 2 * 5 <= Data.P1.(cantidad_disponible) /\
  find_repuesto (decreases 7 "P1" 2 Data.shop) "P1" =
    Some (set_cantidad_disponible 0 Data.P1) /\
  fst (Backend.update_stock 7 "P1" "decrease" (decreases 7 "P1" 2 Data.shop)) =
    Raise (HTTPException 400 "Not enough stock") /\
  (0 - 5 < 0 -> decreases 7 "P1" 3 Data.shop = decreases 7 "P1" 2 Data.shop).
Proof.
  assert (Hm : find_ficha Data.shop 7 = Some (Data.job [("P1", PInt 5)]))
    by reflexivity.
  assert (Hr : find_repuesto Data.shop "P1" = Some Data.P1) by reflexivity.
  assert (Hd : json_loads (Data.job [("P1", PInt 5)]).(repuestos_colocados) =
               Some (PDict [("P1", PInt 5)])) by (vm_compute; reflexivity).
  assert (Hq : dict_get "P1" [("P1", PInt 5)] = Some (PInt 5)) by reflexivity.
  assert (Hq0 : 0 <= 5) by discriminate.
  assert (Hn : Z.of_nat 2 * 5 <= Data.P1.(cantidad_disponible))
    by (vm_compute; discriminate).
  repeat (split; [assumption|]).
  exact (update_stock_repeated_decrease Data.shop 7 "P1" _ Data.P1 _ 5 2
           Hm Hr Hd Hq Hq0 Hn).
Defined.

(** An update of a part and of a job that are not there: 404, nothing
    written. *)
Lemma update_failure_keeps_store_witness :
  (Backend.update_repuesto 99 [("codigo", PStr "X")] Data.shop =
     (Raise (HTTPException 404 "Repuesto no encontrado"),
      snd (Backend.update_repuesto 99 [("codigo", PStr "X")] Data.shop)) /\
   snd (Backend.update_repuesto 99 [("codigo", PStr "X")] Data.shop) = Data.shop) /\
  forallb (is_column maquinas_columns) (keys [("estado", PStr "lista")]) = true /\
  Backend.update_ficha 99 [("estado", PStr "lista")] Data.shop =
    (Raise (HTTPException 404 "Ficha no encontrada"),
     snd (Backend.update_ficha 99 [("estado", PStr "lista")] Data.shop)) /\
  snd (Backend.update_ficha 99 [("estado", PStr "lista")] Data.shop) = Data.shop.
Proof.
  assert (Hrun : Backend.update_repuesto 99 [("codigo", PStr "X")] Data.shop =
                 (Raise (HTTPException 404 "Repuesto no encontrado"),
                  snd (Backend.update_repuesto 99 [("codigo", PStr "X")] Data.shop)))
    by (vm_compute; reflexivity).
  assert (Hcols : forallb (is_column maquinas_columns)
                          (keys [("estado", PStr "lista")]) = true)
    by reflexivity.
  assert (Hjob : Backend.update_ficha 99 [("estado", PStr "lista")] Data.shop =
                 (Raise (HTTPException 404 "Ficha no encontrada"),
                  snd (Backend.update_ficha 99 [("estado", PStr "lista")] Data.shop)))
    by (vm_compute; reflexivity).
  split; [split; [exact Hrun|]|].
  - exact (proj1 (update_failure_keeps_store 99 [("codigo", PStr "X")] Data.shop
                    _ _) Hrun).
  - split; [exact Hcols|]. split; [exact Hjob|].
    exact (proj1 (proj2 (proj2 (update_failure_keeps_store 99
                    [("estado", PStr "lista")] Data.shop _ _))) Hcols Hjob).
Defined.

Lemma delete_repuesto_removes_the_row_witness :
  find_repuesto_by_ID Data.shop 1 = Some Data.P1 /\
  Backend.delete_repuesto 1 Data.shop =
    (Ok "Repuesto eliminado exitosamente",
     mkDatabase [Data.P2] Data.shop.(maquinas)) /\
  find_repuesto_by_ID (snd (Backend.delete_repuesto 1 Data.shop)) 1 = None.
Proof.
  assert (Hfind : find_repuesto_by_ID Data.shop 1 = Some Data.P1) by reflexivity.
  split; [exact Hfind|].
  exact (delete_repuesto_removes_the_row 1 Data.shop Data.P1 Hfind).
Defined.

Lemma delete_ficha_removes_the_row_witness :
  find_ficha Data.shop 7 = Some (Data.job [("P1", PInt 5)]) /\
  Backend.delete_ficha 7 Data.shop =
    (Ok "Ficha eliminada exitosamente", mkDatabase Data.shop.(repuestos) []) /\
  find_ficha (snd (Backend.delete_ficha 7 Data.shop)) 7 = None.
Proof.
  assert (Hfind : find_ficha Data.shop 7 = Some (Data.job [("P1", PInt 5)]))
    by reflexivity.
  split; [exact Hfind|].
  exact (delete_ficha_removes_the_row 7 Data.shop _ Hfind).
Defined.

(** Part 1 of the sample shop becomes part 9. *)
Lemma update_repuesto_can_rewrite_the_key_witness :
  find_repuesto_by_ID Data.shop 1 = Some Data.P1 /\
  find_repuesto_by_ID Data.shop 9 = None /\
  9 <> 1 /\
  FastAPI.update_repuesto 1 [("ID", PInt 9)] Data.shop =
    (Ok "Repuesto actualizado exitosamente",
     mkDatabase [mkRepuesto 9 "P1" "correa" 10 "E1" "2" "B7" "izquierda"; Data.P2]
                Data.shop.(maquinas)) /\
  find_repuesto_by_ID (snd (FastAPI.update_repuesto 1 [("ID", PInt 9)] Data.shop)) 1 =
    None.
Proof.
  assert (Hfind : find_repuesto_by_ID Data.shop 1 = Some Data.P1) by reflexivity.
  assert (Hfresh : find_repuesto_by_ID Data.shop 9 = None) by reflexivity.
  assert (Hk : 9 <> 1) by discriminate.
  repeat (split; [assumption|]).
  exact (update_repuesto_can_rewrite_the_key 1 9 Data.shop Data.P1 Hfind Hfresh Hk).
Defined.

(** The stock of part 1 set to minus three. *)
Lemma update_repuesto_sets_any_stock_witness :
  find_repuesto_by_ID Data.shop 1 = Some Data.P1 /\
  -3 <> Data.P1.(cantidad_disponible) /\
  exists db',
    Backend.update_repuesto 1 [("cantidad_disponible", PInt (-3))] Data.shop =
      (Ok "Repuesto actualizado exitosamente", db') /\
    find_repuesto_by_ID db' 1 = Some (set_cantidad_disponible (-3) Data.P1) /\
    db'.(maquinas) = Data.shop.(maquinas).
Proof.
  assert (Hfind : find_repuesto_by_ID Data.shop 1 = Some Data.P1) by reflexivity.
  assert (Hn : -3 <> Data.P1.(cantidad_disponible)) by discriminate.
  repeat (split; [assumption|]).
  exact (update_repuesto_sets_any_stock 1 (-3) Data.shop Data.P1 Hfind Hn).
Defined.

(** Part 1 updated with the ten units it has. *)
Lemma update_repuesto_same_value_witness :
  find_repuesto_by_ID Data.shop 1 = Some Data.P1 /\
  (forall r', In r' Data.shop.(repuestos) -> r'.(ID) = 1 ->
              r'.(cantidad_disponible) = 10) /\
  Backend.update_repuesto 1 [("cantidad_disponible", PInt 10)] Data.shop =
    (if found_rows
     then Ok "Repuesto actualizado exitosamente"
     else Raise (HTTPException 404 "Repuesto no encontrado"),
     Data.shop).
Proof.
  assert (Hfind : find_repuesto_by_ID Data.shop 1 = Some Data.P1) by reflexivity.
  assert (Hsame : forall r', In r' Data.shop.(repuestos) -> r'.(ID) = 1 ->
                             r'.(cantidad_disponible) = 10).
  { intros r' [<-|[<-|[]]]; [reflexivity|discriminate]. }
  repeat (split; [assumption|]).
  exact (update_repuesto_same_value 1 10 Data.shop Data.P1 Hfind Hsame).
Defined.

(** Three units of P1 written on job 7, then a decrease: seven are left. *)
Lemma update_ficha_then_update_stock_witness :
  find_ficha Data.shop 7 = Some (Data.job [("P1", PInt 5)]) /\
  find_repuesto Data.shop "P1" = Some Data.P1 /\
  json_loads (json_dumps (PDict [("P1", PInt 3)])) = Some (PDict [("P1", PInt 3)]) /\
  dict_get "P1" [("P1", PInt 3)] = Some (PInt 3) /\
  0 <= Data.P1.(cantidad_disponible) - 3 /\
  find_ficha
    (snd (Backend.update_ficha 7 [("repuestos_colocados", PDict [("P1", PInt 3)])]
            Data.shop)) 7 =
    Some (set_repuestos_colocados (json_dumps (PDict [("P1", PInt 3)]))
            (Data.job [("P1", PInt 5)])) /\
  exists body db2,
    Backend.update_stock 7 "P1" "decrease"
      (snd (Backend.update_ficha 7 [("repuestos_colocados", PDict [("P1", PInt 3)])]
              Data.shop)) = (Ok body, db2) /\
    Py.getitem body "new_stock" = Ok (PInt 7) /\
    find_repuesto db2 "P1" = Some (set_cantidad_disponible 7 Data.P1).
Proof.
  assert (Hm : find_ficha Data.shop 7 = Some (Data.job [("P1", PInt 5)]))
    by reflexivity.
  assert (Hr : find_repuesto Data.shop "P1" = Some Data.P1) by reflexivity.
  assert (Hrt : json_loads (json_dumps (PDict [("P1", PInt 3)])) =
                Some (PDict [("P1", PInt 3)])) by (vm_compute; reflexivity).
  assert (Hq : dict_get "P1" [("P1", PInt 3)] = Some (PInt 3)) by reflexivity.
  assert (Hpos : 0 <= Data.P1.(cantidad_disponible) - 3)
    by (vm_compute; discriminate).
  repeat (split; [assumption|]).
  exact (update_ficha_then_update_stock 7 "P1" Data.shop _ Data.P1 _ 3
           Hm Hr Hrt Hq Hpos).
Defined.

Lemma sample_jobs_decode (m : Maquina) :
  In m Data.shop.(maquinas) -> decodes m.
Proof.
  intros [<-|[]]. split; vm_compute; discriminate.
Defined.

Lemma get_fichas_lists_every_job_witness :
  (forall m, In m Data.shop.(maquinas) -> decodes m) /\
  exists fichas,
    Backend.get_fichas Data.shop = (Ok fichas, Data.shop) /\
    Permutation (map ficha_row fichas) Data.shop.(maquinas) /\
    Sorted (fun a b => a.(numero_ficha) <= b.(numero_ficha)) (map ficha_row fichas).
Proof.
  split; [exact sample_jobs_decode|].
  exact (get_fichas_lists_every_job Data.shop sample_jobs_decode).
Defined.

(** A job whose placed parts are the text of an open brace, next to the job
    of the sample shop. *)
Lemma get_fichas_fails_on_one_bad_row_witness :
  In (set_repuestos_colocados "{" (Data.job []))
     [Data.job [("P1", PInt 5)]; set_repuestos_colocados "{" (Data.job [])] /\
  (json_loads (set_repuestos_colocados "{" (Data.job [])).(repuestos_colocados) = None \/
   json_loads (set_repuestos_colocados "{" (Data.job [])).(repuestos_faltantes) = None) /\
  Backend.get_fichas
    (mkDatabase [Data.P1]
       [Data.job [("P1", PInt 5)]; set_repuestos_colocados "{" (Data.job [])]) =
  (Raise JSONDecodeError,
   mkDatabase [Data.P1]
     [Data.job [("P1", PInt 5)]; set_repuestos_colocados "{" (Data.job [])]).
Proof.
  assert (Hin : In (set_repuestos_colocados "{" (Data.job []))
                   [Data.job [("P1", PInt 5)];
                    set_repuestos_colocados "{" (Data.job [])])
    by (right; left; reflexivity).
  assert (Hbad :
    json_loads (set_repuestos_colocados "{" (Data.job [])).(repuestos_colocados) = None \/
    json_loads (set_repuestos_colocados "{" (Data.job [])).(repuestos_faltantes) = None)
    by (left; vm_compute; reflexivity).
  split; [exact Hin|]. split; [exact Hbad|].
  exact (get_fichas_fails_on_one_bad_row
           (mkDatabase [Data.P1]
              [Data.job [("P1", PInt 5)]; set_repuestos_colocados "{" (Data.job [])])
           _ Hin Hbad).
Defined.

(** The parts of the sample shop come back by ascending code under the
    binary collation. *)
Lemma get_repuestos_lists_every_part_witness :
  (forall a b, collate_leb a b = true \/ collate_leb b a = true) /\
  exists rows,
    Backend_main.get_repuestos Data.shop = (Ok rows, Data.shop) /\
    Permutation rows Data.shop.(repuestos) /\
    Sorted (fun a b => collate_leb a.(codigo) b.(codigo) = true) rows.
Proof.
  split; [exact String.leb_total|].
  destruct (get_repuestos_lists_every_part Data.shop) as [rows [Hrun [Hperm Hsorted]]].
  exists rows. split; [exact Hrun|]. split; [exact Hperm|].
  exact (Hsorted String.leb_total).
Defined.

Lemma create_repuesto_then_list_witness :
  Backend_main.create_repuesto 3 Requests.P3 Data.shop =
    (Ok (PDict [("message", PStr "Repuesto creado exitosamente"); ("id", PInt 3)]),
     mkDatabase [Data.P1; Data.P2; repuesto_row 3 Requests.P3]
                Data.shop.(maquinas)) /\
  exists rows rows',
    Backend_main.get_repuestos Data.shop = (Ok rows, Data.shop) /\
    Backend_main.get_repuestos
      (mkDatabase [Data.P1; Data.P2; repuesto_row 3 Requests.P3]
                  Data.shop.(maquinas)) =
      (Ok rows', mkDatabase [Data.P1; Data.P2; repuesto_row 3 Requests.P3]
                            Data.shop.(maquinas)) /\
    Permutation rows' (repuesto_row 3 Requests.P3 :: rows).
Proof.
  assert (Hrun : Backend_main.create_repuesto 3 Requests.P3 Data.shop =
    (Ok (PDict [("message", PStr "Repuesto creado exitosamente"); ("id", PInt 3)]),
     mkDatabase [Data.P1; Data.P2; repuesto_row 3 Requests.P3]
                Data.shop.(maquinas))) by (vm_compute; reflexivity).
  split; [exact Hrun|].
  exact (proj2 (proj2 (create_repuesto_then_list 3 Requests.P3 Data.shop _ _ Hrun))).
Defined.

Lemma create_then_delete_repuesto_witness :
  find_repuesto_by_ID Data.shop 3 = None /\
  Backend_main.create_repuesto 3 Requests.P3 Data.shop =
    (Ok (PDict [("message", PStr "Repuesto creado exitosamente"); ("id", PInt 3)]),
     mkDatabase [Data.P1; Data.P2; repuesto_row 3 Requests.P3]
                Data.shop.(maquinas)) /\
  Backend.delete_repuesto 3
    (mkDatabase [Data.P1; Data.P2; repuesto_row 3 Requests.P3] Data.shop.(maquinas)) =
    (Ok "Repuesto eliminado exitosamente", Data.shop).
Proof.
  assert (Hfresh : find_repuesto_by_ID Data.shop 3 = None) by reflexivity.
  assert (Hrun : Backend_main.create_repuesto 3 Requests.P3 Data.shop =
    (Ok (PDict [("message", PStr "Repuesto creado exitosamente"); ("id", PInt 3)]),
     mkDatabase [Data.P1; Data.P2; repuesto_row 3 Requests.P3]
                Data.shop.(maquinas))) by (vm_compute; reflexivity).
  repeat (split; [assumption|]).
  exact (create_then_delete_repuesto 3 Requests.P3 Data.shop _ _ Hfresh Hrun).
Defined.

Lemma create_ficha_then_list_witness :
  (exists body db',
     Backend_main.create_ficha 9 Requests.job9 Data.shop = (Ok body, db')) /\
  json_loads (json_dumps (int_dict [("P1", 2)])) = Some (int_dict [("P1", 2)]) /\
  json_loads (json_dumps (int_dict [("P2", 1)])) = Some (int_dict [("P2", 1)]) /\
  (forall m, In m Data.shop.(maquinas) -> decodes m) /\
  exists fichas listed,
    Backend.get_fichas (snd (Backend_main.create_ficha 9 Requests.job9 Data.shop)) =
      (Ok fichas, snd (Backend_main.create_ficha 9 Requests.job9 Data.shop)) /\
    In listed fichas /\
    listed.(ficha_row).(item) = 9 /\
    listed.(ficha_row).(numero_ficha) = 1499 /\
    listed.(ficha_colocados) = int_dict [("P1", 2)] /\
    listed.(ficha_faltantes) = int_dict [("P2", 1)].
Proof.
  assert (Hrun : Backend_main.create_ficha 9 Requests.job9 Data.shop =
                 (Ok (PDict [("message", PStr "Ficha creada exitosamente");
                             ("id", PInt 9)]),
                  snd (Backend_main.create_ficha 9 Requests.job9 Data.shop)))
    by (vm_compute; reflexivity).
  assert (Hc : json_loads (json_dumps (int_dict [("P1", 2)])) =
               Some (int_dict [("P1", 2)])) by (vm_compute; reflexivity).
  assert (Hf : json_loads (json_dumps (int_dict [("P2", 1)])) =
               Some (int_dict [("P2", 1)])) by (vm_compute; reflexivity).
  split; [eexists _, _; exact Hrun|].
  split; [exact Hc|]. split; [exact Hf|]. split; [exact sample_jobs_decode|].
  exact (proj2 (create_ficha_then_list 9 Requests.job9 Data.shop _ _ Hrun Hc Hf
                  sample_jobs_decode)).
Defined.

Lemma create_ficha_then_update_stock_witness :
  (exists body db',
     Backend_main.create_ficha 9 Requests.job9 Data.shop = (Ok body, db')) /\
  find_ficha Data.shop 9 = None /\
  json_loads (json_dumps (int_dict [("P1", 2)])) = Some (int_dict [("P1", 2)]) /\
  Py.getitem (int_dict [("P1", 2)]) "P1" = Ok (PInt 2) /\
  find_repuesto Data.shop "P1" = Some Data.P1 /\
  0 <= Data.P1.(cantidad_disponible) - 2 /\
  exists body' db'',
    Backend.update_stock 9 "P1" "decrease"
      (snd (Backend_main.create_ficha 9 Requests.job9 Data.shop)) =
      (Ok body', db'') /\
    Py.getitem body' "new_stock" = Ok (PInt 8) /\
    find_repuesto db'' "P1" = Some (set_cantidad_disponible 8 Data.P1).
Proof.
  assert (Hrun : Backend_main.create_ficha 9 Requests.job9 Data.shop =
                 (Ok (PDict [("message", PStr "Ficha creada exitosamente");
                             ("id", PInt 9)]),
                  snd (Backend_main.create_ficha 9 Requests.job9 Data.shop)))
    by (vm_compute; reflexivity).
  assert (Hfresh : find_ficha Data.shop 9 = None) by reflexivity.
  assert (Hc : json_loads (json_dumps (int_dict [("P1", 2)])) =
               Some (int_dict [("P1", 2)])) by (vm_compute; reflexivity).
  assert (Hq : Py.getitem (int_dict [("P1", 2)]) "P1" = Ok (PInt 2)) by reflexivity.
  assert (Hr : find_repuesto Data.shop "P1" = Some Data.P1) by reflexivity.
  assert (Hpos : 0 <= Data.P1.(cantidad_disponible) - 2)
    by (vm_compute; discriminate).
  split; [eexists _, _; exact Hrun|].
  repeat (split; [assumption|]).
  exact (create_ficha_then_update_stock 9 Requests.job9 Data.shop _ _ "P1" 2
           Data.P1 Hrun Hfresh Hc Hq Hr Hpos).
Defined.

(** A search for the serial number of the sample job, dash included. *)
Lemma search_finds_the_term_witness :
  wildcard_free "SN-88" = true /\
  first_is_continuation "SN-88" = false /\
  Backend_main.search_repuestos "SN-88" Data.shop =
    (Ok (filter (fun r => holds "SN-88" (repuesto_texts r)) Data.shop.(repuestos)),
     Data.shop) /\
  Backend_main.search_fichas "SN-88" Data.shop =
    handler (Backend.decode_fichas
               (filter (fun m => holds "SN-88" (maquina_texts m))
                       Data.shop.(maquinas))) Data.shop.
Proof.
  assert (Hwf : wildcard_free "SN-88" = true) by reflexivity.
  assert (Hfirst : first_is_continuation "SN-88" = false) by reflexivity.
  repeat (split; [assumption|]).
  exact (search_finds_the_term "SN-88" Data.shop Hwf Hfirst).
Defined.

Lemma searches_agree_witness :
  wildcard_free "SN-88" = true /\
  backslash_free "SN-88" = true /\
  first_is_continuation "SN-88" = false /\
  FastAPI_main.search_repuestos "SN-88" Data.shop =
    Backend_main.search_repuestos "SN-88" Data.shop /\
  FastAPI_main.search_fichas "SN-88" Data.shop =
    Backend_main.search_fichas "SN-88" Data.shop.
Proof.
  assert (Hwf : wildcard_free "SN-88" = true) by reflexivity.
  assert (Hbs : backslash_free "SN-88" = true) by reflexivity.
  assert (Hfirst : first_is_continuation "SN-88" = false) by reflexivity.
  repeat (split; [assumption|]).
  exact (searches_agree "SN-88" Data.shop Hwf Hbs Hfirst).
Defined.

(** A search for a percent sign answers the two parts of the sample shop. *)
Lemma search_percent_lists_all_witness :
  all_bytes (fun c => Ascii.eqb c "%") "%" = true /\
  Backend_main.search_repuestos "%" Data.shop = (Ok [Data.P1; Data.P2], Data.shop).
Proof.
  assert (Hterm : all_bytes (fun c => Ascii.eqb c "%") "%" = true) by reflexivity.
  split; [exact Hterm|].
  exact (search_percent_lists_all "%" Data.shop Hterm).
Defined.
